(** * Registration control plane of the SIP account (src/sip/sipaccount.cpp)

    A shallow embedding of the registration life cycle of [SIPAccount]:
    the credential store, the REGISTER response handler, the NAT address
    reconciliation, the jittered re-registration timer and the
    authenticated request retry.  The account object is a record, its
    methods are computations in a state monad that also collects the calls
    made to the collaborators (pjsip, the timer heap, the message engine)
    and propagates [VoipLinkException]. *)

From Stdlib Require Import ZArith String Ascii List Lia Bool.
From stdpp Require Import base option list gmap strings pretty.
From Equations Require Import Equations.

Open Scope string_scope.
Open Scope list_scope.
Open Scope Z_scope.

(** ** pjsip constants and small helpers *)

Definition pj_status_t := Z.
Definition PJ_SUCCESS : pj_status_t := 0.

(** pjsip_status_code (sip_msg.h). *)
Definition PJSIP_SC_OK : Z := 200.
Definition PJSIP_SC_ACCEPTED : Z := 202.
Definition PJSIP_SC_UNAUTHORIZED : Z := 401.
Definition PJSIP_SC_FORBIDDEN : Z := 403.
Definition PJSIP_SC_NOT_FOUND : Z := 404.
Definition PJSIP_SC_PROXY_AUTHENTICATION_REQUIRED : Z := 407.
Definition PJSIP_SC_REQUEST_TIMEOUT : Z := 408.
Definition PJSIP_SC_INTERNAL_SERVER_ERROR : Z := 500.
Definition PJSIP_SC_BAD_GATEWAY : Z := 502.
Definition PJSIP_SC_SERVICE_UNAVAILABLE : Z := 503.
Definition PJSIP_SC_SERVER_TIMEOUT : Z := 504.

(** [#define PJSIP_IS_STATUS_IN_CLASS(status_code, code_class)
     (status_code/100 == code_class/100)], C division truncating. *)
Definition PJSIP_IS_STATUS_IN_CLASS (status_code code_class : Z) : bool :=
  Z.quot status_code 100 =? Z.quot code_class 100.

(** sipaccount.cpp, lines 91-94. *)
Definition MIN_REGISTRATION_TIME : Z := 60.
Definition DEFAULT_REGISTRATION_EXPIRE : Z := 3600.
Definition REGISTRATION_FIRST_RETRY_INTERVAL : Z := 60.
Definition REGISTRATION_RETRY_INTERVAL : Z := 300.

(** Keys of a credential map (account_schema.h). *)
Definition CONFIG_ACCOUNT_REALM : string := "Account.realm".
Definition CONFIG_ACCOUNT_USERNAME : string := "Account.username".
Definition CONFIG_ACCOUNT_PASSWORD : string := "Account.password".

(** ** pj_time_val and its normalisation (pjlib, types.c) *)

Record pj_time_val := mk_time_val { sec : Z; msec : Z }.

(** The delay in milliseconds that a [pj_time_val] stands for. *)
Definition PJ_TIME_VAL_MSEC (t : pj_time_val) : Z := sec t * 1000 + msec t.

(** [do { t->sec--; t->msec += 1000; } while (t->msec <= -1000);] *)
Equations? pj_time_val_borrow (s ms : Z) : pj_time_val
  by wf (Z.to_nat (- ms)) lt :=
  pj_time_val_borrow s ms :=
    if decide (ms + 1000 <= -1000)
    then pj_time_val_borrow (s - 1) (ms + 1000)
    else mk_time_val (s - 1) (ms + 1000).
Proof. lia. Qed.

(** [pj_time_val_normalize]: the milliseconds that exceed a second are
    carried into the seconds, and both fields get the same sign. *)
Definition pj_time_val_normalize (t : pj_time_val) : pj_time_val :=
  let t1 :=
    if decide (msec t >= 1000)
    then mk_time_val (sec t + Z.quot (msec t) 1000) (Z.rem (msec t) 1000)
    else if decide (msec t <= -1000)
         then pj_time_val_borrow (sec t) (msec t)
         else t in
  if decide (sec t1 >= 1 /\ msec t1 < 0)
  then mk_time_val (sec t1 - 1) (msec t1 + 1000)
  else if decide (sec t1 < 0 /\ msec t1 > 0)
       then mk_time_val (sec t1 + 1) (msec t1 - 1000)
       else t1.

(** [std::uniform_int_distribution<T> {a, b}]: the closed range of the
    values it produces. *)
Record uniform_int_distribution := mk_dist { dist_a : Z; dist_b : Z }.

Definition draws_from (d : uniform_int_distribution) (v : Z) : Prop :=
  dist_a d <= v <= dist_b d.

(** sipaccount.h, lines 522-523. *)
Definition delay10ZeroDist_ : uniform_int_distribution := mk_dist (-10000) 10000.
Definition delay10PosDist_ : uniform_int_distribution := mk_dist 0 10000.

(** ** MD5 (RFC 1321), as computed by pj_md5_init/update/final *)

Module MD5.

Definition w32 (x : Z) : Z := x mod 2 ^ 32.
Definition add32 (x y : Z) : Z := w32 (x + y).
Definition not32 (x : Z) : Z := Z.lxor x 0xffffffff.
Definition rotl32 (x n : Z) : Z :=
  w32 (Z.lor (Z.shiftl x n) (Z.shiftr x (32 - n))).

Definition F (x y z : Z) := Z.lor (Z.land x y) (Z.land (not32 x) z).
Definition G (x y z : Z) := Z.lor (Z.land x z) (Z.land y (not32 z)).
Definition H (x y z : Z) := Z.lxor (Z.lxor x y) z.
Definition I (x y z : Z) := Z.lxor y (Z.lor x (not32 z)).

Definition K : list Z :=
  [ 0xd76aa478; 0xe8c7b756; 0x242070db; 0xc1bdceee;
    0xf57c0faf; 0x4787c62a; 0xa8304613; 0xfd469501;
    0x698098d8; 0x8b44f7af; 0xffff5bb1; 0x895cd7be;
    0x6b901122; 0xfd987193; 0xa679438e; 0x49b40821;
    0xf61e2562; 0xc040b340; 0x265e5a51; 0xe9b6c7aa;
    0xd62f105d; 0x02441453; 0xd8a1e681; 0xe7d3fbc8;
    0x21e1cde6; 0xc33707d6; 0xf4d50d87; 0x455a14ed;
    0xa9e3e905; 0xfcefa3f8; 0x676f02d9; 0x8d2a4c8a;
    0xfffa3942; 0x8771f681; 0x6d9d6122; 0xfde5380c;
    0xa4beea44; 0x4bdecfa9; 0xf6bb4b60; 0xbebfbc70;
    0x289b7ec6; 0xeaa127fa; 0xd4ef3085; 0x04881d05;
    0xd9d4d039; 0xe6db99e5; 0x1fa27cf8; 0xc4ac5665;
    0xf4292244; 0x432aff97; 0xab9423a7; 0xfc93a039;
    0x655b59c3; 0x8f0ccc92; 0xffeff47d; 0x85845dd1;
    0x6fa87e4f; 0xfe2ce6e0; 0xa3014314; 0x4e0811a1;
    0xf7537e82; 0xbd3af235; 0x2ad7d2bb; 0xeb86d391 ].

Definition S : list Z :=
  [ 7; 12; 17; 22; 7; 12; 17; 22; 7; 12; 17; 22; 7; 12; 17; 22;
    5; 9; 14; 20; 5; 9; 14; 20; 5; 9; 14; 20; 5; 9; 14; 20;
    4; 11; 16; 23; 4; 11; 16; 23; 4; 11; 16; 23; 4; 11; 16; 23;
    6; 10; 15; 21; 6; 10; 15; 21; 6; 10; 15; 21; 6; 10; 15; 21 ].

Record state := mk_state { sa : Z; sb : Z; sc : Z; sd : Z }.

Definition init : state :=
  mk_state 0x67452301 0xefcdab89 0x98badcfe 0x10325476.

(** One of the 64 operations of a block; [m] holds its 16 words. *)
Definition step (m : list Z) (st : state) (i : nat) : state :=
  let iz := Z.of_nat i in
  let '(f, g) :=
    if iz <? 16 then (F (sb st) (sc st) (sd st), iz)
    else if iz <? 32 then (G (sb st) (sc st) (sd st), (5 * iz + 1) mod 16)
    else if iz <? 48 then (H (sb st) (sc st) (sd st), (3 * iz + 5) mod 16)
    else (I (sb st) (sc st) (sd st), (7 * iz) mod 16) in
  let f' := add32 (add32 (add32 f (sa st)) (nth i K 0)) (nth (Z.to_nat g) m 0) in
  mk_state (sd st) (add32 (sb st) (rotl32 f' (nth i S 0))) (sb st) (sc st).

Definition le_word (b0 b1 b2 b3 : Z) : Z :=
  b0 + 256 * b1 + 65536 * b2 + 16777216 * b3.

Fixpoint words (bs : list Z) : list Z :=
  match bs with
  | b0 :: b1 :: b2 :: b3 :: r => le_word b0 b1 b2 b3 :: words r
  | _ => []
  end.

Definition block (st : state) (bs : list Z) : state :=
  let r := fold_left (step (words bs)) (seq 0 64) st in
  mk_state (add32 (sa st) (sa r)) (add32 (sb st) (sb r))
           (add32 (sc st) (sc r)) (add32 (sd st) (sd r)).

Definition le_bytes (n : nat) (x : Z) : list Z :=
  map (fun i => (x / 2 ^ (8 * Z.of_nat i)) mod 256) (seq 0 n).

(** Padding: a 0x80 byte, zeros up to 56 modulo 64, the bit length on
    eight bytes. *)
Definition pad (msg : list Z) : list Z :=
  let n := Z.of_nat (length msg) in
  let zeros := Z.to_nat ((55 - n) mod 64) in
  msg ++ [128] ++ repeat 0 zeros ++ le_bytes 8 ((8 * n) mod 2 ^ 64).

(** The [n] blocks of 64 bytes of the padded message, in order. *)
Fixpoint blocks (n : nat) (st : state) (bs : list Z) : state :=
  match n with
  | O => st
  | Datatypes.S n' => blocks n' (block st (firstn 64 bs)) (skipn 64 bs)
  end.

(** The 16 bytes of the digest. *)
Definition digest (msg : list Z) : list Z :=
  let p := pad msg in
  let st := blocks (length p / 64)%nat init p in
  le_bytes 4 (sa st) ++ le_bytes 4 (sb st) ++ le_bytes 4 (sc st) ++ le_bytes 4 (sd st).

End MD5.

Definition bytes_of_string (s : string) : list Z :=
  map (fun c => Z.of_nat (nat_of_ascii c)) (list_ascii_of_string s).

(** [pj_hex_digits] and [pj_val_to_hex_digit] (pjlib, string.h): the two
    digits of a byte, high nibble first. *)
Definition pj_hex_digits : string := "0123456789abcdef".

Definition hex_digit (v : Z) : ascii :=
  match String.get (Z.to_nat v) pj_hex_digits with
  | Some c => c
  | None => "0"%char
  end.

Definition pj_val_to_hex_digit (value : Z) : list ascii :=
  [ hex_digit (Z.shiftr (Z.land value 0xF0) 4); hex_digit (Z.land value 0x0F) ].

Definition hex_of_digest (d : list Z) : string :=
  string_of_list_ascii (concat (map pj_val_to_hex_digit d)).




(** [pj_str] of the C string of a [std::string] (pjlib, string.h): the
    length is that of [strlen], so the string ends before its first NUL
    character. *)
Fixpoint pj_str (s : string) : string :=
  match s with
  | EmptyString => EmptyString
  | String c r => if Ascii.eqb c "000"%char then EmptyString else String c (pj_str r)
  end.

(** Case-insensitive comparison of [pj_stricmp], as the test [== 0]. *)
Definition to_lower (c : ascii) : ascii :=
  let n := nat_of_ascii c in
  if ((65 <=? n) && (n <=? 90))%nat then ascii_of_nat (n + 32) else c.

Definition pj_stricmp_eq (a b : string) : bool :=
  String.eqb (string_of_list_ascii (map to_lower (list_ascii_of_string a)))
             (string_of_list_ascii (map to_lower (list_ascii_of_string b))).

(** ** Strings as [std::string] reads them *)

(** [s.find(c) != npos] *)
Fixpoint contains_char (c : ascii) (s : string) : bool :=
  match s with
  | EmptyString => false
  | String d r => Ascii.eqb d c || contains_char c r
  end.

Fixpoint is_prefix (p s : string) : bool :=
  match p, s with
  | EmptyString, _ => true
  | String c p', String d s' => Ascii.eqb c d && is_prefix p' s'
  | String _ _, EmptyString => false
  end.

(** [s.find(sub) != npos] *)
Fixpoint contains_string (sub s : string) : bool :=
  is_prefix sub s
  || match s with
     | EmptyString => false
     | String _ r => contains_string sub r
     end.

(** [s.find(c)]: the first position of [c], [None] for [npos]. *)
Fixpoint find_char (c : ascii) (s : string) : option nat :=
  match s with
  | EmptyString => None
  | String d r =>
      if Ascii.eqb d c then Some O
      else match find_char c r with
           | Some i => Some (Datatypes.S i)
           | None => None
           end
  end.

(** [s.find_last_of(c)]: the last position of [c], [None] for [npos]. *)
Fixpoint find_last_of (c : ascii) (s : string) : option nat :=
  match s with
  | EmptyString => None
  | String d r =>
      match find_last_of c r with
      | Some i => Some (Datatypes.S i)
      | None => if Ascii.eqb d c then Some O else None
      end
  end.

(** [s.substr(pos)], for [pos <= s.size()]. *)
Fixpoint substr_from (pos : nat) (s : string) : string :=
  match pos, s with
  | O, _ => s
  | Datatypes.S p, String _ r => substr_from p r
  | Datatypes.S _, EmptyString => EmptyString
  end.

(** [s.substr(0, n)] *)
Fixpoint substr_to (n : nat) (s : string) : string :=
  match n, s with
  | O, _ => EmptyString
  | Datatypes.S p, String c r => String c (substr_to p r)
  | Datatypes.S _, EmptyString => EmptyString
  end.

(** ** Paths (src/fileutils.cpp, lines 373-412), on a POSIX build *)

Module fileutils.

(** fileutils.h: the separator where [_WIN32] is not defined. *)
Definition DIR_SEPARATOR_STR : string := "/".

Definition getFileExtension (filename : string) : string :=
  let result :=
    match find_last_of "."%char filename with
    | Some sep =>
        if negb (sep =? String.length filename - 1)%nat
        then substr_from (Datatypes.S sep) filename
        else ""
    | None => ""
    end in
  if (8 <=? String.length result)%nat then "" else result.

Definition isPathRelative (path : string) : bool :=
  negb (String.eqb path "")
  && negb (match path with
           | String c _ => Ascii.eqb c "/"%char
           | EmptyString => false
           end).

(** [path.compare(0, base_sep.size(), base_sep) == 0] holds when [path]
    begins with [base_sep]. *)
Definition getCleanPath (base path : string) : string :=
  if String.eqb base "" || (String.length path <? String.length base)%nat
  then path
  else
    let base_sep := base +:+ DIR_SEPARATOR_STR in
    if is_prefix base_sep path
    then substr_from (String.length base_sep) path
    else path.

Definition getFullPath (base path : string) : string :=
  let isRelative := negb (String.eqb base "") && isPathRelative path in
  if isRelative then base +:+ DIR_SEPARATOR_STR +:+ path else path.

(** [eraseFile_posix] (lines 913-960).  What the system answers: whether
    [open] gave a descriptor, the size that [fstat] reports, if any, and
    whether the buffer could be allocated.  The result comes with the
    calls made on the descriptor. *)
Definition ERASE_BLOCK : N := 4096%N.

Inductive fd_call := Lseek (offset : N) | Write (count : N) | Fsync | Close.

Definition erase_size_blocks (st_size : N) : N :=
  let size_blocks := (st_size / ERASE_BLOCK)%N in
  if negb (st_size mod ERASE_BLOCK =? 0)%N then (size_blocks + 1)%N else size_blocks.

Definition eraseFile_posix (opened : bool) (fstat : option N) (allocated dosync : bool)
  : bool * list fd_call :=
  if negb opened then (false, [])
  else
    match fstat with
    | None => (false, [Close])
    | Some st_size =>
        if (st_size =? 0)%N then (false, [Close])
        else if negb allocated then (false, [Close])
        else
          (true,
           concat (map (fun i => [Lseek (N.of_nat i * ERASE_BLOCK)%N; Write ERASE_BLOCK])
                       (seq 0 (N.to_nat (erase_size_blocks st_size))))
           ++ (if dosync then [Fsync] else []) ++ [Close])
    end.

(** Whether the calls, made in turn on a descriptor at offset [pos],
    write the byte at offset [byte]: [lseek] moves the offset, [write]
    writes [count] bytes there and moves past them, and nothing is written
    once the descriptor is closed.  Each call is taken to succeed in full;
    [eraseFile_posix] does not look at what [lseek] and [write] return. *)
Fixpoint overwrites (pos : N) (calls : list fd_call) (byte : N) : bool :=
  match calls with
  | [] => false
  | Lseek offset :: rest => overwrites offset rest byte
  | Write count :: rest =>
      ((pos <=? byte)%N && (byte <? pos + count)%N) || overwrites (pos + count)%N rest byte
  | Fsync :: rest => overwrites pos rest byte
  | Close :: _ => false
  end.

Definition is_close (c : fd_call) : bool :=
  match c with Close => true | _ => false end.

End fileutils.

(** ** Socket addresses

    [IpAddr] (ip_utils.h) wraps a [pj_sockaddr]; neither ip_utils nor pjlib
    is among the sources, so the account is written against the operations
    it calls on an address. *)

Class IpAddrOps := {
  IpAddr : Type;
  (** [IpAddr {}] *)
  IpAddr_default : IpAddr;
  (** [IpAddr(std::string_view)] *)
  IpAddr_of_string : string -> IpAddr;
  (** [explicit operator bool]: the address is usable *)
  IpAddr_bool : IpAddr -> bool;
  (** [operator==] *)
  IpAddr_eqb : IpAddr -> IpAddr -> bool;
  getPort : IpAddr -> Z;
  setPort : IpAddr -> Z -> IpAddr;
  (** [toString(include_port, force_ipv6_brackets)] *)
  toString : IpAddr -> bool -> bool -> string;
  isPrivate : IpAddr -> bool;
  isIpv6 : IpAddr -> bool;
  (** [static IpAddr::isIpv6(std::string_view)] *)
  IpAddr_isIpv6 : string -> bool;
  (** [pj_sockaddr_parse(pj_AF_UNSPEC(), 0, str, out)]: the status and
      what is left in [out], which was [IpAddr {}] before the call *)
  pj_sockaddr_parse : string -> pj_status_t * IpAddr
}.

(** *** An IPv4 instance *)

Module IPv4.

Inductive family := AF_UNSPEC | AF_INET.

Record sockaddr := mk_sockaddr { sa_family : family; sa_addr : Z; sa_port : Z }.

Definition digit_of (c : ascii) : option Z :=
  let n := Z.of_nat (nat_of_ascii c) in
  if (48 <=? n) && (n <=? 57) then Some (n - 48) else None.

Fixpoint parse_dec_from (acc : Z) (l : list ascii) : option Z :=
  match l with
  | [] => Some acc
  | c :: r =>
      match digit_of c with
      | Some d => parse_dec_from (10 * acc + d) r
      | None => None
      end
  end.

Definition parse_dec (l : list ascii) : option Z :=
  match l with
  | [] => None
  | _ => parse_dec_from 0 l
  end.

Fixpoint split_dots (cur : list ascii) (l : list ascii) : list (list ascii) :=
  match l with
  | [] => [rev cur]
  | c :: r =>
      if Ascii.eqb c "."%char then rev cur :: split_dots [] r
      else split_dots (c :: cur) r
  end.

Definition octet (l : list ascii) : option Z :=
  match parse_dec l with
  | Some n => if (n <=? 255) && (length l <=? 3)%nat then Some n else None
  | None => None
  end.

(** A dotted quad, as a 32-bit number in host order. *)
Definition parse (s : string) : option Z :=
  match split_dots [] (list_ascii_of_string s) with
  | [a; b; c; d] =>
      match octet a, octet b, octet c, octet d with
      | Some a, Some b, Some c, Some d =>
          Some (a * 16777216 + b * 65536 + c * 256 + d)
      | _, _, _, _ => None
      end
  | _ => None
  end.

Definition unspec : sockaddr := mk_sockaddr AF_UNSPEC 0 0.

Definition of_string (s : string) : sockaddr :=
  match parse s with
  | Some a => mk_sockaddr AF_INET a 0
  | None => unspec
  end.

Definition family_eqb (f g : family) : bool :=
  match f, g with
  | AF_UNSPEC, AF_UNSPEC | AF_INET, AF_INET => true
  | _, _ => false
  end.

Definition eqb (x y : sockaddr) : bool :=
  family_eqb (sa_family x) (sa_family y)
  && (sa_addr x =? sa_addr y) && (sa_port x =? sa_port y).

Definition to_string (x : sockaddr) (include_port force_ipv6_brackets : bool) : string :=
  match sa_family x with
  | AF_UNSPEC => ""
  | AF_INET =>
      let a := sa_addr x in
      pretty (a / 16777216) +:+ "." +:+ pretty ((a / 65536) mod 256) +:+ "."
      +:+ pretty ((a / 256) mod 256) +:+ "." +:+ pretty (a mod 256)
      +:+ (if include_port then ":" +:+ pretty (sa_port x) else "")
  end.

(** Modelled from the spec: [IpAddr::isPrivate] (ip_utils.cpp is not among
    the sources).  The spec only names addresses private or public
    (non-private); the private ones are taken to be the loopback network
    and the private networks of RFC 1918: 127/8, 10/8, 172.16/12 and
    192.168/16. *)
Definition is_private (x : sockaddr) : bool :=
  match sa_family x with
  | AF_UNSPEC => false
  | AF_INET =>
      let a := sa_addr x in
      (Z.shiftr a 24 =? 127) || (Z.shiftr a 24 =? 10)
      || (Z.shiftr a 20 =? 0xac1) || (Z.shiftr a 16 =? 0xc0a8)
  end.

Definition PJ_EINVAL : pj_status_t := 70004.

(** Modelled from the spec: the operations of [IpAddr] on IPv4 literals
    (ip_utils.h and pjlib's sock_common.c are not among the sources).  A
    string that is not a dotted quad gives no address: an IPv6 literal or
    a host name is outside this instance. *)
Definition ops : IpAddrOps := {|
  IpAddr := sockaddr;
  IpAddr_default := unspec;
  IpAddr_of_string := of_string;
  IpAddr_bool := fun x => family_eqb (sa_family x) AF_INET;
  IpAddr_eqb := eqb;
  getPort := sa_port;
  setPort := fun x p => mk_sockaddr (sa_family x) (sa_addr x) (p mod 65536);
  toString := to_string;
  isPrivate := is_private;
  isIpv6 := fun _ => false;
  IpAddr_isIpv6 := fun _ => false;
  pj_sockaddr_parse := fun s =>
    match parse s with
    | Some a => (PJ_SUCCESS, mk_sockaddr AF_INET a 0)
    | None => (PJ_EINVAL, unspec)
    end
|}.

End IPv4.

(** ** The account object *)

(** registration_states.h: the states that sipaccount.cpp sets. *)
Inductive RegistrationState :=
| UNREGISTERED
| TRYING
| REGISTERED
| ERROR_GENERIC
| ERROR_AUTH
| ERROR_HOST
| ERROR_SERVICE_UNAVAILABLE.

(** pjsip_transport_type_e (sip_types.h), the types the account uses. *)
Inductive pjsip_transport_type_e :=
| PJSIP_TRANSPORT_UNSPECIFIED
| PJSIP_TRANSPORT_UDP
| PJSIP_TRANSPORT_TLS
| PJSIP_TRANSPORT_UDP6
| PJSIP_TRANSPORT_TLS6
| PJSIP_TRANSPORT_START_OTHER.

(** [pjsip_transport_get_default_port_for_type] (sip_transport.c). *)
Definition pjsip_transport_get_default_port_for_type (t : pjsip_transport_type_e) : Z :=
  match t with
  | PJSIP_TRANSPORT_UDP | PJSIP_TRANSPORT_UDP6 => 5060
  | PJSIP_TRANSPORT_TLS | PJSIP_TRANSPORT_TLS6 => 5061
  | PJSIP_TRANSPORT_UNSPECIFIED | PJSIP_TRANSPORT_START_OTHER => 0
  end.

(** A [pjsip_transport]: its address stands for the pointer, [tp_secure]
    for [PJSIP_TRANSPORT_IS_SECURE]. *)
Record pjsip_transport := mk_transport {
  tp_ptr : nat;
  tp_key_type : pjsip_transport_type_e;
  tp_secure : bool
}.

(** A [std::shared_ptr<SipTransport>] that is not null; [st_get] is
    [SipTransport::get()]. *)
Record SipTransport := mk_SipTransport {
  st_ptr : nat;
  st_get : option pjsip_transport
}.

Definition TlsListener := nat.
Definition pjsip_regc := nat.

Record pjsip_host_port := mk_host_port { hp_host : string; hp_port : Z }.

(** [auto_rereg_] (sipaccount.h, lines 515-520); of the timer entry, its
    [id] and whether [user_data] is allocated. *)
Record AutoRereg := mk_AutoRereg {
  active : bool;
  timer_id : bool;
  timer_user_data : bool;
  attempt_cnt : Z
}.

(** [SIPAccount::Credentials] (sipaccount.h, lines 531-543). *)
Record Credentials := mk_Credentials {
  realm : string;
  username : string;
  password : string;
  password_h : string
}.

Inductive pjsip_cred_data_type := PJSIP_CRED_DATA_PLAIN_PASSWD | PJSIP_CRED_DATA_DIGEST.

Record pjsip_cred_info := mk_cred_info {
  ci_realm : string;
  ci_scheme : string;
  ci_username : string;
  ci_data_type : pjsip_cred_data_type;
  ci_data : string
}.

(** ** Effects *)

Inductive regc_request := REGISTER | UNREGISTER.

(** [pjsip_tx_data] of an outgoing request: the value of its CSeq header
    and the number of authorization headers it carries. *)
Record pjsip_tx_data := mk_tx_data { td_cseq : Z; td_auth_hdrs : nat }.

(** The calls made to the collaborators, in program order. *)
Inductive Event :=
| EvJamiErr (msg : string)
| EvRegcCreate (r : pjsip_regc)
| EvRegcDestroy (r : pjsip_regc)
| EvRegcSetViaSentBy (r : option pjsip_regc) (via : pjsip_host_port) (tp : option nat)
| EvRegcSetRouteSet (r : option pjsip_regc) (route : string)
| EvRegcSetCredentials (r : pjsip_regc) (c : list pjsip_cred_info)
| EvRegcUpdateContact (r : pjsip_regc) (contact : string)
| EvRegcReleaseTransport (r : pjsip_regc)
| EvRegcSend (r : pjsip_regc) (req : regc_request) (contact : string)
| EvCancelTimer
| EvScheduleTimer (delay : pj_time_val)
| EvAddStateListener (t : nat)
| EvRemoveStateListener (t : nat)
| EvHangupCalls
| EvInitTlsConfiguration
| EvInitStunConfiguration
| EvStunStatusFailed
| EvPresenceSubscribeClient
| EvPresenceSendPresence
| EvUpnpReserveMapping
| EvResolveSrvName (name : string)
| EvReleasedCb (transport_free : bool)
| EvSendRequest (tdata : pjsip_tx_data)
| EvMessageSent (to : string) (id : Z) (ok : bool).

Definition VoipLinkException := string.

(** How a method ends: it returns, it throws, or it dereferences a null
    pointer. *)
Inductive outcome (A : Type) :=
| Done (a : A)
| Thrown (e : VoipLinkException)
| Undefined.

Arguments Done {A} a.
Arguments Thrown {A} e.
Arguments Undefined {A}.

(** The platform the daemon is built for: the tag of the push notification
    provider in the contact header, [PN_FCM] on Android, [PN_APNS] on Apple
    systems, none elsewhere. *)
Class Platform := { PN_PROVIDER : option string }.

Section Account.

Context `{IpAddrOps} `{Platform}.

(** The members of [SIPAccount] (and of its bases) that registration reads
    or writes.  [registrationStateDetailed_] keeps the code of the pair:
    its text is pjsip's status text of that code.  [upnpCtrl_] and
    [presenceEnabled_] tell whether the controller exists and whether
    [presence_ and presence_->isEnabled()] holds.  [publishedIpAddress_]
    is what [getPublishedAddress] gives, [publishedIp_] what
    [getPublishedIpAddress] gives. *)
Record SIPAccount := mk_SIPAccount {
  enabled_ : bool;
  active_ : bool;
  hostname_ : string;
  username_ : string;
  displayName_ : string;
  deviceKey_ : string;
  serviceRoute_ : string;
  tlsServerName_ : string;
  tlsEnable_ : bool;
  stunEnabled_ : bool;
  allowIPAutoRewrite_ : bool;
  registrationRefreshEnabled_ : bool;
  registrationExpire_ : Z;
  receivedParameter_ : string;
  rPort_ : Z;
  localPort_ : Z;
  tlsListenerPort_ : Z;
  publishedPortUsed_ : Z;
  upnpCtrl_ : bool;
  presenceEnabled_ : bool;
  registrationState_ : RegistrationState;
  registrationStateDetailed_ : Z;
  regc_ : option pjsip_regc;
  bRegister_ : bool;
  hostIp_ : IpAddr;
  transport_ : option SipTransport;
  tlsListener_ : option TlsListener;
  transportType_ : pjsip_transport_type_e;
  auto_rereg_ : AutoRereg;
  via_addr_ : pjsip_host_port;
  via_tp_ : option nat;
  publishedSameasLocal_ : bool;
  publishedIpAddress_ : string;
  publishedIp_ : IpAddr;
  publishedPort_ : Z;
  contactHeader_ : string;
  contactAddress_ : IpAddr;
  credentials_ : list Credentials;
  cred_ : list pjsip_cred_info
}.

Definition set_registrationState_ (v : RegistrationState) (a : SIPAccount) : SIPAccount :=
  {|
    enabled_ := enabled_ a; active_ := active_ a; hostname_ := hostname_ a;
    username_ := username_ a; displayName_ := displayName_ a;
    deviceKey_ := deviceKey_ a; serviceRoute_ := serviceRoute_ a;
    tlsServerName_ := tlsServerName_ a; tlsEnable_ := tlsEnable_ a;
    stunEnabled_ := stunEnabled_ a;
    allowIPAutoRewrite_ := allowIPAutoRewrite_ a;
    registrationRefreshEnabled_ := registrationRefreshEnabled_ a;
    registrationExpire_ := registrationExpire_ a;
    receivedParameter_ := receivedParameter_ a; rPort_ := rPort_ a;
    localPort_ := localPort_ a; tlsListenerPort_ := tlsListenerPort_ a;
    publishedPortUsed_ := publishedPortUsed_ a; upnpCtrl_ := upnpCtrl_ a;
    presenceEnabled_ := presenceEnabled_ a; registrationState_ := v;
    registrationStateDetailed_ := registrationStateDetailed_ a;
    regc_ := regc_ a; bRegister_ := bRegister_ a; hostIp_ := hostIp_ a;
    transport_ := transport_ a; tlsListener_ := tlsListener_ a;
    transportType_ := transportType_ a; auto_rereg_ := auto_rereg_ a;
    via_addr_ := via_addr_ a; via_tp_ := via_tp_ a;
    publishedSameasLocal_ := publishedSameasLocal_ a;
    publishedIpAddress_ := publishedIpAddress_ a;
    publishedIp_ := publishedIp_ a; publishedPort_ := publishedPort_ a;
    contactHeader_ := contactHeader_ a; contactAddress_ := contactAddress_ a;
    credentials_ := credentials_ a; cred_ := cred_ a
  |}.

Definition set_registrationStateDetailed_ (v : Z) (a : SIPAccount) : SIPAccount :=
  {|
    enabled_ := enabled_ a; active_ := active_ a; hostname_ := hostname_ a;
    username_ := username_ a; displayName_ := displayName_ a;
    deviceKey_ := deviceKey_ a; serviceRoute_ := serviceRoute_ a;
    tlsServerName_ := tlsServerName_ a; tlsEnable_ := tlsEnable_ a;
    stunEnabled_ := stunEnabled_ a;
    allowIPAutoRewrite_ := allowIPAutoRewrite_ a;
    registrationRefreshEnabled_ := registrationRefreshEnabled_ a;
    registrationExpire_ := registrationExpire_ a;
    receivedParameter_ := receivedParameter_ a; rPort_ := rPort_ a;
    localPort_ := localPort_ a; tlsListenerPort_ := tlsListenerPort_ a;
    publishedPortUsed_ := publishedPortUsed_ a; upnpCtrl_ := upnpCtrl_ a;
    presenceEnabled_ := presenceEnabled_ a;
    registrationState_ := registrationState_ a;
    registrationStateDetailed_ := v; regc_ := regc_ a;
    bRegister_ := bRegister_ a; hostIp_ := hostIp_ a;
    transport_ := transport_ a; tlsListener_ := tlsListener_ a;
    transportType_ := transportType_ a; auto_rereg_ := auto_rereg_ a;
    via_addr_ := via_addr_ a; via_tp_ := via_tp_ a;
    publishedSameasLocal_ := publishedSameasLocal_ a;
    publishedIpAddress_ := publishedIpAddress_ a;
    publishedIp_ := publishedIp_ a; publishedPort_ := publishedPort_ a;
    contactHeader_ := contactHeader_ a; contactAddress_ := contactAddress_ a;
    credentials_ := credentials_ a; cred_ := cred_ a
  |}.

Definition set_regc_ (v : option pjsip_regc) (a : SIPAccount) : SIPAccount :=
  {|
    enabled_ := enabled_ a; active_ := active_ a; hostname_ := hostname_ a;
    username_ := username_ a; displayName_ := displayName_ a;
    deviceKey_ := deviceKey_ a; serviceRoute_ := serviceRoute_ a;
    tlsServerName_ := tlsServerName_ a; tlsEnable_ := tlsEnable_ a;
    stunEnabled_ := stunEnabled_ a;
    allowIPAutoRewrite_ := allowIPAutoRewrite_ a;
    registrationRefreshEnabled_ := registrationRefreshEnabled_ a;
    registrationExpire_ := registrationExpire_ a;
    receivedParameter_ := receivedParameter_ a; rPort_ := rPort_ a;
    localPort_ := localPort_ a; tlsListenerPort_ := tlsListenerPort_ a;
    publishedPortUsed_ := publishedPortUsed_ a; upnpCtrl_ := upnpCtrl_ a;
    presenceEnabled_ := presenceEnabled_ a;
    registrationState_ := registrationState_ a;
    registrationStateDetailed_ := registrationStateDetailed_ a; regc_ := v;
    bRegister_ := bRegister_ a; hostIp_ := hostIp_ a;
    transport_ := transport_ a; tlsListener_ := tlsListener_ a;
    transportType_ := transportType_ a; auto_rereg_ := auto_rereg_ a;
    via_addr_ := via_addr_ a; via_tp_ := via_tp_ a;
    publishedSameasLocal_ := publishedSameasLocal_ a;
    publishedIpAddress_ := publishedIpAddress_ a;
    publishedIp_ := publishedIp_ a; publishedPort_ := publishedPort_ a;
    contactHeader_ := contactHeader_ a; contactAddress_ := contactAddress_ a;
    credentials_ := credentials_ a; cred_ := cred_ a
  |}.

Definition set_bRegister_ (v : bool) (a : SIPAccount) : SIPAccount :=
  {|
    enabled_ := enabled_ a; active_ := active_ a; hostname_ := hostname_ a;
    username_ := username_ a; displayName_ := displayName_ a;
    deviceKey_ := deviceKey_ a; serviceRoute_ := serviceRoute_ a;
    tlsServerName_ := tlsServerName_ a; tlsEnable_ := tlsEnable_ a;
    stunEnabled_ := stunEnabled_ a;
    allowIPAutoRewrite_ := allowIPAutoRewrite_ a;
    registrationRefreshEnabled_ := registrationRefreshEnabled_ a;
    registrationExpire_ := registrationExpire_ a;
    receivedParameter_ := receivedParameter_ a; rPort_ := rPort_ a;
    localPort_ := localPort_ a; tlsListenerPort_ := tlsListenerPort_ a;
    publishedPortUsed_ := publishedPortUsed_ a; upnpCtrl_ := upnpCtrl_ a;
    presenceEnabled_ := presenceEnabled_ a;
    registrationState_ := registrationState_ a;
    registrationStateDetailed_ := registrationStateDetailed_ a;
    regc_ := regc_ a; bRegister_ := v; hostIp_ := hostIp_ a;
    transport_ := transport_ a; tlsListener_ := tlsListener_ a;
    transportType_ := transportType_ a; auto_rereg_ := auto_rereg_ a;
    via_addr_ := via_addr_ a; via_tp_ := via_tp_ a;
    publishedSameasLocal_ := publishedSameasLocal_ a;
    publishedIpAddress_ := publishedIpAddress_ a;
    publishedIp_ := publishedIp_ a; publishedPort_ := publishedPort_ a;
    contactHeader_ := contactHeader_ a; contactAddress_ := contactAddress_ a;
    credentials_ := credentials_ a; cred_ := cred_ a
  |}.

Definition set_hostIp_ (v : IpAddr) (a : SIPAccount) : SIPAccount :=
  {|
    enabled_ := enabled_ a; active_ := active_ a; hostname_ := hostname_ a;
    username_ := username_ a; displayName_ := displayName_ a;
    deviceKey_ := deviceKey_ a; serviceRoute_ := serviceRoute_ a;
    tlsServerName_ := tlsServerName_ a; tlsEnable_ := tlsEnable_ a;
    stunEnabled_ := stunEnabled_ a;
    allowIPAutoRewrite_ := allowIPAutoRewrite_ a;
    registrationRefreshEnabled_ := registrationRefreshEnabled_ a;
    registrationExpire_ := registrationExpire_ a;
    receivedParameter_ := receivedParameter_ a; rPort_ := rPort_ a;
    localPort_ := localPort_ a; tlsListenerPort_ := tlsListenerPort_ a;
    publishedPortUsed_ := publishedPortUsed_ a; upnpCtrl_ := upnpCtrl_ a;
    presenceEnabled_ := presenceEnabled_ a;
    registrationState_ := registrationState_ a;
    registrationStateDetailed_ := registrationStateDetailed_ a;
    regc_ := regc_ a; bRegister_ := bRegister_ a; hostIp_ := v;
    transport_ := transport_ a; tlsListener_ := tlsListener_ a;
    transportType_ := transportType_ a; auto_rereg_ := auto_rereg_ a;
    via_addr_ := via_addr_ a; via_tp_ := via_tp_ a;
    publishedSameasLocal_ := publishedSameasLocal_ a;
    publishedIpAddress_ := publishedIpAddress_ a;
    publishedIp_ := publishedIp_ a; publishedPort_ := publishedPort_ a;
    contactHeader_ := contactHeader_ a; contactAddress_ := contactAddress_ a;
    credentials_ := credentials_ a; cred_ := cred_ a
  |}.

Definition set_transport_ (v : option SipTransport) (a : SIPAccount) : SIPAccount :=
  {|
    enabled_ := enabled_ a; active_ := active_ a; hostname_ := hostname_ a;
    username_ := username_ a; displayName_ := displayName_ a;
    deviceKey_ := deviceKey_ a; serviceRoute_ := serviceRoute_ a;
    tlsServerName_ := tlsServerName_ a; tlsEnable_ := tlsEnable_ a;
    stunEnabled_ := stunEnabled_ a;
    allowIPAutoRewrite_ := allowIPAutoRewrite_ a;
    registrationRefreshEnabled_ := registrationRefreshEnabled_ a;
    registrationExpire_ := registrationExpire_ a;
    receivedParameter_ := receivedParameter_ a; rPort_ := rPort_ a;
    localPort_ := localPort_ a; tlsListenerPort_ := tlsListenerPort_ a;
    publishedPortUsed_ := publishedPortUsed_ a; upnpCtrl_ := upnpCtrl_ a;
    presenceEnabled_ := presenceEnabled_ a;
    registrationState_ := registrationState_ a;
    registrationStateDetailed_ := registrationStateDetailed_ a;
    regc_ := regc_ a; bRegister_ := bRegister_ a; hostIp_ := hostIp_ a;
    transport_ := v; tlsListener_ := tlsListener_ a;
    transportType_ := transportType_ a; auto_rereg_ := auto_rereg_ a;
    via_addr_ := via_addr_ a; via_tp_ := via_tp_ a;
    publishedSameasLocal_ := publishedSameasLocal_ a;
    publishedIpAddress_ := publishedIpAddress_ a;
    publishedIp_ := publishedIp_ a; publishedPort_ := publishedPort_ a;
    contactHeader_ := contactHeader_ a; contactAddress_ := contactAddress_ a;
    credentials_ := credentials_ a; cred_ := cred_ a
  |}.

Definition set_tlsListener_ (v : option TlsListener) (a : SIPAccount) : SIPAccount :=
  {|
    enabled_ := enabled_ a; active_ := active_ a; hostname_ := hostname_ a;
    username_ := username_ a; displayName_ := displayName_ a;
    deviceKey_ := deviceKey_ a; serviceRoute_ := serviceRoute_ a;
    tlsServerName_ := tlsServerName_ a; tlsEnable_ := tlsEnable_ a;
    stunEnabled_ := stunEnabled_ a;
    allowIPAutoRewrite_ := allowIPAutoRewrite_ a;
    registrationRefreshEnabled_ := registrationRefreshEnabled_ a;
    registrationExpire_ := registrationExpire_ a;
    receivedParameter_ := receivedParameter_ a; rPort_ := rPort_ a;
    localPort_ := localPort_ a; tlsListenerPort_ := tlsListenerPort_ a;
    publishedPortUsed_ := publishedPortUsed_ a; upnpCtrl_ := upnpCtrl_ a;
    presenceEnabled_ := presenceEnabled_ a;
    registrationState_ := registrationState_ a;
    registrationStateDetailed_ := registrationStateDetailed_ a;
    regc_ := regc_ a; bRegister_ := bRegister_ a; hostIp_ := hostIp_ a;
    transport_ := transport_ a; tlsListener_ := v;
    transportType_ := transportType_ a; auto_rereg_ := auto_rereg_ a;
    via_addr_ := via_addr_ a; via_tp_ := via_tp_ a;
    publishedSameasLocal_ := publishedSameasLocal_ a;
    publishedIpAddress_ := publishedIpAddress_ a;
    publishedIp_ := publishedIp_ a; publishedPort_ := publishedPort_ a;
    contactHeader_ := contactHeader_ a; contactAddress_ := contactAddress_ a;
    credentials_ := credentials_ a; cred_ := cred_ a
  |}.

Definition set_transportType_ (v : pjsip_transport_type_e) (a : SIPAccount) : SIPAccount :=
  {|
    enabled_ := enabled_ a; active_ := active_ a; hostname_ := hostname_ a;
    username_ := username_ a; displayName_ := displayName_ a;
    deviceKey_ := deviceKey_ a; serviceRoute_ := serviceRoute_ a;
    tlsServerName_ := tlsServerName_ a; tlsEnable_ := tlsEnable_ a;
    stunEnabled_ := stunEnabled_ a;
    allowIPAutoRewrite_ := allowIPAutoRewrite_ a;
    registrationRefreshEnabled_ := registrationRefreshEnabled_ a;
    registrationExpire_ := registrationExpire_ a;
    receivedParameter_ := receivedParameter_ a; rPort_ := rPort_ a;
    localPort_ := localPort_ a; tlsListenerPort_ := tlsListenerPort_ a;
    publishedPortUsed_ := publishedPortUsed_ a; upnpCtrl_ := upnpCtrl_ a;
    presenceEnabled_ := presenceEnabled_ a;
    registrationState_ := registrationState_ a;
    registrationStateDetailed_ := registrationStateDetailed_ a;
    regc_ := regc_ a; bRegister_ := bRegister_ a; hostIp_ := hostIp_ a;
    transport_ := transport_ a; tlsListener_ := tlsListener_ a;
    transportType_ := v; auto_rereg_ := auto_rereg_ a;
    via_addr_ := via_addr_ a; via_tp_ := via_tp_ a;
    publishedSameasLocal_ := publishedSameasLocal_ a;
    publishedIpAddress_ := publishedIpAddress_ a;
    publishedIp_ := publishedIp_ a; publishedPort_ := publishedPort_ a;
    contactHeader_ := contactHeader_ a; contactAddress_ := contactAddress_ a;
    credentials_ := credentials_ a; cred_ := cred_ a
  |}.

Definition set_auto_rereg_ (v : AutoRereg) (a : SIPAccount) : SIPAccount :=
  {|
    enabled_ := enabled_ a; active_ := active_ a; hostname_ := hostname_ a;
    username_ := username_ a; displayName_ := displayName_ a;
    deviceKey_ := deviceKey_ a; serviceRoute_ := serviceRoute_ a;
    tlsServerName_ := tlsServerName_ a; tlsEnable_ := tlsEnable_ a;
    stunEnabled_ := stunEnabled_ a;
    allowIPAutoRewrite_ := allowIPAutoRewrite_ a;
    registrationRefreshEnabled_ := registrationRefreshEnabled_ a;
    registrationExpire_ := registrationExpire_ a;
    receivedParameter_ := receivedParameter_ a; rPort_ := rPort_ a;
    localPort_ := localPort_ a; tlsListenerPort_ := tlsListenerPort_ a;
    publishedPortUsed_ := publishedPortUsed_ a; upnpCtrl_ := upnpCtrl_ a;
    presenceEnabled_ := presenceEnabled_ a;
    registrationState_ := registrationState_ a;
    registrationStateDetailed_ := registrationStateDetailed_ a;
    regc_ := regc_ a; bRegister_ := bRegister_ a; hostIp_ := hostIp_ a;
    transport_ := transport_ a; tlsListener_ := tlsListener_ a;
    transportType_ := transportType_ a; auto_rereg_ := v;
    via_addr_ := via_addr_ a; via_tp_ := via_tp_ a;
    publishedSameasLocal_ := publishedSameasLocal_ a;
    publishedIpAddress_ := publishedIpAddress_ a;
    publishedIp_ := publishedIp_ a; publishedPort_ := publishedPort_ a;
    contactHeader_ := contactHeader_ a; contactAddress_ := contactAddress_ a;
    credentials_ := credentials_ a; cred_ := cred_ a
  |}.

Definition set_via_addr_ (v : pjsip_host_port) (a : SIPAccount) : SIPAccount :=
  {|
    enabled_ := enabled_ a; active_ := active_ a; hostname_ := hostname_ a;
    username_ := username_ a; displayName_ := displayName_ a;
    deviceKey_ := deviceKey_ a; serviceRoute_ := serviceRoute_ a;
    tlsServerName_ := tlsServerName_ a; tlsEnable_ := tlsEnable_ a;
    stunEnabled_ := stunEnabled_ a;
    allowIPAutoRewrite_ := allowIPAutoRewrite_ a;
    registrationRefreshEnabled_ := registrationRefreshEnabled_ a;
    registrationExpire_ := registrationExpire_ a;
    receivedParameter_ := receivedParameter_ a; rPort_ := rPort_ a;
    localPort_ := localPort_ a; tlsListenerPort_ := tlsListenerPort_ a;
    publishedPortUsed_ := publishedPortUsed_ a; upnpCtrl_ := upnpCtrl_ a;
    presenceEnabled_ := presenceEnabled_ a;
    registrationState_ := registrationState_ a;
    registrationStateDetailed_ := registrationStateDetailed_ a;
    regc_ := regc_ a; bRegister_ := bRegister_ a; hostIp_ := hostIp_ a;
    transport_ := transport_ a; tlsListener_ := tlsListener_ a;
    transportType_ := transportType_ a; auto_rereg_ := auto_rereg_ a;
    via_addr_ := v; via_tp_ := via_tp_ a;
    publishedSameasLocal_ := publishedSameasLocal_ a;
    publishedIpAddress_ := publishedIpAddress_ a;
    publishedIp_ := publishedIp_ a; publishedPort_ := publishedPort_ a;
    contactHeader_ := contactHeader_ a; contactAddress_ := contactAddress_ a;
    credentials_ := credentials_ a; cred_ := cred_ a
  |}.

Definition set_via_tp_ (v : option nat) (a : SIPAccount) : SIPAccount :=
  {|
    enabled_ := enabled_ a; active_ := active_ a; hostname_ := hostname_ a;
    username_ := username_ a; displayName_ := displayName_ a;
    deviceKey_ := deviceKey_ a; serviceRoute_ := serviceRoute_ a;
    tlsServerName_ := tlsServerName_ a; tlsEnable_ := tlsEnable_ a;
    stunEnabled_ := stunEnabled_ a;
    allowIPAutoRewrite_ := allowIPAutoRewrite_ a;
    registrationRefreshEnabled_ := registrationRefreshEnabled_ a;
    registrationExpire_ := registrationExpire_ a;
    receivedParameter_ := receivedParameter_ a; rPort_ := rPort_ a;
    localPort_ := localPort_ a; tlsListenerPort_ := tlsListenerPort_ a;
    publishedPortUsed_ := publishedPortUsed_ a; upnpCtrl_ := upnpCtrl_ a;
    presenceEnabled_ := presenceEnabled_ a;
    registrationState_ := registrationState_ a;
    registrationStateDetailed_ := registrationStateDetailed_ a;
    regc_ := regc_ a; bRegister_ := bRegister_ a; hostIp_ := hostIp_ a;
    transport_ := transport_ a; tlsListener_ := tlsListener_ a;
    transportType_ := transportType_ a; auto_rereg_ := auto_rereg_ a;
    via_addr_ := via_addr_ a; via_tp_ := v;
    publishedSameasLocal_ := publishedSameasLocal_ a;
    publishedIpAddress_ := publishedIpAddress_ a;
    publishedIp_ := publishedIp_ a; publishedPort_ := publishedPort_ a;
    contactHeader_ := contactHeader_ a; contactAddress_ := contactAddress_ a;
    credentials_ := credentials_ a; cred_ := cred_ a
  |}.

Definition set_publishedSameasLocal_ (v : bool) (a : SIPAccount) : SIPAccount :=
  {|
    enabled_ := enabled_ a; active_ := active_ a; hostname_ := hostname_ a;
    username_ := username_ a; displayName_ := displayName_ a;
    deviceKey_ := deviceKey_ a; serviceRoute_ := serviceRoute_ a;
    tlsServerName_ := tlsServerName_ a; tlsEnable_ := tlsEnable_ a;
    stunEnabled_ := stunEnabled_ a;
    allowIPAutoRewrite_ := allowIPAutoRewrite_ a;
    registrationRefreshEnabled_ := registrationRefreshEnabled_ a;
    registrationExpire_ := registrationExpire_ a;
    receivedParameter_ := receivedParameter_ a; rPort_ := rPort_ a;
    localPort_ := localPort_ a; tlsListenerPort_ := tlsListenerPort_ a;
    publishedPortUsed_ := publishedPortUsed_ a; upnpCtrl_ := upnpCtrl_ a;
    presenceEnabled_ := presenceEnabled_ a;
    registrationState_ := registrationState_ a;
    registrationStateDetailed_ := registrationStateDetailed_ a;
    regc_ := regc_ a; bRegister_ := bRegister_ a; hostIp_ := hostIp_ a;
    transport_ := transport_ a; tlsListener_ := tlsListener_ a;
    transportType_ := transportType_ a; auto_rereg_ := auto_rereg_ a;
    via_addr_ := via_addr_ a; via_tp_ := via_tp_ a;
    publishedSameasLocal_ := v; publishedIpAddress_ := publishedIpAddress_ a;
    publishedIp_ := publishedIp_ a; publishedPort_ := publishedPort_ a;
    contactHeader_ := contactHeader_ a; contactAddress_ := contactAddress_ a;
    credentials_ := credentials_ a; cred_ := cred_ a
  |}.

Definition set_publishedIpAddress_ (v : string) (a : SIPAccount) : SIPAccount :=
  {|
    enabled_ := enabled_ a; active_ := active_ a; hostname_ := hostname_ a;
    username_ := username_ a; displayName_ := displayName_ a;
    deviceKey_ := deviceKey_ a; serviceRoute_ := serviceRoute_ a;
    tlsServerName_ := tlsServerName_ a; tlsEnable_ := tlsEnable_ a;
    stunEnabled_ := stunEnabled_ a;
    allowIPAutoRewrite_ := allowIPAutoRewrite_ a;
    registrationRefreshEnabled_ := registrationRefreshEnabled_ a;
    registrationExpire_ := registrationExpire_ a;
    receivedParameter_ := receivedParameter_ a; rPort_ := rPort_ a;
    localPort_ := localPort_ a; tlsListenerPort_ := tlsListenerPort_ a;
    publishedPortUsed_ := publishedPortUsed_ a; upnpCtrl_ := upnpCtrl_ a;
    presenceEnabled_ := presenceEnabled_ a;
    registrationState_ := registrationState_ a;
    registrationStateDetailed_ := registrationStateDetailed_ a;
    regc_ := regc_ a; bRegister_ := bRegister_ a; hostIp_ := hostIp_ a;
    transport_ := transport_ a; tlsListener_ := tlsListener_ a;
    transportType_ := transportType_ a; auto_rereg_ := auto_rereg_ a;
    via_addr_ := via_addr_ a; via_tp_ := via_tp_ a;
    publishedSameasLocal_ := publishedSameasLocal_ a;
    publishedIpAddress_ := v; publishedIp_ := publishedIp_ a;
    publishedPort_ := publishedPort_ a; contactHeader_ := contactHeader_ a;
    contactAddress_ := contactAddress_ a; credentials_ := credentials_ a;
    cred_ := cred_ a
  |}.

Definition set_publishedIp_ (v : IpAddr) (a : SIPAccount) : SIPAccount :=
  {|
    enabled_ := enabled_ a; active_ := active_ a; hostname_ := hostname_ a;
    username_ := username_ a; displayName_ := displayName_ a;
    deviceKey_ := deviceKey_ a; serviceRoute_ := serviceRoute_ a;
    tlsServerName_ := tlsServerName_ a; tlsEnable_ := tlsEnable_ a;
    stunEnabled_ := stunEnabled_ a;
    allowIPAutoRewrite_ := allowIPAutoRewrite_ a;
    registrationRefreshEnabled_ := registrationRefreshEnabled_ a;
    registrationExpire_ := registrationExpire_ a;
    receivedParameter_ := receivedParameter_ a; rPort_ := rPort_ a;
    localPort_ := localPort_ a; tlsListenerPort_ := tlsListenerPort_ a;
    publishedPortUsed_ := publishedPortUsed_ a; upnpCtrl_ := upnpCtrl_ a;
    presenceEnabled_ := presenceEnabled_ a;
    registrationState_ := registrationState_ a;
    registrationStateDetailed_ := registrationStateDetailed_ a;
    regc_ := regc_ a; bRegister_ := bRegister_ a; hostIp_ := hostIp_ a;
    transport_ := transport_ a; tlsListener_ := tlsListener_ a;
    transportType_ := transportType_ a; auto_rereg_ := auto_rereg_ a;
    via_addr_ := via_addr_ a; via_tp_ := via_tp_ a;
    publishedSameasLocal_ := publishedSameasLocal_ a;
    publishedIpAddress_ := publishedIpAddress_ a; publishedIp_ := v;
    publishedPort_ := publishedPort_ a; contactHeader_ := contactHeader_ a;
    contactAddress_ := contactAddress_ a; credentials_ := credentials_ a;
    cred_ := cred_ a
  |}.

Definition set_publishedPort_ (v : Z) (a : SIPAccount) : SIPAccount :=
  {|
    enabled_ := enabled_ a; active_ := active_ a; hostname_ := hostname_ a;
    username_ := username_ a; displayName_ := displayName_ a;
    deviceKey_ := deviceKey_ a; serviceRoute_ := serviceRoute_ a;
    tlsServerName_ := tlsServerName_ a; tlsEnable_ := tlsEnable_ a;
    stunEnabled_ := stunEnabled_ a;
    allowIPAutoRewrite_ := allowIPAutoRewrite_ a;
    registrationRefreshEnabled_ := registrationRefreshEnabled_ a;
    registrationExpire_ := registrationExpire_ a;
    receivedParameter_ := receivedParameter_ a; rPort_ := rPort_ a;
    localPort_ := localPort_ a; tlsListenerPort_ := tlsListenerPort_ a;
    publishedPortUsed_ := publishedPortUsed_ a; upnpCtrl_ := upnpCtrl_ a;
    presenceEnabled_ := presenceEnabled_ a;
    registrationState_ := registrationState_ a;
    registrationStateDetailed_ := registrationStateDetailed_ a;
    regc_ := regc_ a; bRegister_ := bRegister_ a; hostIp_ := hostIp_ a;
    transport_ := transport_ a; tlsListener_ := tlsListener_ a;
    transportType_ := transportType_ a; auto_rereg_ := auto_rereg_ a;
    via_addr_ := via_addr_ a; via_tp_ := via_tp_ a;
    publishedSameasLocal_ := publishedSameasLocal_ a;
    publishedIpAddress_ := publishedIpAddress_ a;
    publishedIp_ := publishedIp_ a; publishedPort_ := v;
    contactHeader_ := contactHeader_ a; contactAddress_ := contactAddress_ a;
    credentials_ := credentials_ a; cred_ := cred_ a
  |}.

Definition set_contactHeader_ (v : string) (a : SIPAccount) : SIPAccount :=
  {|
    enabled_ := enabled_ a; active_ := active_ a; hostname_ := hostname_ a;
    username_ := username_ a; displayName_ := displayName_ a;
    deviceKey_ := deviceKey_ a; serviceRoute_ := serviceRoute_ a;
    tlsServerName_ := tlsServerName_ a; tlsEnable_ := tlsEnable_ a;
    stunEnabled_ := stunEnabled_ a;
    allowIPAutoRewrite_ := allowIPAutoRewrite_ a;
    registrationRefreshEnabled_ := registrationRefreshEnabled_ a;
    registrationExpire_ := registrationExpire_ a;
    receivedParameter_ := receivedParameter_ a; rPort_ := rPort_ a;
    localPort_ := localPort_ a; tlsListenerPort_ := tlsListenerPort_ a;
    publishedPortUsed_ := publishedPortUsed_ a; upnpCtrl_ := upnpCtrl_ a;
    presenceEnabled_ := presenceEnabled_ a;
    registrationState_ := registrationState_ a;
    registrationStateDetailed_ := registrationStateDetailed_ a;
    regc_ := regc_ a; bRegister_ := bRegister_ a; hostIp_ := hostIp_ a;
    transport_ := transport_ a; tlsListener_ := tlsListener_ a;
    transportType_ := transportType_ a; auto_rereg_ := auto_rereg_ a;
    via_addr_ := via_addr_ a; via_tp_ := via_tp_ a;
    publishedSameasLocal_ := publishedSameasLocal_ a;
    publishedIpAddress_ := publishedIpAddress_ a;
    publishedIp_ := publishedIp_ a; publishedPort_ := publishedPort_ a;
    contactHeader_ := v; contactAddress_ := contactAddress_ a;
    credentials_ := credentials_ a; cred_ := cred_ a
  |}.

Definition set_contactAddress_ (v : IpAddr) (a : SIPAccount) : SIPAccount :=
  {|
    enabled_ := enabled_ a; active_ := active_ a; hostname_ := hostname_ a;
    username_ := username_ a; displayName_ := displayName_ a;
    deviceKey_ := deviceKey_ a; serviceRoute_ := serviceRoute_ a;
    tlsServerName_ := tlsServerName_ a; tlsEnable_ := tlsEnable_ a;
    stunEnabled_ := stunEnabled_ a;
    allowIPAutoRewrite_ := allowIPAutoRewrite_ a;
    registrationRefreshEnabled_ := registrationRefreshEnabled_ a;
    registrationExpire_ := registrationExpire_ a;
    receivedParameter_ := receivedParameter_ a; rPort_ := rPort_ a;
    localPort_ := localPort_ a; tlsListenerPort_ := tlsListenerPort_ a;
    publishedPortUsed_ := publishedPortUsed_ a; upnpCtrl_ := upnpCtrl_ a;
    presenceEnabled_ := presenceEnabled_ a;
    registrationState_ := registrationState_ a;
    registrationStateDetailed_ := registrationStateDetailed_ a;
    regc_ := regc_ a; bRegister_ := bRegister_ a; hostIp_ := hostIp_ a;
    transport_ := transport_ a; tlsListener_ := tlsListener_ a;
    transportType_ := transportType_ a; auto_rereg_ := auto_rereg_ a;
    via_addr_ := via_addr_ a; via_tp_ := via_tp_ a;
    publishedSameasLocal_ := publishedSameasLocal_ a;
    publishedIpAddress_ := publishedIpAddress_ a;
    publishedIp_ := publishedIp_ a; publishedPort_ := publishedPort_ a;
    contactHeader_ := contactHeader_ a; contactAddress_ := v;
    credentials_ := credentials_ a; cred_ := cred_ a
  |}.

Definition set_credentials_ (v : list Credentials) (a : SIPAccount) : SIPAccount :=
  {|
    enabled_ := enabled_ a; active_ := active_ a; hostname_ := hostname_ a;
    username_ := username_ a; displayName_ := displayName_ a;
    deviceKey_ := deviceKey_ a; serviceRoute_ := serviceRoute_ a;
    tlsServerName_ := tlsServerName_ a; tlsEnable_ := tlsEnable_ a;
    stunEnabled_ := stunEnabled_ a;
    allowIPAutoRewrite_ := allowIPAutoRewrite_ a;
    registrationRefreshEnabled_ := registrationRefreshEnabled_ a;
    registrationExpire_ := registrationExpire_ a;
    receivedParameter_ := receivedParameter_ a; rPort_ := rPort_ a;
    localPort_ := localPort_ a; tlsListenerPort_ := tlsListenerPort_ a;
    publishedPortUsed_ := publishedPortUsed_ a; upnpCtrl_ := upnpCtrl_ a;
    presenceEnabled_ := presenceEnabled_ a;
    registrationState_ := registrationState_ a;
    registrationStateDetailed_ := registrationStateDetailed_ a;
    regc_ := regc_ a; bRegister_ := bRegister_ a; hostIp_ := hostIp_ a;
    transport_ := transport_ a; tlsListener_ := tlsListener_ a;
    transportType_ := transportType_ a; auto_rereg_ := auto_rereg_ a;
    via_addr_ := via_addr_ a; via_tp_ := via_tp_ a;
    publishedSameasLocal_ := publishedSameasLocal_ a;
    publishedIpAddress_ := publishedIpAddress_ a;
    publishedIp_ := publishedIp_ a; publishedPort_ := publishedPort_ a;
    contactHeader_ := contactHeader_ a; contactAddress_ := contactAddress_ a;
    credentials_ := v; cred_ := cred_ a
  |}.

Definition set_cred_ (v : list pjsip_cred_info) (a : SIPAccount) : SIPAccount :=
  {|
    enabled_ := enabled_ a; active_ := active_ a; hostname_ := hostname_ a;
    username_ := username_ a; displayName_ := displayName_ a;
    deviceKey_ := deviceKey_ a; serviceRoute_ := serviceRoute_ a;
    tlsServerName_ := tlsServerName_ a; tlsEnable_ := tlsEnable_ a;
    stunEnabled_ := stunEnabled_ a;
    allowIPAutoRewrite_ := allowIPAutoRewrite_ a;
    registrationRefreshEnabled_ := registrationRefreshEnabled_ a;
    registrationExpire_ := registrationExpire_ a;
    receivedParameter_ := receivedParameter_ a; rPort_ := rPort_ a;
    localPort_ := localPort_ a; tlsListenerPort_ := tlsListenerPort_ a;
    publishedPortUsed_ := publishedPortUsed_ a; upnpCtrl_ := upnpCtrl_ a;
    presenceEnabled_ := presenceEnabled_ a;
    registrationState_ := registrationState_ a;
    registrationStateDetailed_ := registrationStateDetailed_ a;
    regc_ := regc_ a; bRegister_ := bRegister_ a; hostIp_ := hostIp_ a;
    transport_ := transport_ a; tlsListener_ := tlsListener_ a;
    transportType_ := transportType_ a; auto_rereg_ := auto_rereg_ a;
    via_addr_ := via_addr_ a; via_tp_ := via_tp_ a;
    publishedSameasLocal_ := publishedSameasLocal_ a;
    publishedIpAddress_ := publishedIpAddress_ a;
    publishedIp_ := publishedIp_ a; publishedPort_ := publishedPort_ a;
    contactHeader_ := contactHeader_ a; contactAddress_ := contactAddress_ a;
    credentials_ := credentials_ a; cred_ := v
  |}.

(** ** The state monad of the account *)

Definition M (A : Type) : Type := SIPAccount -> outcome A * SIPAccount * list Event.

Definition ret {A} (a : A) : M A := fun s => (Done a, s, []).

Definition bind {A B} (m : M A) (k : A -> M B) : M B := fun s =>
  match m s with
  | (Done a, s1, t1) =>
      match k a s1 with
      | (r, s2, t2) => (r, s2, t1 ++ t2)
      end
  | (Thrown e, s1, t1) => (Thrown e, s1, t1)
  | (Undefined, s1, t1) => (Undefined, s1, t1)
  end.

Notation "x <- m ;; k" := (bind m (fun x => k))
  (at level 100, m at next level, right associativity).
Notation "m ;; k" := (bind m (fun _ => k))
  (at level 100, right associativity).

Definition gets {A} (f : SIPAccount -> A) : M A := fun s => (Done (f s), s, []).
Definition modify (f : SIPAccount -> SIPAccount) : M unit := fun s => (Done tt, f s, []).
Definition emit (e : Event) : M unit := fun s => (Done tt, s, [e]).
Definition throw {A} (e : VoipLinkException) : M A := fun s => (Thrown e, s, []).
Definition undefined {A} : M A := fun s => (Undefined, s, []).
Definition when (b : bool) (m : M unit) : M unit := if b then m else ret tt.

(** [try { m } catch (const VoipLinkException& e) { h e }] *)
Definition try_catch {A} (m : M A) (h : VoipLinkException -> M A) : M A := fun s =>
  match m s with
  | (Thrown e, s1, t1) =>
      match h e s1 with
      | (r, s2, t2) => (r, s2, t1 ++ t2)
      end
  | r => r
  end.

Definition result_of {A} (r : outcome A * SIPAccount * list Event) : outcome A := r.1.1.
Definition state_of {A} (r : outcome A * SIPAccount * list Event) : SIPAccount := r.1.2.
Definition events_of {A} (r : outcome A * SIPAccount * list Event) : list Event := r.2.

(** What the collaborators answer during one entry into the account; a
    call that the account makes once per entry has one answer here. *)
Record Env := mk_Env {
  (** [Manager::instance().preferences.getMd5Hash()] *)
  md5HashingEnabled : bool;
  (** the values that [delay10ZeroDist_(rand)] and [delay10PosDist_(rand)]
      give *)
  rand_delay10Zero : Z;
  rand_delay10Pos : Z;
  (** [pjsip_endpt_schedule_timer(...) == PJ_SUCCESS] *)
  schedule_timer_ok : bool;
  (** [getUPnPActive()], [getUPnPIpAddress()] *)
  upnpActive : bool;
  upnpIpAddress : IpAddr;
  (** [reserveMapping] gave a mapping in state [OPEN] *)
  upnp_mapping_open : bool;
  (** what the resolver hands to the callback of [resolveSrvName] *)
  host_ips : list IpAddr;
  (** the address that [createBindingAddress] gets from [ip_utils] or from
      [bindAddress_], before the port is filled in *)
  bind_address : IpAddr;
  (** the transport broker *)
  getTlsListener : option TlsListener;
  getUdpTransport : option SipTransport;
  getTlsTransport : option SipTransport;
  (** [findLocalAddressFromTransport], [findLocalAddressFromSTUN] *)
  local_address : string * Z;
  stun_address : bool * (string * Z);
  (** pjsip's registration client *)
  regc_create : option pjsip_regc;
  regc_set_via_sent_by_ok : bool;
  regc_init_ok : bool;
  regc_register_ok : bool;
  regc_unregister_ok : bool;
  regc_set_transport_ok : bool;
  regc_send_ok : bool
}.

(** ** Small accessors *)

(** Modelled from the spec: [Account::isUsable] (account.h is not among
    the sources).  The account can register when it is enabled and
    active. *)
Definition isUsable (a : SIPAccount) : bool := enabled_ a && active_ a.

(** sipaccount.cpp, lines 1800-1804. *)
Definition isIP2IP (a : SIPAccount) : bool := String.eqb (hostname_ a) "".

Definition hasServiceRoute (a : SIPAccount) : bool := negb (String.eqb (serviceRoute_ a) "").

Definition isRegistered (a : SIPAccount) : bool := bRegister_ a.

Definition setRegister (result : bool) : M unit := modify (set_bRegister_ result).

(** Modelled from the spec: [SIPAccountBase::setRegistrationState] (the
    base classes are not among the sources).  The state that is passed
    becomes the registration state of the account. *)
Definition SIPAccountBase_setRegistrationState (state : RegistrationState) : M unit :=
  modify (set_registrationState_ state).

(** Modelled from the spec: [SIPAccountBase::setPublishedAddress] (the base
    classes are not among the sources).  The address becomes the published
    address, the one that [getPublishedIpAddress] gives. *)
Definition setPublishedAddress (ip_addr : IpAddr) : M unit :=
  modify (set_publishedIp_ ip_addr).

(** sipaccount.cpp, lines 1754-1765. *)
Definition setRegistrationState (state : RegistrationState) (details_code : Z) : M unit :=
  modify (set_registrationStateDetailed_ details_code) ;;
  SIPAccountBase_setRegistrationState state.

(** sipaccount.cpp, lines 1889-1896. *)
Definition destroyRegistrationInfo : M unit :=
  r <- gets regc_ ;;
  match r with
  | None => ret tt
  | Some r => emit (EvRegcDestroy r) ;; modify (set_regc_ None)
  end.

(** sipaccount.h, lines 248-253. *)
Definition setRegistrationInfo (regc : option pjsip_regc) : M unit :=
  r <- gets regc_ ;;
  when (bool_decide (r <> None)) destroyRegistrationInfo ;;
  modify (set_regc_ regc).

(** sipaccount.cpp, lines 1898-1907. *)
Definition resetAutoRegistration : M unit :=
  modify (fun a =>
    set_auto_rereg_ (mk_AutoRereg false (timer_id (auto_rereg_ a)) false 0) a).

(** ** Re-registration timer (sipaccount.cpp, lines 2054-2122) *)

(** Lines 2103-2116 of [scheduleReregistration]: the delay from the base
    interval [delay_sec] and the value drawn from the distribution of its
    branch. *)
Definition reregistrationDelay (delay_sec : Z) (env : Env) : pj_time_val :=
  let delay :=
    if decide (delay_sec >= 10)
    then mk_time_val delay_sec (rand_delay10Zero env)
    else mk_time_val 0 (rand_delay10Pos env) in
  pj_time_val_normalize delay.

Definition retryInterval (attempt_cnt : Z) : Z :=
  if attempt_cnt =? 0 then REGISTRATION_FIRST_RETRY_INTERVAL
  else REGISTRATION_RETRY_INTERVAL.

Definition set_active (v : bool) (r : AutoRereg) : AutoRereg :=
  mk_AutoRereg v (timer_id r) (timer_user_data r) (attempt_cnt r).
Definition set_timer_id (v : bool) (r : AutoRereg) : AutoRereg :=
  mk_AutoRereg (active r) v (timer_user_data r) (attempt_cnt r).
Definition set_timer_user_data (v : bool) (r : AutoRereg) : AutoRereg :=
  mk_AutoRereg (active r) (timer_id r) v (attempt_cnt r).
Definition set_attempt_cnt (v : Z) (r : AutoRereg) : AutoRereg :=
  mk_AutoRereg (active r) (timer_id r) (timer_user_data r) v.

Definition update_auto_rereg (f : AutoRereg -> AutoRereg) : M unit :=
  modify (fun a => set_auto_rereg_ (f (auto_rereg_ a)) a).

Definition scheduleReregistration (env : Env) : M unit :=
  usable <- gets isUsable ;;
  if negb usable then ret tt
  else
    (* Cancel any re-registration timer *)
    ar <- gets auto_rereg_ ;;
    when (timer_id ar)
         (update_auto_rereg (set_timer_id false) ;; emit EvCancelTimer) ;;
    (* Update re-registration flag *)
    update_auto_rereg (set_active true) ;;
    (* Set up timer for reregistration *)
    when (negb (timer_user_data ar)) (update_auto_rereg (set_timer_user_data true)) ;;
    (* Reregistration attempt. The first attempt will be done sooner *)
    let delay := reregistrationDelay (retryInterval (attempt_cnt ar)) env in
    update_auto_rereg (set_timer_id true) ;;
    emit (EvScheduleTimer delay) ;;
    when (negb (schedule_timer_ok env)) (update_auto_rereg (set_timer_id false)).

(** ** Contact header (sipaccount.cpp, lines 1484-1620) *)

Definition dquote : string := String (ascii_of_nat 34) EmptyString.

Definition printContactHeader (username displayName address : string) (port : Z)
    (secure : bool) (deviceKey : string) : string :=
  let quotedDisplayName :=
    if String.eqb displayName "" then "" else dquote +:+ displayName +:+ dquote +:+ " " in
  let scheme := if secure then "sips" else "sip" in
  let transport := if secure then ";transport=tls" else "" in
  quotedDisplayName +:+ "<" +:+ scheme +:+ ":" +:+ username
  +:+ (if String.eqb username "" then "" else "@") +:+ address +:+ ":"
  +:+ pretty (port mod 65536) +:+ transport
  +:+ (if String.eqb deviceKey "" then ""
       else match PN_PROVIDER with
            | Some pn => ";pn-provider=" +:+ pn
            | None => ""
            end +:+ ";pn-param=" +:+ ";pn-prid=" +:+ deviceKey)
  +:+ ">".

(** [transport_ and transport_->get()] *)
Definition transport_get (a : SIPAccount) : option pjsip_transport :=
  match transport_ a with
  | Some t => st_get t
  | None => None
  end.

Definition usePublishedAddressPortInVIA : M unit :=
  modify (fun a =>
    set_via_addr_ (mk_host_port (toString (publishedIp_ a) false false) (publishedPort_ a)) a).

Definition useUPnPAddressPortInVIA (env : Env) : M unit :=
  modify (fun a =>
    set_via_addr_ (mk_host_port (toString (upnpIpAddress env) false false)
                                (publishedPortUsed_ a)) a).

Definition initContactAddress (env : Env) : M bool :=
  tp <- gets transport_get ;;
  match tp with
  | None => emit (EvJamiErr "Transport not created yet") ;; ret false
  | Some _ =>
      a <- gets id ;;
      ap <-
        (if upnpActive env && IpAddr_bool (upnpIpAddress env)
         then useUPnPAddressPortInVIA env ;;
              ret (toString (upnpIpAddress env) false false, publishedPortUsed_ a)
         else if negb (publishedSameasLocal_ a)
         then ret (toString (publishedIp_ a) false false, publishedPort_ a)
         else if stunEnabled_ a
         then when (negb (stun_address env).1) (emit EvStunStatusFailed) ;;
              setPublishedAddress (IpAddr_of_string (stun_address env).2.1) ;;
              modify (set_publishedPort_ (stun_address env).2.2) ;;
              usePublishedAddressPortInVIA ;;
              ret (stun_address env).2
         else ret (if String.eqb (receivedParameter_ a) "" then (local_address env).1
                   else receivedParameter_ a,
                   if rPort_ a >? 0 then rPort_ a mod 65536 else (local_address env).2)) ;;
      modify (set_contactAddress_ (setPort (IpAddr_of_string ap.1) ap.2)) ;;
      gets (fun a => IpAddr_bool (contactAddress_ a))
  end.

Definition updateContactHeader : M unit :=
  tp <- gets transport_get ;;
  match tp with
  | None => emit (EvJamiErr "Transport not created yet")
  | Some tp =>
      a <- gets id ;;
      if negb (IpAddr_bool (contactAddress_ a))
      then emit (EvJamiErr "Invalid contact address")
      else modify (set_contactHeader_
                     (printContactHeader (username_ a) (displayName_ a)
                        (toString (contactAddress_ a) false true)
                        (getPort (contactAddress_ a)) (tp_secure tp) (deviceKey_ a)))
  end.

(** sipaccount.cpp, lines 320-347; shared pointers are compared by
    address. *)
Definition setTransport (env : Env) (t : option SipTransport) : M unit :=
  old <- gets transport_ ;;
  if bool_decide (st_ptr <$> t = st_ptr <$> old) then ret tt
  else
    match old with
    | Some o =>
        r <- gets regc_ ;;
        match r with
        | Some r => emit (EvRegcReleaseTransport r)
        | None => ret tt
        end ;;
        emit (EvRemoveStateListener (st_ptr o))
    | None => ret tt
    end ;;
    modify (set_transport_ t) ;;
    match t with
    | Some n =>
        emit (EvAddStateListener (st_ptr n)) ;;
        ok <- initContactAddress env ;;
        if negb ok then ret tt else updateContactHeader
    | None => ret tt
    end.

(** sipaccount.cpp, lines 2315-2331. *)
Definition createBindingAddress (env : Env) : M IpAddr :=
  a <- gets id ;;
  let r := bind_address env in
  ret (if getPort r =? 0
       then setPort r (if tlsEnable_ a then tlsListenerPort_ a else localPort_ a)
       else r).

(** ** Registration (sipaccount.cpp, lines 818-1100, 1190-1222) *)

(** [tp_sel.u.transport->key.type]: the selector holds [transport_->get()];
    without a transport the pointer is null. *)
Definition selector_key_type : M pjsip_transport_type_e :=
  tp <- gets transport_get ;;
  match tp with
  | Some tp => ret (tp_key_type tp)
  | None => undefined
  end.

Definition sendRegister (env : Env) : M unit :=
  usable <- gets isUsable ;;
  if negb usable then ret tt
  else
    setRegister true ;;
    setRegistrationState TRYING 0 ;;
    match regc_create env with
    | None => throw "UserAgent: Unable to create regc structure."
    | Some regc =>
        emit (EvRegcCreate regc) ;;
        a <- gets id ;;
        let received := receivedParameter_ a in
        let contact := contactHeader_ a in
        let set_via_sent_by (t : SipTransport) : M unit :=
          emit (EvRegcSetViaSentBy (Some regc) (via_addr_ a) (tp_ptr <$> st_get t)) ;;
          if regc_set_via_sent_by_ok env then ret tt
          else throw "Unable to set the sent-by field" in
        match transport_ a with
        | Some t =>
            if upnpActive env || negb (publishedSameasLocal_ a)
               || (negb (String.eqb received "")
                   && negb (String.eqb received (publishedIpAddress_ a)))
            then set_via_sent_by t
            else if stunEnabled_ a then set_via_sent_by t
            else ret tt
        | None => ret tt
        end ;;
        (if regc_init_ok env then ret tt
         else emit (EvJamiErr "pjsip_regc_init failed") ;;
              throw "Unable to initialize account registration structure") ;;
        when (hasServiceRoute a) (emit (EvRegcSetRouteSet (Some regc) (serviceRoute_ a))) ;;
        emit (EvRegcSetCredentials regc (cred_ a)) ;;
        (if regc_register_ok env then ret tt
         else throw "Unable to initialize transaction data for account registration") ;;
        (if regc_set_transport_ok env then ret tt
         else throw "Unable to set transport") ;;
        selector_key_type ;;
        (* pjsip_regc_send increment the transport ref count by one *)
        emit (EvRegcSend regc REGISTER contact) ;;
        (if regc_send_ok env then ret tt
         else emit (EvJamiErr "pjsip_regc_send failed") ;;
              throw "Unable to send account registration request") ;;
        setRegistrationInfo (Some regc)
    end.

Definition sendUnregister (env : Env) : M unit :=
  a <- gets id ;;
  (* This may occurs if account failed to register and is in state INVALID *)
  if negb (isRegistered a) then setRegistrationState UNREGISTERED 0
  else
    setRegister false ;;
    match regc_ a with
    | None => throw "Registration structure is NULL"
    | Some regc =>
        (if regc_unregister_ok env then ret tt
         else throw "Unable to unregister sip account") ;;
        (if regc_set_transport_ok env then ret tt
         else throw "Unable to set transport") ;;
        selector_key_type ;;
        emit (EvRegcSend regc UNREGISTER (contactHeader_ a)) ;;
        (if regc_send_ok env then ret tt
         else emit (EvJamiErr "pjsip_regc_send failed") ;;
              throw "Unable to send request to unregister sip account")
    end.

Definition doRegister2_ (env : Env) : M unit :=
  a <- gets id ;;
  if negb (isIP2IP a) && negb (IpAddr_bool (hostIp_ a))
  then setRegistrationState ERROR_GENERIC PJSIP_SC_NOT_FOUND ;;
       emit (EvJamiErr "Hostname not resolved.")
  else
    bindAddress <- createBindingAddress env ;;
    if negb (IpAddr_bool bindAddress)
    then setRegistrationState ERROR_GENERIC PJSIP_SC_NOT_FOUND ;;
         emit (EvJamiErr "Can't compute address to bind.")
    else
      let ipv6 := isIpv6 bindAddress in
      modify (set_transportType_
                (if tlsEnable_ a
                 then (if ipv6 then PJSIP_TRANSPORT_TLS6 else PJSIP_TRANSPORT_TLS)
                 else (if ipv6 then PJSIP_TRANSPORT_UDP6 else PJSIP_TRANSPORT_UDP))) ;;
      (* Init TLS settings if the user wants to use TLS *)
      listener_ok <-
        (if tlsEnable_ a
         then emit EvHangupCalls ;;
              emit EvInitTlsConfiguration ;;
              match tlsListener_ a with
              | Some _ => ret true
              | None =>
                  modify (set_tlsListener_ (getTlsListener env)) ;;
                  match getTlsListener env with
                  | Some _ => ret true
                  | None =>
                      setRegistrationState ERROR_GENERIC 0 ;;
                      emit (EvJamiErr "Error creating TLS listener.") ;;
                      ret false
                  end
              end
         else modify (set_tlsListener_ None) ;; ret true) ;;
      if negb listener_ok then ret tt
      else
        (* Init STUN settings for this account if the user selected it *)
        emit EvInitStunConfiguration ;;
        (* In our definition of the ip2ip profile (aka Direct IP Calls),
           no registration should be performed *)
        if isIP2IP a
        then
          when (negb (tlsEnable_ a)) (setTransport env (getUdpTransport env)) ;;
          setRegistrationState REGISTERED 0
        else
          sent <-
            try_catch
              (modify (set_transport_ None) ;;
               (if tlsEnable_ a
                then setTransport env (getTlsTransport env)
                else setTransport env (getUdpTransport env)) ;;
               t <- gets transport_ ;;
               match t with
               | None => throw "Can't create transport"
               | Some _ => sendRegister env ;; ret true
               end)
              (fun e =>
                 emit (EvJamiErr e) ;;
                 setRegistrationState ERROR_GENERIC 0 ;;
                 ret false) ;;
          if negb sent then ret tt
          else
            when (presenceEnabled_ a)
                 (emit EvPresenceSubscribeClient ;; emit EvPresenceSendPresence).

(** [doRegister1_]: the callback given to [resolveSrvName] runs with the
    addresses the resolver found, on an account that is still alive. *)
Definition doRegister1_ (env : Env) : M unit :=
  a <- gets id ;;
  if isIP2IP a then doRegister2_ env
  else
    emit (EvResolveSrvName (if hasServiceRoute a then serviceRoute_ a else hostname_ a)) ;;
    match host_ips env with
    | [] =>
        emit (EvJamiErr "Can't resolve hostname for registration.") ;;
        setRegistrationState ERROR_GENERIC PJSIP_SC_NOT_FOUND
    | ip :: _ =>
        modify (set_hostIp_ ip) ;;
        doRegister2_ env
    end.

(** [mapPortUPnP] (lines 747-790): whether the mapping is open at once;
    its notification comes later, as an entry of its own. *)
Definition mapPortUPnP (env : Env) : M bool :=
  emit EvUpnpReserveMapping ;;
  ret (upnp_mapping_open env).

Definition doRegister (env : Env) : M unit :=
  usable <- gets isUsable ;;
  if negb usable then ret tt
  else
    ctrl <- gets upnpCtrl_ ;;
    (* if UPnP is enabled, then wait for IGD to complete registration *)
    if ctrl
    then
      setRegistrationState TRYING 0 ;;
      ok <- mapPortUPnP env ;;
      if negb ok then doRegister1_ env else ret tt
    else doRegister1_ env.

Definition doUnregister (env : Env) (released_cb : option (bool -> M unit)) : M unit :=
  modify (set_tlsListener_ None) ;;
  ip2ip <- gets isIP2IP ;;
  when (negb ip2ip)
       (try_catch (sendUnregister env) (fun e => emit (EvJamiErr e))) ;;
  t <- gets transport_ ;;
  when (bool_decide (t <> None)) (setTransport env None) ;;
  resetAutoRegistration ;;
  match released_cb with
  | Some cb => ip2ip <- gets isIP2IP ;; cb (negb ip2ip)
  | None => ret tt
  end.

(** Auto re-registration timeout callback (lines 2054-2073);
    [attempt_cnt] is an [unsigned]. *)
Definition autoReregTimerCb (env : Env) : M unit :=
  ar <- gets auto_rereg_ ;;
  if negb (active ar) then ret tt
  else
    update_auto_rereg (set_attempt_cnt ((attempt_cnt ar + 1) mod 2 ^ 32)) ;;
    try_catch (sendRegister env)
              (fun e => emit (EvJamiErr e) ;; scheduleReregistration env).

(** ** The REGISTER response (sipaccount.cpp, lines 1102-1188, 1909-2052) *)

Record pjsip_via_hdr := mk_via {
  rport_param : Z;
  sent_by_host : string;
  sent_by_port : Z;
  recvd_param : string
}.

(** Of [pjsip_rx_data]: [tp_info.transport], [msg_info.via] and
    [pkt_info.src_name]. *)
Record pjsip_rx_data := mk_rx_data {
  rd_transport : pjsip_transport;
  rd_via : pjsip_via_hdr;
  rd_src_name : string
}.

(** [pjsip_regc_cbparam]; [rdata] is read on the 2xx path only, where pjsip
    supplies the response. *)
Record pjsip_regc_cbparam := mk_cbparam {
  p_regc : option pjsip_regc;
  p_status : pj_status_t;
  p_code : Z;
  p_expiration : Z;
  p_rdata : pjsip_rx_data
}.

(** Lines 1916-1929: the port the registrar saw. *)
Definition observed_rport (rdata : pjsip_rx_data) : Z :=
  let via := rd_via rdata in
  if rport_param via <? 1
  then (* Remote doesn't support rport *)
    if sent_by_port via =? 0
    then pjsip_transport_get_default_port_for_type (tp_key_type (rd_transport rdata))
    else sent_by_port via
  else rport_param via.

(** Line 1931: the address the registrar saw. *)
Definition observed_via_addr (rdata : pjsip_rx_data) : string :=
  let via := rd_via rdata in
  if negb (String.eqb (recvd_param via) "") then recvd_param via else sent_by_host via.

Definition checkNATAddress (param : pjsip_regc_cbparam) : M bool :=
  let tp := rd_transport (p_rdata param) in
  (* Get the received and rport info *)
  let rport := observed_rport (p_rdata param) in
  let via_addr := observed_via_addr (p_rdata param) in
  (* Enclose IPv6 address in square brackets *)
  let via_addrstr :=
    if IpAddr_isIpv6 via_addr then toString (IpAddr_of_string via_addr) false true
    else via_addr in
  a <- gets id ;;
  when (String.eqb (hp_host (via_addr_ a)) "" || negb (bool_decide (via_tp_ a = Some (tp_ptr tp))))
       ((* Update Via header *)
        modify (set_via_addr_ (mk_host_port via_addr rport)) ;;
        modify (set_via_tp_ (Some (tp_ptr tp))) ;;
        emit (EvRegcSetViaSentBy (regc_ a) (mk_host_port via_addr rport) (Some (tp_ptr tp)))) ;;
  (* Set published Ip address *)
  modify (set_publishedSameasLocal_ false) ;;
  modify (set_publishedIpAddress_ via_addrstr) ;;
  setPublishedAddress (IpAddr_of_string via_addrstr) ;;
  (* Compare received and rport with the URI in our registration *)
  let contact_addr :=
    if getPort (contactAddress_ a) =? 0
    then setPort (contactAddress_ a)
                 (pjsip_transport_get_default_port_for_type (tp_key_type tp))
    else contactAddress_ a in
  (* Convert IP address strings into sockaddr for comparison. *)
  let parsed := pj_sockaddr_parse via_addr in
  let recv_addr := setPort parsed.2 rport in
  let matched :=
    if parsed.1 =? PJ_SUCCESS
    then (* Compare the addresses as sockaddr *)
      IpAddr_eqb contact_addr recv_addr
    else (* Compare the addresses as string, as before *)
      (getPort contact_addr =? rport)
      && pj_stricmp_eq (toString contact_addr false false) via_addr in
  if matched then (* Address doesn't change *) ret false
  else
    (* Get server IP *)
    let srv_ip := IpAddr_of_string (rd_src_name (p_rdata param)) in
    (* Do not switch if both Contact and server's IP address are public but
       response contains private IP. *)
    if negb (isPrivate contact_addr) && negb (isPrivate srv_ip) && isPrivate recv_addr
    then ret false
    (* Also don't switch if only the port number part is different, and the
       Via received address is private. *)
    else if IpAddr_eqb contact_addr recv_addr && isPrivate recv_addr
    then ret false
    else
      (* Build new Contact header *)
      let tempContact :=
        printContactHeader (username_ a) (displayName_ a) via_addrstr rport
                           (tp_secure tp) (deviceKey_ a) in
      if String.eqb tempContact ""
      then emit (EvJamiErr "Invalid contact header") ;; ret false
      else
        modify (set_contactHeader_ tempContact) ;;
        match regc_ a with
        | Some r => emit (EvRegcUpdateContact r tempContact)
        | None => ret tt
        end ;;
        ret true.

(** Lines 1108-1159 of [onRegister]: the outcome sets the state. *)
Definition onRegister_outcome (param : pjsip_regc_cbparam) : M unit :=
  a <- gets id ;;
  let code := p_code param in
  if negb (p_status param =? PJ_SUCCESS)
  then
    emit (EvJamiErr "SIP registration error") ;;
    destroyRegistrationInfo ;;
    setRegistrationState ERROR_GENERIC code
  else if (code <? 0) || (code >=? 300)
  then
    emit (EvJamiErr "SIP registration failed") ;;
    destroyRegistrationInfo ;;
    if code =? PJSIP_SC_FORBIDDEN
    then setRegistrationState ERROR_AUTH code
    else if code =? PJSIP_SC_NOT_FOUND
    then setRegistrationState ERROR_HOST code
    else if code =? PJSIP_SC_REQUEST_TIMEOUT
    then setRegistrationState ERROR_HOST code
    else if code =? PJSIP_SC_SERVICE_UNAVAILABLE
    then setRegistrationState ERROR_SERVICE_UNAVAILABLE code
    else setRegistrationState ERROR_GENERIC code
  else if PJSIP_IS_STATUS_IN_CLASS code 200
  then
    (* Update auto registration flag *)
    resetAutoRegistration ;;
    if p_expiration param <? 1
    then
      destroyRegistrationInfo ;;
      setRegistrationState UNREGISTERED code
    else
      (if allowIPAutoRewrite_ a then _ <- checkNATAddress param ;; ret tt else ret tt) ;;
      when (hasServiceRoute a)
           (emit (EvRegcSetRouteSet (p_regc param) (serviceRoute_ a))) ;;
      setRegistrationState REGISTERED code
  else ret tt.

(** The codes of the [switch] of lines 1165-1178: the registration
    failures that are retried. *)
Definition retry_code (code : Z) : bool :=
  if (code =? PJSIP_SC_REQUEST_TIMEOUT)
     || (code =? PJSIP_SC_INTERNAL_SERVER_ERROR)
     || (code =? PJSIP_SC_BAD_GATEWAY)
     || (code =? PJSIP_SC_SERVICE_UNAVAILABLE)
     || (code =? PJSIP_SC_SERVER_TIMEOUT)
  then true
  else (* Global failure *) PJSIP_IS_STATUS_IN_CLASS code 600.

Definition onRegister (env : Env) (param : pjsip_regc_cbparam) : M unit :=
  a <- gets id ;;
  if negb (bool_decide (p_regc param = regc_ a)) then ret tt
  else
    onRegister_outcome param ;;
    (* Check if we need to auto retry registration. *)
    when (retry_code (p_code param)) (scheduleReregistration env).

(** ** Credentials (sipaccount.cpp, lines 1677-1752) *)

(** Compute md5 hash = MD5(username ":" realm ":" password), written as
    32 hexadecimal digits. *)
Definition computePasswordHash (c : Credentials) : Credentials :=
  let digest :=
    MD5.digest (bytes_of_string (username c) ++ bytes_of_string ":"
                ++ bytes_of_string (realm c) ++ bytes_of_string ":"
                ++ bytes_of_string (password c)) in
  mk_Credentials (realm c) (username c) (password c) (hex_of_digest digest).

(** The [pjsip_cred_info] that [setCredentials] builds from an entry
    (lines 1726-1736): each field is a [pj_str] of the C string of the
    entry. *)
Definition cred_info_of (c : Credentials) : pjsip_cred_info :=
  mk_cred_info (pj_str (realm c)) (pj_str "digest") (pj_str (username c))
    (if String.eqb (password_h c) "" then PJSIP_CRED_DATA_PLAIN_PASSWD
     else PJSIP_CRED_DATA_DIGEST)
    (pj_str (if String.eqb (password_h c) "" then password c else password_h c)).

(** Lines 1716-1721: the entry built from a credential map; a key that is
    absent gives the empty string. *)
Definition credentialOf (cred : gmap string string) : Credentials :=
  mk_Credentials (default "" (cred !! CONFIG_ACCOUNT_REALM))
                 (default "" (cred !! CONFIG_ACCOUNT_USERNAME))
                 (default "" (cred !! CONFIG_ACCOUNT_PASSWORD)) "".

(** The body of the loop of [setCredentials] (lines 1715-1737). *)
Definition addCredential (md5 : bool) (cred : gmap string string) : M unit :=
  let c := credentialOf cred in
  let c := if md5 then computePasswordHash c else c in
  modify (fun a => set_credentials_ (credentials_ a ++ [c]) a) ;;
  modify (fun a => set_cred_ (cred_ a ++ [cred_info_of c]) a).

Fixpoint addCredentials (md5 : bool) (creds : list (gmap string string)) : M unit :=
  match creds with
  | [] => ret tt
  | cred :: rest => addCredential md5 cred ;; addCredentials md5 rest
  end.

Definition setCredentials (env : Env) (creds : list (gmap string string)) : M unit :=
  match creds with
  | [] => emit (EvJamiErr "Cannot authenticate with empty credentials list")
  | _ =>
      modify (set_credentials_ []) ;;
      modify (set_cred_ []) ;;
      addCredentials (md5HashingEnabled env) creds
  end.

Definition getCredentials (a : SIPAccount) : list (gmap string string) :=
  map (fun c => <[CONFIG_ACCOUNT_REALM := realm c]>
                (<[CONFIG_ACCOUNT_USERNAME := username c]>
                 (<[CONFIG_ACCOUNT_PASSWORD := password c]> ∅)))
      (credentials_ a).

(** ** Authenticated requests (sipaccount.cpp, lines 96-107, 2251-2307) *)

(** [struct ctx]: [ctx_acc] tells whether the weak pointer to the account
    still locks. *)
Record ctx := mk_ctx { ctx_acc : bool; ctx_to : string; ctx_id : Z }.

(** Of the [PJSIP_EVENT_TSX_STATE] event: the status code of the
    transaction and the request it sent last. *)
Record tsx_event := mk_tsx_event { tsx_status_code : Z; tsx_last_tx : pjsip_tx_data }.

(** What pjsip answers during one run of [onComplete]:
    [pjsip_auth_clt_reinit_req(...) == PJ_SUCCESS] and
    [pjsip_endpt_send_request(...) == PJ_SUCCESS]. *)
Record AuthEnv := mk_AuthEnv { auth_reinit_ok : bool; send_request_ok : bool }.

(** [cseq] is a [pj_int32_t]. *)
Definition wrap_int32 (x : Z) : Z := (x + 2 ^ 31) mod 2 ^ 32 - 2 ^ 31.

(** [pjsip_auth_clt_reinit_req] adds the authorization header to the last
    request and leaves its CSeq for the caller to increment. *)
Definition pjsip_auth_clt_reinit_req (old_request : pjsip_tx_data) : pjsip_tx_data :=
  mk_tx_data (td_cseq old_request) (Datatypes.S (td_auth_hdrs old_request)).

(** [onComplete] gives the calls it made and, when the request was sent
    again, the token and the request that now wait for a response. *)
Definition onComplete (env : AuthEnv) (c : ctx) (event : tsx_event)
  : list Event * option (ctx * pjsip_tx_data) :=
  let code := tsx_status_code event in
  if negb (ctx_acc c) then ([], None)
  else
    (* Check if Authorization Header if needed (request rejected by server) *)
    if (code =? PJSIP_SC_UNAUTHORIZED) || (code =? PJSIP_SC_PROXY_AUTHENTICATION_REQUIRED)
    then
      (* Add Authorization Header into msg *)
      if auth_reinit_ok env
      then
        let new_request := pjsip_auth_clt_reinit_req (tsx_last_tx event) in
        (* Increment Cseq number by one manually *)
        let new_request :=
          mk_tx_data (wrap_int32 (td_cseq new_request + 1)) (td_auth_hdrs new_request) in
        (* Resend request *)
        if send_request_ok env
        then ([EvSendRequest new_request], Some (c, new_request))
        else ([EvSendRequest new_request; EvMessageSent (ctx_to c) (ctx_id c) false], None)
      else
        ([EvJamiErr "Unable to add Authorization Header into msg";
          EvMessageSent (ctx_to c) (ctx_id c) false], None)
    else
      ([EvMessageSent (ctx_to c) (ctx_id c)
          ((code =? PJSIP_SC_OK) || (code =? PJSIP_SC_ACCEPTED))], None).

(** The endpoint hands each response to the callback of the request that
    waits for it: [deliver] runs [onComplete] on the responses in turn, as
    long as a request is outstanding. *)
Fixpoint deliver (rs : list (Z * AuthEnv)) (c : ctx) (tdata : pjsip_tx_data) : list Event :=
  match rs with
  | [] => []
  | (code, env) :: rest =>
      let r := onComplete env c (mk_tsx_event code tdata) in
      r.1 ++ match r.2 with
             | Some (c', tdata') => deliver rest c' tdata'
             | None => []
             end
  end.

Definition is_resend (e : Event) : bool :=
  match e with EvSendRequest _ => true | _ => false end.

Definition is_delivery_failure (e : Event) : bool :=
  match e with EvMessageSent _ _ false => true | _ => false end.

Definition is_regc_send (req : regc_request) (e : Event) : bool :=
  match e, req with
  | EvRegcSend _ REGISTER _, REGISTER | EvRegcSend _ UNREGISTER _, UNREGISTER => true
  | _, _ => false
  end.

Definition is_schedule_timer (e : Event) : bool :=
  match e with EvScheduleTimer _ => true | _ => false end.

(** ** Matching a request to the account (sipaccount.cpp, lines 1347-1377, 1859-1887) *)

Inductive MatchRank := NONE | PARTIAL | FULL.

(** [common a b] stands for
    [ip_utils::haveCommonAddr(ip_utils::getAddrList(a), ip_utils::getAddrList(b))]:
    whether the resolver finds an address that both host names have. *)
Definition userMatch (a : SIPAccount) (username : string) : bool :=
  negb (String.eqb username "") && String.eqb username (username_ a).

Definition hostnameMatch (common : string -> string -> bool) (a : SIPAccount)
    (hostname : string) : bool :=
  if String.eqb hostname (hostname_ a) then true
  else common hostname (hostname_ a).

Definition proxyMatch (common : string -> string -> bool) (a : SIPAccount)
    (hostname : string) : bool :=
  if String.eqb hostname (serviceRoute_ a) then true
  else common hostname (hostname_ a).

Definition fullMatch (common : string -> string -> bool) (a : SIPAccount)
    (username hostname : string) : bool :=
  userMatch a username && hostnameMatch common a hostname.

Definition matches (common : string -> string -> bool) (a : SIPAccount)
    (userName server : string) : MatchRank :=
  if fullMatch common a userName server then FULL
  else if hostnameMatch common a server then PARTIAL
  else if userMatch a userName then PARTIAL
  else if proxyMatch common a server then PARTIAL
  else NONE.

(** ** URIs (sipaccount.cpp, lines 1429-1482) *)

(** [pjsip_transport_get_type_name] (sip_transport.c): the tag of the
    transport, which an IPv6 type shares with its IPv4 type.  The account
    asks for the tag of a TLS type only. *)
Definition pjsip_transport_get_type_name (t : pjsip_transport_type_e) : string :=
  match t with
  | PJSIP_TRANSPORT_UDP | PJSIP_TRANSPORT_UDP6 => "UDP"
  | PJSIP_TRANSPORT_TLS | PJSIP_TRANSPORT_TLS6 => "TLS"
  | PJSIP_TRANSPORT_UNSPECIFIED | PJSIP_TRANSPORT_START_OTHER => "Unspecified"
  end.

Definition is_tls_type (t : pjsip_transport_type_e) : bool :=
  match t with
  | PJSIP_TRANSPORT_TLS | PJSIP_TRANSPORT_TLS6 => true
  | _ => false
  end.

Definition getToUri (a : SIPAccount) (username : string) : string :=
  (* UDP does not require the transport specification *)
  let scheme := if is_tls_type (transportType_ a) then "sips:" else "sip:" in
  let transport :=
    if is_tls_type (transportType_ a)
    then ";transport=" +:+ pjsip_transport_get_type_name (transportType_ a)
    else "" in
  (* Check if scheme is already specified *)
  let scheme := if contains_string "sip" username then "" else scheme in
  (* Check if hostname is already specified *)
  let hostname := if negb (contains_char "@"%char username) then hostname_ a else "" in
  let hostname :=
    if negb (String.eqb hostname "") && IpAddr_isIpv6 hostname
    then toString (IpAddr_of_string hostname) false true
    else hostname in
  let ltSymbol := if negb (contains_char "<"%char username) then "<" else "" in
  let gtSymbol := if negb (contains_char ">"%char username) then ">" else "" in
  ltSymbol +:+ scheme +:+ username +:+ (if String.eqb hostname "" then "" else "@")
  +:+ hostname +:+ transport +:+ gtSymbol.

Definition getServerUri (a : SIPAccount) : string :=
  let scheme := if is_tls_type (transportType_ a) then "sips:" else "sip:" in
  let transport :=
    if is_tls_type (transportType_ a)
    then ";transport=" +:+ pjsip_transport_get_type_name (transportType_ a)
    else "" in
  let host :=
    if IpAddr_isIpv6 (hostname_ a)
    then toString (IpAddr_of_string (hostname_ a)) false true
    else hostname_ a in
  "<" +:+ scheme +:+ host +:+ transport +:+ ">".

(** ** TLS ciphers and STUN server (sipaccount.cpp, lines 1238-1330) *)

(** [trimCiphers]: the value that [ciphers_] gets; [name] stands for
    [pj_ssl_cipher_name]. *)
Definition MAX_CIPHERS_STRLEN : Z := 1000.

Fixpoint trimCiphers_count (name : Z -> string) (sum : Z) (ciphers : list Z) : nat :=
  match ciphers with
  | [] => O
  | item :: rest =>
      let sum := sum + Z.of_nat (String.length (name item)) in
      if sum >? MAX_CIPHERS_STRLEN then O
      else Datatypes.S (trimCiphers_count name sum rest)
  end.

Definition trimCiphers (name : Z -> string) (ciphers_ : list Z) : list Z :=
  firstn (trimCiphers_count name 0 ciphers_) ciphers_.

Definition PJ_STUN_PORT : Z := 3478.

Definition digit_value (c : ascii) : option Z :=
  let n := Z.of_nat (nat_of_ascii c) in
  if (48 <=? n) && (n <=? 57) then Some (n - 48) else None.

(** The digits that a string begins with. *)
Fixpoint leading_digits (s : string) : list Z :=
  match s with
  | EmptyString => []
  | String c r =>
      match digit_value c with
      | Some d => d :: leading_digits r
      | None => []
      end
  end.

Definition decimal_value (ds : list Z) : Z := fold_left (fun acc d => 10 * acc + d) ds 0.

(** [std::from_chars] into a [pj_uint16_t]: without a digit, or with a
    number above 65535, the value is left as it was. *)
Definition from_chars_uint16 (s : string) (value : Z) : Z :=
  match leading_digits s with
  | [] => value
  | ds => if decimal_value ds >? 65535 then value else decimal_value ds
  end.

(** [initStunConfiguration]: [stunServerName_] and [stunPort_] from
    [stunServer_] and the port set before. *)
Definition initStunConfiguration (stunServer_ : string) (stunPort_ : Z) : string * Z :=
  match find_char ":"%char stunServer_ with
  | None => (stunServer_, PJ_STUN_PORT)
  | Some pos =>
      (substr_to pos stunServer_,
       from_chars_uint16 (substr_from (Datatypes.S pos) stunServer_) stunPort_)
  end.

(** ** Changes that register again (sipaccount.cpp, lines 792-816, 977-989) *)

Definition set_deviceKey_ (v : string) (a : SIPAccount) : SIPAccount :=
  mk_SIPAccount (enabled_ a) (active_ a) (hostname_ a) (username_ a) (displayName_ a)
    v (serviceRoute_ a) (tlsServerName_ a) (tlsEnable_ a) (stunEnabled_ a)
    (allowIPAutoRewrite_ a) (registrationRefreshEnabled_ a) (registrationExpire_ a)
    (receivedParameter_ a) (rPort_ a) (localPort_ a) (tlsListenerPort_ a)
    (publishedPortUsed_ a) (upnpCtrl_ a) (presenceEnabled_ a) (registrationState_ a)
    (registrationStateDetailed_ a) (regc_ a) (bRegister_ a) (hostIp_ a) (transport_ a)
    (tlsListener_ a) (transportType_ a) (auto_rereg_ a) (via_addr_ a) (via_tp_ a)
    (publishedSameasLocal_ a) (publishedIpAddress_ a) (publishedIp_ a) (publishedPort_ a)
    (contactHeader_ a) (contactAddress_ a) (credentials_ a) (cred_ a).

(** The collaborators answer [env] while the account unregisters and
    [env'] while it registers again. *)
Definition setPushNotificationToken (env env' : Env) (pushDeviceToken : string) : M unit :=
  a <- gets id ;;
  if String.eqb (deviceKey_ a) pushDeviceToken then ret tt
  else
    modify (set_deviceKey_ pushDeviceToken) ;;
    when (enabled_ a) (doUnregister env (Some (fun _ => doRegister env'))).

Definition pushNotificationReceived (env env' : Env) : M unit :=
  a <- gets id ;;
  when (enabled_ a) (doUnregister env (Some (fun _ => doRegister env'))).

Definition connectivityChanged (env env' : Env) : M unit :=
  usable <- gets isUsable ;;
  if negb usable then (* nothing to do *) ret tt
  else
    doUnregister env
      (Some (fun _ => usable <- gets isUsable ;; when usable (doRegister env'))).

(** ** Transport state (sipaccount.cpp, lines 287-317) *)

Definition PJSIP_SC_TSX_TRANSPORT_ERROR : Z := 503.

(** [onTransportStateChanged]: [alive] is [SipTransport::isAlive(state)],
    [info] the status of the state info when there is one,
    [transportStatus_] the status kept so far.  The result is the status
    kept from now on and whether the volatile details are signalled;
    [transportError_] is the text of that status. *)
Definition onTransportStateChanged (env : Env) (alive : bool) (info : option pj_status_t)
    (transportStatus_ : pj_status_t) : M (pj_status_t * bool) :=
  let currentStatus := transportStatus_ in
  transportStatus_ <-
    (if negb alive
     then
       let transportStatus_ :=
         match info with
         | Some status => status
         | None => (* This is already the generic error used by pjsip. *)
             PJSIP_SC_SERVICE_UNAVAILABLE
         end in
       (match info with
        | Some _ => emit (EvJamiErr "Transport disconnected")
        | None => ret tt
        end) ;;
       setRegistrationState ERROR_GENERIC PJSIP_SC_TSX_TRANSPORT_ERROR ;;
       setTransport env None ;;
       ret transportStatus_
     else
       (* The status can be '0', this is the same as OK *)
       ret (match info with
            | Some status => if status =? 0 then PJSIP_SC_OK else status
            | None => PJSIP_SC_OK
            end)) ;;
  (* Notify the client of the new transport state *)
  ret (transportStatus_, negb (currentStatus =? transportStatus_)).

(** ** Instant messages (sipaccount.cpp, lines 2149-2249) *)

(** What pjsip answers during [sendMessage]: the request that
    [pjsip_endpt_create_request] makes, if any, and whether
    [pjsip_auth_clt_init], [pjsip_auth_clt_set_credentials],
    [pjsip_tx_data_set_transport] and [pjsip_endpt_send_request] give
    [PJ_SUCCESS]. *)
Record MsgEnv := mk_MsgEnv {
  create_request : option pjsip_tx_data;
  auth_clt_init_ok : bool;
  auth_clt_set_credentials_ok : bool;
  tx_data_set_transport_ok : bool;
  endpt_send_request_ok : bool
}.

(** [const_cast<pjsip_cred_info*>(cred)->realm = CONST_PJ_STR(hostname_)]
    with [cred = cred_.data()]: the first record is written; without a
    record the pointer is not one to write through. *)
Definition setFirstRealm : M unit :=
  a <- gets id ;;
  match cred_ a with
  | [] => undefined
  | c :: rest =>
      modify (set_cred_ (mk_cred_info (hostname_ a) (ci_scheme c) (ci_username c)
                                      (ci_data_type c) (ci_data c) :: rest))
  end.

(** [sendMessage] gives the token and the request that wait for a
    response under [onComplete], when the request was sent. *)
Definition sendMessage (env : MsgEnv) (to : string) (payloads : gmap string string)
    (id : Z) : M (option (ctx * pjsip_tx_data)) :=
  let failed : M (option (ctx * pjsip_tx_data)) :=
    emit (EvMessageSent to id false) ;; ret None in
  if String.eqb to "" || bool_decide (payloads = ∅) then failed
  else
    (* Create request. *)
    match create_request env with
    | None => emit (EvJamiErr "Unable to create request") ;; failed
    | Some tdata =>
        (* Set input token into callback *)
        let t := mk_ctx true to id in
        (* Initialize Auth header. *)
        setFirstRealm ;;
        if negb (auth_clt_init_ok env)
        then emit (EvJamiErr "Unable to initialize auth session") ;; failed
        else if negb (auth_clt_set_credentials_ok env)
        then emit (EvJamiErr "Unable to set auth session data") ;; failed
        else if negb (tx_data_set_transport_ok env)
        then emit (EvJamiErr "Unable to set transport") ;; failed
        else
          (* Send message request with callback SendMessageOnComplete *)
          emit (EvSendRequest tdata) ;;
          if negb (endpt_send_request_ok env)
          then emit (EvJamiErr "Unable to send request") ;; failed
          else ret (Some (t, tdata))
    end.

(** ** The timer entry (sipaccount.cpp, lines 2094-2100) *)

(** The callback that [scheduleReregistration] puts in the timer entry:
    it locks the weak pointer that [te->user_data] points to, here the one
    of an account that is alive, and runs [autoReregTimerCb]; the pointer
    is read whether or not it is null. *)
Definition auto_rereg_timer_cb (env : Env) : M unit :=
  ar <- gets auto_rereg_ ;;
  if timer_user_data ar then autoReregTimerCb env else undefined.

(** ** The vocabulary of the properties *)

(** [m] keeps the value of [f], makes no call that [P] selects, and
    always returns. *)
Definition preserves {A B} (f : SIPAccount -> B) (m : M A) : Prop :=
  forall a, f (state_of (m a)) = f a.

Definition silent {A} (P : Event -> bool) (m : M A) : Prop :=
  forall a, List.filter P (events_of (m a)) = [].

Definition returns {A} (m : M A) : Prop :=
  forall a, exists x, result_of (m a) = Done x.

(** A retry is scheduled when the timer heap is asked for a timer. *)
Definition schedules_retry (evs : list Event) : Prop :=
  exists delay, In (EvScheduleTimer delay) evs.

(** The error state that the status code of a failed registration stands
    for: 403 is an authentication error, 404 and 408 are host errors, 503
    is an unavailable service, any other code a generic error. *)
Definition registration_error_state (code : Z) : RegistrationState :=
  if code =? 403 then ERROR_AUTH
  else if (code =? 404) || (code =? 408) then ERROR_HOST
  else if code =? 503 then ERROR_SERVICE_UNAVAILABLE
  else ERROR_GENERIC.

(** The contact address that is compared: the port of the transport type
    stands in for a port 0. *)
Definition current_contact (a : SIPAccount) (rdata : pjsip_rx_data) : IpAddr :=
  if getPort (contactAddress_ a) =? 0
  then setPort (contactAddress_ a)
               (pjsip_transport_get_default_port_for_type (tp_key_type (rd_transport rdata)))
  else contactAddress_ a.

(** The observed address and port as a socket address, when the address
    parses. *)
Definition observed_sockaddr (rdata : pjsip_rx_data) : IpAddr :=
  setPort (pj_sockaddr_parse (observed_via_addr rdata)).2 (observed_rport rdata).

Definition observed_parses (rdata : pjsip_rx_data) : bool :=
  (pj_sockaddr_parse (observed_via_addr rdata)).1 =? PJ_SUCCESS.

(** The observed address and port are those of the contact: as socket
    addresses when the observed address parses, else as strings and
    ports. *)
Definition observed_equals_contact (a : SIPAccount) (rdata : pjsip_rx_data) : bool :=
  if observed_parses rdata
  then IpAddr_eqb (current_contact a rdata) (observed_sockaddr rdata)
  else (getPort (current_contact a rdata) =? observed_rport rdata)
       && pj_stricmp_eq (toString (current_contact a rdata) false false)
                        (observed_via_addr rdata).

(** Contact and source of the response are public, the observed address
    is private. *)
Definition private_seen_from_public (a : SIPAccount) (rdata : pjsip_rx_data) : bool :=
  negb (isPrivate (current_contact a rdata))
  && negb (isPrivate (IpAddr_of_string (rd_src_name rdata)))
  && isPrivate (observed_sockaddr rdata).

Definition is_update_contact (e : Event) : bool :=
  match e with EvRegcUpdateContact _ _ => true | _ => false end.

Definition is_challenge (code : Z) : bool :=
  (code =? PJSIP_SC_UNAUTHORIZED) || (code =? PJSIP_SC_PROXY_AUTHENTICATION_REQUIRED).

(** The request that is sent again after a challenge. *)
Definition resent (tdata : pjsip_tx_data) : pjsip_tx_data :=
  mk_tx_data (wrap_int32 (td_cseq tdata + 1)) (Datatypes.S (td_auth_hdrs tdata)).

(** The CSeq values of the requests sent after [n] challenges that the
    authentication session accepts. *)
Fixpoint resends (n : nat) (tdata : pjsip_tx_data) : list Event :=
  match n with
  | O => []
  | Datatypes.S n' => EvSendRequest (resent tdata) :: resends n' (resent tdata)
  end.

Definition accepted_challenge (r : Z * AuthEnv) : Prop :=
  is_challenge r.1 = true /\ auth_reinit_ok r.2 = true /\ send_request_ok r.2 = true.

(** The entry that [setCredentials] stores for a credential map. *)
Definition storedCredential (md5 : bool) (cred : gmap string string) : Credentials :=
  if md5 then computePasswordHash (credentialOf cred) else credentialOf cred.

(** pjsip accepts every call of the registration client. *)
Definition pjsip_accepts (env : Env) : Prop :=
  regc_set_via_sent_by_ok env = true /\ regc_init_ok env = true
  /\ regc_register_ok env = true /\ regc_unregister_ok env = true
  /\ regc_set_transport_ok env = true /\ regc_send_ok env = true.

(** The length of the names of a list of ciphers, as [trimCiphers] sums
    it. *)
Fixpoint ciphers_strlen (name : Z -> string) (ciphers : list Z) : Z :=
  match ciphers with
  | [] => 0
  | item :: rest => Z.of_nat (String.length (name item)) + ciphers_strlen name rest
  end.

(** A number written with the decimal digits [ds]. *)
Definition digit_char (d : Z) : ascii := ascii_of_nat (48 + Z.to_nat d).

Definition digits_string (ds : list Z) : string :=
  fold_right (fun d s => String (digit_char d) s) "" ds.

(** [m] lets no exception escape. *)
Definition never_throws {A} (m : M A) : Prop :=
  forall a e, result_of (m a) <> Thrown e.

Definition is_cancel_timer (e : Event) : bool :=
  match e with EvCancelTimer => true | _ => false end.

Definition is_jami_err (e : Event) : bool :=
  match e with EvJamiErr _ => true | _ => false end.

Definition is_message_sent (e : Event) : bool :=
  match e with EvMessageSent _ _ _ => true | _ => false end.

Definition is_regc_destroy (e : Event) : bool :=
  match e with EvRegcDestroy _ => true | _ => false end.

(** The re-registration record after [resetAutoRegistration]: the timer
    id is the one field that is left as it was. *)
Definition auto_rereg_reset (a : SIPAccount) : AutoRereg :=
  mk_AutoRereg false (timer_id (auto_rereg_ a)) false 0.

(** A credential map as [getCredentials] gives it: the realm, the user
    name and the password, and nothing else. *)
Definition credentialMap (r u p : string) : gmap string string :=
  <[CONFIG_ACCOUNT_REALM := r]>
  (<[CONFIG_ACCOUNT_USERNAME := u]>
   (<[CONFIG_ACCOUNT_PASSWORD := p]> ∅)).

(** All that a message makes the account report and send: the calls of
    [sendMessage], then those of [onComplete] on the responses [rs] while
    the request is outstanding. *)
Definition message_events (env : MsgEnv) (rs : list (Z * AuthEnv)) (to : string)
    (payloads : gmap string string) (id : Z) (a : SIPAccount) : list Event :=
  let r := sendMessage env to payloads id a in
  events_of r
  ++ match result_of r with
     | Done (Some (t, tdata)) => deliver rs t tdata
     | _ => []
     end.

(** pjsip makes the request, takes the credentials and the transport,
    and sends the request. *)
Definition message_accepted (env : MsgEnv) : bool :=
  bool_decide (create_request env <> None) && auth_clt_init_ok env
  && auth_clt_set_credentials_ok env && tx_data_set_transport_ok env
  && endpt_send_request_ok env.

End Account.

(** ** A concrete account *)

Module Sample.

Definition platform : Platform := {| PN_PROVIDER := None |}.

Definition udp : pjsip_transport := mk_transport 1 PJSIP_TRANSPORT_UDP false.

Definition addr (s : string) (port : Z) : @IpAddr IPv4.ops :=
  @setPort IPv4.ops (@IpAddr_of_string IPv4.ops s) port.

Definition no_addr : @IpAddr IPv4.ops := IPv4.unspec.

(** An enabled account of alice at sip.example.org, registered through
    the registration client 7 over UDP, with the contact 203.0.113.5:5060. *)
Definition account : @SIPAccount IPv4.ops := {|
  enabled_ := true; active_ := true;
  hostname_ := "sip.example.org"; username_ := "alice"; displayName_ := "";
  deviceKey_ := ""; serviceRoute_ := ""; tlsServerName_ := "";
  tlsEnable_ := false; stunEnabled_ := false; allowIPAutoRewrite_ := true;
  registrationRefreshEnabled_ := true; registrationExpire_ := 3600;
  receivedParameter_ := ""; rPort_ := 0;
  localPort_ := 5060; tlsListenerPort_ := 5061; publishedPortUsed_ := 5060;
  upnpCtrl_ := false; presenceEnabled_ := false;
  registrationState_ := TRYING; registrationStateDetailed_ := 0;
  regc_ := Some 7%nat; bRegister_ := true;
  hostIp_ := addr "198.51.100.7" 0;
  transport_ := Some (mk_SipTransport 1 (Some udp));
  tlsListener_ := None; transportType_ := PJSIP_TRANSPORT_UDP;
  auto_rereg_ := mk_AutoRereg false false false 0;
  via_addr_ := mk_host_port "" 0; via_tp_ := None;
  publishedSameasLocal_ := true; publishedIpAddress_ := "";
  publishedIp_ := no_addr; publishedPort_ := 5060;
  contactHeader_ := "<sip:alice@203.0.113.5:5060>";
  contactAddress_ := addr "203.0.113.5" 5060;
  credentials_ := [mk_Credentials "sip.example.org" "alice" "secret" ""];
  cred_ := [mk_cred_info "sip.example.org" "digest" "alice"
                         PJSIP_CRED_DATA_PLAIN_PASSWD "secret"]
|}.

(** Collaborators that succeed; the jitter draws are 2500 ms and 400 ms. *)
Definition env : @Env IPv4.ops := {|
  md5HashingEnabled := true;
  rand_delay10Zero := 2500; rand_delay10Pos := 400;
  schedule_timer_ok := true;
  upnpActive := false; upnpIpAddress := no_addr; upnp_mapping_open := false;
  host_ips := [addr "198.51.100.7" 0];
  bind_address := addr "0.0.0.0" 0;
  getTlsListener := None;
  getUdpTransport := Some (mk_SipTransport 1 (Some udp));
  getTlsTransport := None;
  local_address := ("192.168.1.20", 5060);
  stun_address := (false, ("", 0));
  regc_create := Some 8%nat;
  regc_set_via_sent_by_ok := true; regc_init_ok := true;
  regc_register_ok := true; regc_unregister_ok := true;
  regc_set_transport_ok := true; regc_send_ok := true
|}.

(** The same collaborators, with a resolver that finds no address. *)
Definition env_unresolved : @Env IPv4.ops := {|
  md5HashingEnabled := true;
  rand_delay10Zero := 2500; rand_delay10Pos := 400;
  schedule_timer_ok := true;
  upnpActive := false; upnpIpAddress := no_addr; upnp_mapping_open := false;
  host_ips := [];
  bind_address := addr "0.0.0.0" 0;
  getTlsListener := None;
  getUdpTransport := Some (mk_SipTransport 1 (Some udp));
  getTlsTransport := None;
  local_address := ("192.168.1.20", 5060);
  stun_address := (false, ("", 0));
  regc_create := Some 8%nat;
  regc_set_via_sent_by_ok := true; regc_init_ok := true;
  regc_register_ok := true; regc_unregister_ok := true;
  regc_set_transport_ok := true; regc_send_ok := true
|}.

(** A final response to REGISTER with the given status, code and Via. *)
Definition response (status code : Z) (via : pjsip_via_hdr) (src_name : string)
  : pjsip_regc_cbparam :=
  mk_cbparam (Some 7%nat) status code 3600 (mk_rx_data udp via src_name).

(** The Via of a response: sent-by 192.168.1.20:5060, and the received
    address and rport that the registrar added. *)
Definition via (received : string) (rport : Z) : pjsip_via_hdr :=
  mk_via rport "192.168.1.20" 5060 received.

(** A status of pjsip other than [PJ_SUCCESS]. *)
Definition PJSIP_EFAILEDCREDENTIAL : pj_status_t := 171100.

(** The credential map of alice. *)
Definition credential : gmap string string :=
  <[CONFIG_ACCOUNT_REALM := "sip.example.org"]>
  (<[CONFIG_ACCOUNT_USERNAME := "alice"]>
   (<[CONFIG_ACCOUNT_PASSWORD := "secret"]> ∅)).

(** A message to bob with the correlation id 42, sent with CSeq 100. *)
Definition message : ctx := mk_ctx true "bob" 42.
Definition request : pjsip_tx_data := mk_tx_data 100 0.

(** pjsip gives the request with its authorization and sends it. *)
Definition accepting : AuthEnv := mk_AuthEnv true true.




(** Collaborators that bind to the port 5060, with the registration
    client that [pjsip_regc_create] gives, if any, and the answer of
    [pjsip_regc_init]. *)
Definition collaborators (create : option pjsip_regc) (init_ok : bool) : @Env IPv4.ops := {|
  md5HashingEnabled := true;
  rand_delay10Zero := 2500; rand_delay10Pos := 400;
  schedule_timer_ok := true;
  upnpActive := false; upnpIpAddress := no_addr; upnp_mapping_open := false;
  host_ips := [addr "198.51.100.7" 0];
  bind_address := addr "0.0.0.0" 5060;
  getTlsListener := None;
  getUdpTransport := Some (mk_SipTransport 2 (Some udp));
  getTlsTransport := None;
  local_address := ("192.168.1.20", 5060);
  stun_address := (false, ("", 0));
  regc_create := create;
  regc_set_via_sent_by_ok := true; regc_init_ok := init_ok;
  regc_register_ok := true; regc_unregister_ok := true;
  regc_set_transport_ok := true; regc_send_ok := true
|}.

(** The account while a retry timer is armed, after one attempt. *)
Definition retrying : @SIPAccount IPv4.ops :=
  set_auto_rereg_ (mk_AutoRereg true true true 1) account.

(** A response to the unREGISTER: expiration 0. *)
Definition unregistered : pjsip_regc_cbparam :=
  mk_cbparam (Some 7%nat) PJ_SUCCESS 200 0
             (mk_rx_data udp (via "203.0.113.5" 5060) "198.51.100.7").

(** pjsip creates the request of a message and accepts every step. *)
Definition messaging : MsgEnv := mk_MsgEnv (Some request) true true true true.

(** The payload of a text message. *)
Definition payloads : gmap string string := {[ "text/plain" := "hello" ]}.

End Sample.

(** * Properties *)

(** Case analysis on an innermost scrutinee of the goal. *)
Ltac case_cond :=
  match goal with
  | |- context [match ?c with _ => _ end] =>
      lazymatch c with
      | context [match _ with _ => _ end] => fail
      | _ => destruct c eqn:?
      end
  end.

Ltac run_cases := repeat (case_cond; cbn -[printContactHeader pj_stricmp_eq]).

Ltac unfold_monad :=
  unfold events_of, state_of, result_of, when, update_auto_rereg,
    setRegistrationState, SIPAccountBase_setRegistrationState, setPublishedAddress,
    setRegister, bind, gets, modify, emit, ret, throw, undefined in *.

(** The notation of the account monad, for the statements below. *)
Notation "x <- m ;; k" := (bind m (fun x => k))
  (at level 100, m at next level, right associativity).
Notation "m ;; k" := (bind m (fun _ => k))
  (at level 100, right associativity).

Section Properties.

Context `{IpAddrOps} `{Platform}.

(** ** The re-registration delay *)

Lemma pj_time_val_borrow_spec (s ms : Z) :
  ms <= -1000 ->
  PJ_TIME_VAL_MSEC (pj_time_val_borrow s ms) = s * 1000 + ms
  /\ -1000 < msec (pj_time_val_borrow s ms) <= 0.
Proof.
  funelim (pj_time_val_borrow s ms). intros Hms.
  destruct (decide (ms + 1000 <= -1000)) as [Hle | Hgt].
  - match goal with
    | IH : _ -> _ -> _ /\ _ |- _ => destruct (IH Hle Hle) as [Htot Hrange]
    end.
    lia.
  - unfold PJ_TIME_VAL_MSEC. cbn [sec msec]. lia.
Qed.

Lemma pj_time_val_normalize_msec (t : pj_time_val) :
  PJ_TIME_VAL_MSEC (pj_time_val_normalize t) = PJ_TIME_VAL_MSEC t.
Proof.
  unfold pj_time_val_normalize.
  destruct t as [s ms]. cbn [sec msec].
  destruct (decide (ms >= 1000)) as [Hbig | Hsmall].
  - pose proof (Z.quot_rem' ms 1000) as Hqr.
    repeat case_decide; unfold PJ_TIME_VAL_MSEC in *; cbn [sec msec] in *; lia.
  - destruct (decide (ms <= -1000)) as [Hneg | Hmid].
    + destruct (pj_time_val_borrow_spec s ms Hneg) as [Htot _].
      repeat case_decide; unfold PJ_TIME_VAL_MSEC in *; cbn [sec msec] in *; lia.
    + repeat case_decide; unfold PJ_TIME_VAL_MSEC in *; cbn [sec msec] in *; lia.
Qed.

Lemma pj_time_val_normalize_nonneg (t : pj_time_val) :
  0 <= PJ_TIME_VAL_MSEC t ->
  0 <= sec (pj_time_val_normalize t) /\ 0 <= msec (pj_time_val_normalize t) < 1000.
Proof.
  intros Hnonneg. rewrite <- pj_time_val_normalize_msec in Hnonneg.
  revert Hnonneg. unfold pj_time_val_normalize.
  destruct t as [s ms]. cbn [sec msec].
  destruct (decide (ms >= 1000)) as [Hbig | Hsmall].
  - pose proof (Z.rem_bound_pos ms 1000 ltac:(lia) ltac:(lia)) as Hrem.
    repeat case_decide; unfold PJ_TIME_VAL_MSEC in *; cbn [sec msec] in *; lia.
  - destruct (decide (ms <= -1000)) as [Hneg | Hmid].
    + destruct (pj_time_val_borrow_spec s ms Hneg) as [_ Hrange].
      repeat case_decide; unfold PJ_TIME_VAL_MSEC in *; cbn [sec msec] in *; lia.
    + repeat case_decide; unfold PJ_TIME_VAL_MSEC in *; cbn [sec msec] in *; lia.
Qed.

Lemma reregistrationDelay_msec (delay_sec : Z) (env : Env) :
  PJ_TIME_VAL_MSEC (reregistrationDelay delay_sec env)
  = if decide (delay_sec >= 10) then delay_sec * 1000 + rand_delay10Zero env
    else rand_delay10Pos env.
Proof.
  unfold reregistrationDelay. rewrite pj_time_val_normalize_msec.
  case_decide; unfold PJ_TIME_VAL_MSEC; cbn [sec msec]; lia.
Qed.

Lemma scheduleReregistration_events (env : Env) (a : SIPAccount) :
  isUsable a = true ->
  events_of (scheduleReregistration env a)
  = (if timer_id (auto_rereg_ a) then [EvCancelTimer] else [])
    ++ [EvScheduleTimer
          (reregistrationDelay (retryInterval (attempt_cnt (auto_rereg_ a))) env)].
Proof.
  intros Husable. unfold scheduleReregistration. unfold_monad.
  rewrite Husable. cbn.
  destruct (timer_id (auto_rereg_ a)), (timer_user_data (auto_rereg_ a)),
    (schedule_timer_ok env); reflexivity.
Qed.

Lemma scheduleReregistration_unusable (env : Env) (a : SIPAccount) :
  isUsable a = false ->
  scheduleReregistration env a = (Done tt, a, []).
Proof.
  intros Husable. unfold scheduleReregistration. unfold_monad.
  rewrite Husable. reflexivity.
Qed.

(** C1.  A usable account schedules one timer; its base delay is 60 s when
    no attempt was made yet and 300 s afterwards, and for every value the
    jitter distribution can give the normalised delay is within 10 s of the
    base.  Whatever the base, a base of at least 10 s gives a delay in
    [base - 10 s, base + 10 s] and a base under 10 s a delay in [0, 10 s]. *)
Theorem scheduleReregistration_delay_within_jitter (env : Env) (a : SIPAccount) :
  isUsable a = true ->
  draws_from delay10ZeroDist_ (rand_delay10Zero env) ->
  draws_from delay10PosDist_ (rand_delay10Pos env) ->
  let base := retryInterval (attempt_cnt (auto_rereg_ a)) in
  base = (if attempt_cnt (auto_rereg_ a) =? 0 then 60 else 300)
  /\ (exists delay,
        List.filter is_schedule_timer (events_of (scheduleReregistration env a))
        = [EvScheduleTimer delay]
        /\ (base - 10) * 1000 <= PJ_TIME_VAL_MSEC delay <= (base + 10) * 1000
        /\ base - 10 <= sec delay <= base + 10
        /\ 0 <= msec delay < 1000)
  /\ (forall delay_sec,
        let delay := reregistrationDelay delay_sec env in
        (10 <= delay_sec ->
         (delay_sec - 10) * 1000 <= PJ_TIME_VAL_MSEC delay <= (delay_sec + 10) * 1000)
        /\ (delay_sec < 10 -> 0 <= PJ_TIME_VAL_MSEC delay <= 10 * 1000)).
Proof.
  intros Husable Hzero Hpos base.
  unfold draws_from, delay10ZeroDist_, delay10PosDist_ in *. cbn [dist_a dist_b] in *.
  assert (Hbase : base = (if attempt_cnt (auto_rereg_ a) =? 0 then 60 else 300))
    by reflexivity.
  assert (Hbase10 : 10 <= base) by (rewrite Hbase; destruct (_ =? _); lia).
  split; [exact Hbase |]. split.
  - exists (reregistrationDelay base env).
    pose proof (reregistrationDelay_msec base env) as Hms.
    destruct (decide (base >= 10)) as [_ | Hlt]; [| lia].
    assert (Hnn : 0 <= sec (reregistrationDelay base env)
                  /\ 0 <= msec (reregistrationDelay base env) < 1000).
    { unfold reregistrationDelay. apply pj_time_val_normalize_nonneg.
      destruct (decide (base >= 10)); [| lia].
      unfold PJ_TIME_VAL_MSEC. cbn [sec msec]. lia. }
    split.
    + rewrite scheduleReregistration_events by assumption.
      destruct (timer_id (auto_rereg_ a)); reflexivity.
    + unfold PJ_TIME_VAL_MSEC in *. lia.
  - intros delay_sec.
    rewrite reregistrationDelay_msec.
    case_decide; lia.
Qed.

(** ** What a method leaves alone *)

Section Frame.

Context {B : Type} (f : SIPAccount -> B) (P : Event -> bool).

Lemma preserves_ret {A} (x : A) : preserves f (ret x).
Proof. intros a. reflexivity. Qed.

Lemma preserves_gets {A} (g : SIPAccount -> A) : preserves f (gets g).
Proof. intros a. reflexivity. Qed.

Lemma preserves_emit (e : Event) : preserves f (emit e).
Proof. intros a. reflexivity. Qed.

Lemma preserves_throw {A} (e : VoipLinkException) : preserves f (throw (A := A) e).
Proof. intros a. reflexivity. Qed.

Lemma preserves_undefined {A} : preserves f (undefined (A := A)).
Proof. intros a. reflexivity. Qed.

Lemma preserves_modify (g : SIPAccount -> SIPAccount) :
  (forall a, f (g a) = f a) -> preserves f (modify g).
Proof. intros Hg a. apply Hg. Qed.

Lemma preserves_bind {A C} (m : M A) (k : A -> M C) :
  preserves f m -> (forall x, preserves f (k x)) -> preserves f (bind m k).
Proof.
  intros Hm Hk a. specialize (Hm a). unfold bind, state_of in *.
  destruct (m a) as [[[x | e |] s1] t1]; cbn in *; try assumption.
  specialize (Hk x s1). unfold state_of in Hk.
  destruct (k x s1) as [[r s2] t2]. cbn in *. congruence.
Qed.

Lemma preserves_try_catch {A} (m : M A) (h : VoipLinkException -> M A) :
  preserves f m -> (forall e, preserves f (h e)) -> preserves f (try_catch m h).
Proof.
  intros Hm Hh a. specialize (Hm a). unfold try_catch, state_of in *.
  destruct (m a) as [[[x | e |] s1] t1]; cbn in *; try assumption.
  specialize (Hh e s1). unfold state_of in Hh.
  destruct (h e s1) as [[r s2] t2]. cbn in *. congruence.
Qed.

Lemma silent_ret {A} (x : A) : silent P (ret x).
Proof. intros a. reflexivity. Qed.

Lemma silent_gets {A} (g : SIPAccount -> A) : silent P (gets g).
Proof. intros a. reflexivity. Qed.

Lemma silent_modify (g : SIPAccount -> SIPAccount) : silent P (modify g).
Proof. intros a. reflexivity. Qed.

Lemma silent_throw {A} (e : VoipLinkException) : silent P (throw (A := A) e).
Proof. intros a. reflexivity. Qed.

Lemma silent_undefined {A} : silent P (undefined (A := A)).
Proof. intros a. reflexivity. Qed.

Lemma silent_emit (e : Event) : P e = false -> silent P (emit e).
Proof. intros He a. cbn. rewrite He. reflexivity. Qed.

Lemma silent_bind {A C} (m : M A) (k : A -> M C) :
  silent P m -> (forall x, silent P (k x)) -> silent P (bind m k).
Proof.
  intros Hm Hk a. specialize (Hm a). unfold bind, events_of in *.
  destruct (m a) as [[[x | e |] s1] t1]; cbn in *; try assumption.
  specialize (Hk x s1). unfold events_of in Hk.
  destruct (k x s1) as [[r s2] t2]. cbn in *.
  rewrite List.filter_app, Hm, Hk. reflexivity.
Qed.

Lemma silent_try_catch {A} (m : M A) (h : VoipLinkException -> M A) :
  silent P m -> (forall e, silent P (h e)) -> silent P (try_catch m h).
Proof.
  intros Hm Hh a. specialize (Hm a). unfold try_catch, events_of in *.
  destruct (m a) as [[[x | e |] s1] t1]; cbn in *; try assumption.
  specialize (Hh e s1). unfold events_of in Hh.
  destruct (h e s1) as [[r s2] t2]. cbn in *.
  rewrite List.filter_app, Hm, Hh. reflexivity.
Qed.

End Frame.

Lemma returns_ret {A} (x : A) : returns (ret x).
Proof. intros a. eexists. reflexivity. Qed.

Lemma returns_gets {A} (g : SIPAccount -> A) : returns (gets g).
Proof. intros a. eexists. reflexivity. Qed.

Lemma returns_modify (g : SIPAccount -> SIPAccount) : returns (modify g).
Proof. intros a. eexists. reflexivity. Qed.

Lemma returns_emit (e : Event) : returns (emit e).
Proof. intros a. eexists. reflexivity. Qed.

Lemma returns_bind {A C} (m : M A) (k : A -> M C) :
  returns m -> (forall x, returns (k x)) -> returns (bind m k).
Proof.
  intros Hm Hk a. destruct (Hm a) as [x Hx]. unfold bind, result_of in *.
  destruct (m a) as [[r s1] t1]. cbn in Hx. subst r.
  destruct (Hk x s1) as [y Hy]. unfold result_of in Hy.
  destruct (k x s1) as [[r s2] t2]. cbn in *. eauto.
Qed.

(** A computation that returns hands its state and its calls over to the
    next one. *)
Lemma bind_returns {A C} (m : M A) (k : A -> M C) (a : SIPAccount) (x : A) :
  result_of (m a) = Done x ->
  bind m k a
  = (result_of (k x (state_of (m a))), state_of (k x (state_of (m a))),
     events_of (m a) ++ events_of (k x (state_of (m a)))).
Proof.
  unfold bind, result_of, state_of, events_of.
  destruct (m a) as [[r s1] t1]. cbn. intros ->.
  destruct (k x s1) as [[r s2] t2]. reflexivity.
Qed.

Lemma bind_state {A C} (m : M A) (k : A -> M C) (a : SIPAccount) (x : A) :
  result_of (m a) = Done x ->
  state_of (bind m k a) = state_of (k x (state_of (m a))).
Proof. intros Hx. rewrite (bind_returns _ _ _ _ Hx). reflexivity. Qed.

Lemma bind_events {A C} (m : M A) (k : A -> M C) (a : SIPAccount) (x : A) :
  result_of (m a) = Done x ->
  events_of (bind m k a) = events_of (m a) ++ events_of (k x (state_of (m a))).
Proof. intros Hx. rewrite (bind_returns _ _ _ _ Hx). reflexivity. Qed.

(** Rules are applied structurally; a conditional splits into its
    branches. *)
Ltac frame_step :=
  first
    [ assumption
    | match goal with
      | Hyp : context [silent] |- silent _ _ => apply Hyp
      | Hyp : context [preserves] |- preserves _ _ => apply Hyp
      | Hyp : context [returns] |- returns _ => apply Hyp
      end
    | progress unfold when, update_auto_rereg, setRegistrationState,
        SIPAccountBase_setRegistrationState, setPublishedAddress, setRegister
    | apply preserves_bind; [| intros ? ] | apply silent_bind; [| intros ? ]
    | apply returns_bind; [| intros ? ]
    | apply preserves_try_catch; [| intros ? ] | apply silent_try_catch; [| intros ? ]
    | apply preserves_ret | apply preserves_gets | apply preserves_emit
    | apply preserves_throw | apply preserves_undefined
    | apply preserves_modify; intros ?; reflexivity
    | apply silent_ret | apply silent_gets | apply silent_modify
    | apply silent_throw | apply silent_undefined
    | apply silent_emit; reflexivity
    | apply returns_ret | apply returns_gets | apply returns_modify | apply returns_emit
    | match goal with
      | |- preserves _ (match ?c with _ => _ end) => destruct c
      | |- silent _ (match ?c with _ => _ end) => destruct c
      | |- returns (match ?c with _ => _ end) => destruct c
      end ].

Ltac frame := repeat frame_step.

(** ** The REGISTER response *)

Lemma destroyRegistrationInfo_usable : preserves isUsable destroyRegistrationInfo.
Proof. unfold destroyRegistrationInfo. frame. Qed.

Lemma destroyRegistrationInfo_silent : silent is_schedule_timer destroyRegistrationInfo.
Proof. unfold destroyRegistrationInfo. frame. Qed.

Lemma destroyRegistrationInfo_returns : returns destroyRegistrationInfo.
Proof. unfold destroyRegistrationInfo. frame. Qed.

Lemma checkNATAddress_usable (param : pjsip_regc_cbparam) :
  preserves isUsable (checkNATAddress param).
Proof. unfold checkNATAddress. frame. Qed.

Lemma checkNATAddress_silent (param : pjsip_regc_cbparam) :
  silent is_schedule_timer (checkNATAddress param).
Proof. unfold checkNATAddress. frame. Qed.

Lemma checkNATAddress_returns (param : pjsip_regc_cbparam) :
  returns (checkNATAddress param).
Proof. unfold checkNATAddress. frame. Qed.

Lemma onRegister_outcome_usable (param : pjsip_regc_cbparam) :
  preserves isUsable (onRegister_outcome param).
Proof.
  pose proof destroyRegistrationInfo_usable. pose proof (checkNATAddress_usable param).
  unfold onRegister_outcome, resetAutoRegistration. frame.
Qed.

Lemma onRegister_outcome_silent (param : pjsip_regc_cbparam) :
  silent is_schedule_timer (onRegister_outcome param).
Proof.
  pose proof destroyRegistrationInfo_silent. pose proof (checkNATAddress_silent param).
  unfold onRegister_outcome, resetAutoRegistration. frame.
Qed.

Lemma onRegister_outcome_returns (param : pjsip_regc_cbparam) :
  returns (onRegister_outcome param).
Proof.
  pose proof destroyRegistrationInfo_returns. pose proof (checkNATAddress_returns param).
  unfold onRegister_outcome, resetAutoRegistration. frame.
Qed.

Lemma scheduleReregistration_registration {B} (f : SIPAccount -> B) (env : Env) :
  (forall v a, f (set_auto_rereg_ v a) = f a) ->
  preserves f (scheduleReregistration env).
Proof.
  intros Hf. unfold scheduleReregistration.
  assert (Hupd : forall g, preserves f (update_auto_rereg g))
    by (intros g a; apply Hf).
  unfold when.
  repeat first [ apply Hupd | frame_step ].
Qed.

Lemma onRegister_run (env : Env) (param : pjsip_regc_cbparam) (a : SIPAccount) :
  p_regc param = regc_ a ->
  onRegister env param a
  = bind (onRegister_outcome param)
         (fun _ => when (retry_code (p_code param)) (scheduleReregistration env)) a.
Proof.
  intros Hregc. unfold onRegister. unfold bind at 1. unfold gets. cbn.
  rewrite bool_decide_true by assumption. cbn.
  destruct (bind _ _ a) as [[r s2] t2]. reflexivity.
Qed.

Lemma onRegister_timer_events (env : Env) (param : pjsip_regc_cbparam) (a : SIPAccount) :
  p_regc param = regc_ a ->
  isUsable a = true ->
  List.filter is_schedule_timer (events_of (onRegister env param a))
  = if retry_code (p_code param)
    then [EvScheduleTimer
            (reregistrationDelay
               (retryInterval
                  (attempt_cnt (auto_rereg_ (state_of (onRegister_outcome param a)))))
               env)]
    else [].
Proof.
  intros Hregc Husable. rewrite onRegister_run by assumption.
  destruct (onRegister_outcome_returns param a) as [[] Hdone].
  rewrite (bind_events _ _ _ _ Hdone).
  rewrite List.filter_app, onRegister_outcome_silent. cbn [app].
  destruct (retry_code (p_code param)); cbn [when]; [| reflexivity].
  rewrite scheduleReregistration_events
    by (rewrite onRegister_outcome_usable; assumption).
  destruct (timer_id _); reflexivity.
Qed.

Lemma PJSIP_IS_STATUS_IN_CLASS_spec (code class : Z) :
  0 <= class -> class mod 100 = 0 ->
  PJSIP_IS_STATUS_IN_CLASS code class = true
  <-> (class <= code < class + 100 /\ (0 < class \/ 0 <= code))
      \/ (class = 0 /\ -100 < code < 100).
Proof.
  intros Hclass Hmod. unfold PJSIP_IS_STATUS_IN_CLASS. rewrite Z.eqb_eq.
  pose proof (Z.quot_rem' code 100) as Hcode.
  pose proof (Z.quot_rem' class 100) as Hcls.
  rewrite (Z.rem_mod_nonneg class 100) in Hcls by lia.
  destruct (Z_lt_le_dec code 0) as [Hneg | Hpos].
  - pose proof (Z.rem_bound_pos_neg code 100 ltac:(lia) ltac:(lia)). lia.
  - pose proof (Z.rem_bound_pos code 100 ltac:(lia) ltac:(lia)). lia.
Qed.

Lemma retry_code_spec (code : Z) :
  retry_code code = true
  <-> code = 408 \/ code = 500 \/ code = 502 \/ code = 503 \/ code = 504
      \/ 600 <= code <= 699.
Proof.
  unfold retry_code, PJSIP_SC_REQUEST_TIMEOUT, PJSIP_SC_INTERNAL_SERVER_ERROR,
    PJSIP_SC_BAD_GATEWAY, PJSIP_SC_SERVICE_UNAVAILABLE, PJSIP_SC_SERVER_TIMEOUT.
  pose proof (PJSIP_IS_STATUS_IN_CLASS_spec code 600 ltac:(lia) eq_refl) as Hclass.
  destruct (code =? 408) eqn:E1; [apply Z.eqb_eq in E1; cbn; intuition lia |].
  destruct (code =? 500) eqn:E2; [apply Z.eqb_eq in E2; cbn; intuition lia |].
  destruct (code =? 502) eqn:E3; [apply Z.eqb_eq in E3; cbn; intuition lia |].
  destruct (code =? 503) eqn:E4; [apply Z.eqb_eq in E4; cbn; intuition lia |].
  destruct (code =? 504) eqn:E5; [apply Z.eqb_eq in E5; cbn; intuition lia |].
  apply Z.eqb_neq in E1, E2, E3, E4, E5. cbn. rewrite Hclass. lia.
Qed.

Lemma schedules_retry_filter (evs : list Event) :
  schedules_retry evs <-> List.filter is_schedule_timer evs <> [].
Proof.
  unfold schedules_retry. split.
  - intros [delay Hin] Hnil.
    assert (Hf : In (EvScheduleTimer delay) (List.filter is_schedule_timer evs))
      by (apply List.filter_In; split; [assumption | reflexivity]).
    rewrite Hnil in Hf. destruct Hf.
  - destruct (List.filter is_schedule_timer evs) as [| e rest] eqn:Hf; [congruence |].
    intros _.
    assert (Hin : In e (List.filter is_schedule_timer evs)) by (rewrite Hf; left; reflexivity).
    apply List.filter_In in Hin. destruct Hin as [Hin He].
    destruct e; try discriminate. eauto.
Qed.

(** C2.  When [onRegister] handles the outcome of the registration of a
    usable account, it schedules a re-registration exactly when the status
    code is 408, 500, 502, 503, 504 or in the class 6xx; so 503 schedules
    one and 403 does not. *)
Theorem onRegister_schedules_retry_iff (env : Env) (param : pjsip_regc_cbparam)
    (a : SIPAccount) :
  isUsable a = true ->
  p_regc param = regc_ a ->
  let code := p_code param in
  let scheduled := schedules_retry (events_of (onRegister env param a)) in
  (scheduled <->
     code = 408 \/ code = 500 \/ code = 502 \/ code = 503 \/ code = 504
     \/ 600 <= code <= 699)
  /\ (code = 503 -> scheduled)
  /\ (code = 403 -> ~ scheduled).
Proof.
  intros Husable Hregc code scheduled.
  assert (Hiff : scheduled <-> retry_code code = true).
  { subst scheduled. rewrite schedules_retry_filter.
    rewrite onRegister_timer_events by assumption.
    fold code. destruct (retry_code code); split; congruence. }
  rewrite Hiff, retry_code_spec. repeat split; try tauto; intros; lia.
Qed.

Lemma onRegister_outcome_failure (param : pjsip_regc_cbparam) (a : SIPAccount) :
  p_status param <> PJ_SUCCESS \/ p_code param < 0 \/ 300 <= p_code param ->
  let r := onRegister_outcome param a in
  regc_ (state_of r) = None
  /\ (forall regc, regc_ a = Some regc -> In (EvRegcDestroy regc) (events_of r))
  /\ registrationStateDetailed_ (state_of r) = p_code param
  /\ registrationState_ (state_of r)
     = if p_status param =? PJ_SUCCESS then registration_error_state (p_code param)
       else ERROR_GENERIC.
Proof.
  intros Hfail. unfold onRegister_outcome, destroyRegistrationInfo, registration_error_state,
    PJSIP_SC_FORBIDDEN, PJSIP_SC_NOT_FOUND, PJSIP_SC_REQUEST_TIMEOUT,
    PJSIP_SC_SERVICE_UNAVAILABLE.
  destruct (p_status param =? PJ_SUCCESS) eqn:Hstatus.
  - apply Z.eqb_eq in Hstatus.
    assert (Hcode : (p_code param <? 0) || (p_code param >=? 300) = true).
    { apply orb_true_iff. rewrite Z.ltb_lt, Z.geb_le. lia. }
    rewrite Hcode.
    destruct (regc_ a) as [regc |] eqn:Hregc;
      destruct (p_code param =? 403), (p_code param =? 404),
        (p_code param =? 408), (p_code param =? 503);
      unfold_monad; cbn; rewrite Hregc; cbn;
      repeat apply conj; try reflexivity; try assumption; intros ? [= <-]; auto.
  - destruct (regc_ a) as [regc |] eqn:Hregc;
      unfold_monad; cbn; rewrite Hregc; cbn;
      repeat apply conj; try reflexivity; try assumption; intros ? [= <-]; auto.
Qed.

(** C3, as the code has it.  When [onRegister] handles a response that is
    not a success, the registration client is destroyed and the code is
    kept as the detail of the state.  A final response outside 2xx that
    pjsip delivers with [PJ_SUCCESS] sets the state by its code: 403 gives
    [ERROR_AUTH], 404 and 408 [ERROR_HOST], 503
    [ERROR_SERVICE_UNAVAILABLE], any other code [ERROR_GENERIC].  A failure
    that pjsip reports with another status sets [ERROR_GENERIC] whatever
    the code. *)
Theorem onRegister_failure_state (env : Env) (param : pjsip_regc_cbparam)
    (a : SIPAccount) :
  p_regc param = regc_ a ->
  p_status param <> PJ_SUCCESS \/ p_code param < 0 \/ 300 <= p_code param ->
  let r := onRegister env param a in
  regc_ (state_of r) = None
  /\ (forall regc, regc_ a = Some regc -> In (EvRegcDestroy regc) (events_of r))
  /\ registrationStateDetailed_ (state_of r) = p_code param
  /\ registrationState_ (state_of r)
     = if p_status param =? PJ_SUCCESS then registration_error_state (p_code param)
       else ERROR_GENERIC.
Proof.
  intros Hregc Hfail r. subst r. rewrite onRegister_run by assumption.
  destruct (onRegister_outcome_returns param a) as [[] Hdone].
  rewrite (bind_state _ _ _ _ Hdone), (bind_events _ _ _ _ Hdone).
  destruct (onRegister_outcome_failure param a Hfail) as (Hnone & Hdestroy & Hdetail & Hstate).
  assert (Hkeep : forall B (f : SIPAccount -> B),
             (forall v a, f (set_auto_rereg_ v a) = f a) ->
             preserves f (when (retry_code (p_code param)) (scheduleReregistration env))).
  { intros B f Hf. unfold when. destruct (retry_code _).
    - apply scheduleReregistration_registration, Hf.
    - apply preserves_ret. }
  rewrite (Hkeep _ regc_), (Hkeep _ registrationStateDetailed_),
    (Hkeep _ registrationState_) by reflexivity.
  repeat split; try assumption.
  intros regc Hsome. apply in_or_app. left. apply Hdestroy, Hsome.
Qed.

(** ** Registration *)

Lemma doRegister1__unresolved (env : Env) (a : SIPAccount) :
  isIP2IP a = false ->
  host_ips env = [] ->
  doRegister1_ env a
  = (Done tt,
     set_registrationState_ ERROR_GENERIC
       (set_registrationStateDetailed_ PJSIP_SC_NOT_FOUND a),
     [EvResolveSrvName (if hasServiceRoute a then serviceRoute_ a else hostname_ a);
      EvJamiErr "Can't resolve hostname for registration."]).
Proof.
  intros Hip Hips. unfold doRegister1_. unfold_monad. cbn.
  rewrite Hip, Hips. reflexivity.
Qed.

(** C4, as the code has it.  On an account that is not the direct-IP
    profile, a resolution of the registrar that gives no address ends the
    attempt: the state is [ERROR_GENERIC] with the detail 404, the
    registration client is not touched and no REGISTER is sent.  So does
    [doRegister] on a usable account that does not wait for a UPnP
    mapping. *)
Theorem doRegister_unresolved_host (env : Env) (a : SIPAccount) :
  isIP2IP a = false ->
  host_ips env = [] ->
  (let r := doRegister1_ env a in
   result_of r = Done tt
   /\ registrationState_ (state_of r) = ERROR_GENERIC
   /\ registrationStateDetailed_ (state_of r) = PJSIP_SC_NOT_FOUND
   /\ regc_ (state_of r) = regc_ a
   /\ List.filter (is_regc_send REGISTER) (events_of r) = [])
  /\ (isUsable a = true ->
      upnpCtrl_ a = false \/ upnp_mapping_open env = false ->
      let r := doRegister env a in
      result_of r = Done tt
      /\ registrationState_ (state_of r) = ERROR_GENERIC
      /\ registrationStateDetailed_ (state_of r) = PJSIP_SC_NOT_FOUND
      /\ regc_ (state_of r) = regc_ a
      /\ List.filter (is_regc_send REGISTER) (events_of r) = []).
Proof.
  intros Hip Hips. split.
  - cbv zeta. rewrite doRegister1__unresolved by assumption.
    repeat split.
  - intros Husable Hupnp. cbv zeta.
    unfold doRegister, mapPortUPnP. unfold_monad. cbn -[doRegister1_].
    rewrite Husable. cbn -[doRegister1_].
    destruct (upnpCtrl_ a) eqn:Hctrl; cbn -[doRegister1_].
    + destruct Hupnp as [Hno | Hclosed]; [discriminate |].
      rewrite Hclosed. cbn -[doRegister1_].
      rewrite doRegister1__unresolved by assumption.
      repeat split.
    + rewrite doRegister1__unresolved by assumption.
      repeat split.
Qed.

(** ** NAT address reconciliation *)

(** C5.  When the address and the port that the registrar observed (the
    received parameter of the Via, else its sent-by host; rport, else the
    sent-by port, else the default port of the transport) equal the
    current contact address and port, compared as socket addresses when
    the observed address parses and as strings and ports otherwise,
    [checkNATAddress] returns false and leaves the contact header and the
    contact address as they were, without updating the contact of the
    registration client. *)
Theorem checkNATAddress_unchanged_when_equal (param : pjsip_regc_cbparam)
    (a : SIPAccount) :
  observed_equals_contact a (p_rdata param) = true ->
  let r := checkNATAddress param a in
  result_of r = Done false
  /\ contactHeader_ (state_of r) = contactHeader_ a
  /\ contactAddress_ (state_of r) = contactAddress_ a
  /\ List.filter is_update_contact (events_of r) = [].
Proof.
  unfold observed_equals_contact, observed_parses, current_contact, observed_sockaddr,
    checkNATAddress.
  unfold_monad. cbn -[printContactHeader pj_stricmp_eq].
  run_cases; intros; try discriminate; repeat split.
Qed.

Lemma checkNATAddress_private_seen_from_public (param : pjsip_regc_cbparam)
    (a : SIPAccount) :
  private_seen_from_public a (p_rdata param) = true ->
  let r := checkNATAddress param a in
  result_of r = Done false
  /\ contactHeader_ (state_of r) = contactHeader_ a
  /\ contactAddress_ (state_of r) = contactAddress_ a
  /\ List.filter is_update_contact (events_of r) = [].
Proof.
  unfold private_seen_from_public, current_contact, observed_sockaddr, checkNATAddress.
  unfold_monad. cbn -[printContactHeader pj_stricmp_eq].
  run_cases; intros; try discriminate; repeat split.
Qed.

(** C6.  When the current contact address and the source address of the
    response are public and the address observed in the Via is private,
    [checkNATAddress] returns false and leaves the contact header and the
    contact address as they were, whether or not the observed address
    equals the contact. *)
Theorem checkNATAddress_unchanged_when_private_seen_from_public
    (param : pjsip_regc_cbparam) (a : SIPAccount) :
  isPrivate (current_contact a (p_rdata param)) = false ->
  isPrivate (IpAddr_of_string (rd_src_name (p_rdata param))) = false ->
  isPrivate (observed_sockaddr (p_rdata param)) = true ->
  let r := checkNATAddress param a in
  result_of r = Done false
  /\ contactHeader_ (state_of r) = contactHeader_ a
  /\ contactAddress_ (state_of r) = contactAddress_ a
  /\ List.filter is_update_contact (events_of r) = [].
Proof.
  intros Hcontact Hsrc Hobserved.
  apply checkNATAddress_private_seen_from_public.
  unfold private_seen_from_public. rewrite Hcontact, Hsrc, Hobserved. reflexivity.
Qed.

(** ** Authenticated requests *)

Lemma wrap_int32_id (x : Z) : - 2 ^ 31 <= x < 2 ^ 31 -> wrap_int32 x = x.
Proof. intros Hx. unfold wrap_int32. rewrite Z.mod_small; lia. Qed.

Lemma onComplete_challenge (env : AuthEnv) (c : ctx) (code : Z) (tdata : pjsip_tx_data) :
  ctx_acc c = true ->
  is_challenge code = true ->
  onComplete env c (mk_tsx_event code tdata)
  = if auth_reinit_ok env
    then if send_request_ok env
         then ([EvSendRequest (resent tdata)], Some (c, resent tdata))
         else ([EvSendRequest (resent tdata);
                EvMessageSent (ctx_to c) (ctx_id c) false], None)
    else ([EvJamiErr "Unable to add Authorization Header into msg";
           EvMessageSent (ctx_to c) (ctx_id c) false], None).
Proof.
  intros Hacc Hcode. unfold onComplete, is_challenge in *.
  cbn [tsx_status_code tsx_last_tx]. rewrite Hacc, Hcode. reflexivity.
Qed.

Lemma deliver_accepted_challenges (rs : list (Z * AuthEnv)) (c : ctx)
    (tdata : pjsip_tx_data) :
  ctx_acc c = true ->
  Forall accepted_challenge rs ->
  deliver rs c tdata = resends (length rs) tdata.
Proof.
  intros Hacc Hrs. revert tdata.
  induction Hrs as [| [code env] rest (Hcode & Hreinit & Hsend) _ IH]; intros tdata.
  - reflexivity.
  - cbn [deliver length resends fst snd] in *.
    rewrite onComplete_challenge by assumption.
    rewrite Hreinit, Hsend. cbn [fst snd app]. rewrite IH. reflexivity.
Qed.

Lemma resends_are_resends (n : nat) (tdata : pjsip_tx_data) :
  List.filter is_resend (resends n tdata) = resends n tdata
  /\ List.filter is_delivery_failure (resends n tdata) = []
  /\ length (resends n tdata) = n.
Proof.
  revert tdata. induction n as [| n IH]; intros tdata; cbn.
  - repeat split.
  - destruct (IH (resent tdata)) as (Hr & Hf & Hl). rewrite Hr, Hf, Hl. repeat split.
Qed.

(** C7, as the code has it.  On a challenge (401 or 407) [onComplete]
    asks the authentication session for the request with its authorization
    header.  When the session gives it, the request is sent again once,
    with the CSeq of the last request plus one, and waits for its response
    under the same callback; when sending fails the delivery failure is
    reported.  When the session gives none, nothing is sent and the
    delivery failure is reported.  [onComplete] keeps no count of its own:
    as many consecutive challenges as the session accepts, as many
    resends. *)
Theorem onComplete_challenge_resends (env : AuthEnv) (c : ctx) (code : Z)
    (tdata : pjsip_tx_data) :
  ctx_acc c = true ->
  code = 401 \/ code = 407 ->
  let r := onComplete env c (mk_tsx_event code tdata) in
  (auth_reinit_ok env = true ->
   List.filter is_resend r.1 = [EvSendRequest (resent tdata)]
   /\ (- 2 ^ 31 <= td_cseq tdata < 2 ^ 31 - 1 ->
       td_cseq (resent tdata) = td_cseq tdata + 1)
   /\ (send_request_ok env = true ->
       r.2 = Some (c, resent tdata) /\ List.filter is_delivery_failure r.1 = [])
   /\ (send_request_ok env = false ->
       r.2 = None
       /\ List.filter is_delivery_failure r.1
          = [EvMessageSent (ctx_to c) (ctx_id c) false]))
  /\ (auth_reinit_ok env = false ->
      List.filter is_resend r.1 = []
      /\ r.2 = None
      /\ List.filter is_delivery_failure r.1
         = [EvMessageSent (ctx_to c) (ctx_id c) false])
  /\ (forall rs : list (Z * AuthEnv),
        Forall accepted_challenge rs ->
        List.filter is_resend (deliver rs c tdata) = resends (length rs) tdata
        /\ length (List.filter is_resend (deliver rs c tdata)) = length rs
        /\ List.filter is_delivery_failure (deliver rs c tdata) = []).
Proof.
  intros Hacc Hcode r.
  assert (Hch : is_challenge code = true) by (destruct Hcode; subst code; reflexivity).
  subst r. rewrite onComplete_challenge by assumption.
  split; [| split].
  - intros ->. split; [| split; [| split]].
    + destruct (send_request_ok env); reflexivity.
    + intros Hrange. cbn [resent td_cseq]. apply wrap_int32_id. lia.
    + intros ->. split; reflexivity.
    + intros ->. split; reflexivity.
  - intros ->. repeat split.
  - intros rs Hrs. rewrite deliver_accepted_challenges by assumption.
    destruct (resends_are_resends (length rs) tdata) as (Hr & Hf & Hl).
    rewrite Hr, Hf, Hl. repeat split.
Qed.

(** ** Credentials *)

(** C8.  [setCredentials] on an empty list logs the error and changes
    nothing: the account, and so the credential list and the
    authentication records made from it, are as before the call. *)
Theorem setCredentials_empty (env : Env) (a : SIPAccount) :
  let r := setCredentials env [] a in
  result_of r = Done tt
  /\ events_of r = [EvJamiErr "Cannot authenticate with empty credentials list"]
  /\ state_of r = a
  /\ credentials_ (state_of r) = credentials_ a
  /\ cred_ (state_of r) = cred_ a.
Proof. repeat split. Qed.











Lemma addCredentials_state (md5 : bool) (creds : list (gmap string string))
    (a : SIPAccount) :
  credentials_ (state_of (addCredentials md5 creds a))
  = credentials_ a ++ map (storedCredential md5) creds
  /\ cred_ (state_of (addCredentials md5 creds a))
     = cred_ a ++ map (fun c => cred_info_of (storedCredential md5 c)) creds.
Proof.
  revert a. induction creds as [| cred rest IH]; intros a.
  - cbn. rewrite !app_nil_r. split; reflexivity.
  - cbn [addCredentials].
    rewrite (bind_state (addCredential md5 cred) _ a tt eq_refl).
    destruct (IH (state_of (addCredential md5 cred a))) as [Hc Hi].
    rewrite Hc, Hi. unfold addCredential, storedCredential. unfold_monad. cbn.
    rewrite <- !app_assoc. split; reflexivity.
Qed.

Lemma setCredentials_state (env : Env) (creds : list (gmap string string))
    (a : SIPAccount) :
  creds <> [] ->
  credentials_ (state_of (setCredentials env creds a))
  = map (storedCredential (md5HashingEnabled env)) creds
  /\ cred_ (state_of (setCredentials env creds a))
     = map (fun c => cred_info_of (storedCredential (md5HashingEnabled env) c)) creds.
Proof.
  intros Hne. destruct creds as [| cred rest]; [congruence |].
  unfold setCredentials.
  rewrite (bind_state (modify (set_credentials_ [])) _ a tt eq_refl).
  rewrite (bind_state (modify (set_cred_ [])) _ _ tt eq_refl).
  apply addCredentials_state.
Qed.








(** ** The direct-IP profile *)

Lemma isIP2IP_spec (a : SIPAccount) : isIP2IP a = true <-> hostname_ a = "".
Proof. unfold isIP2IP. apply String.eqb_eq. Qed.

Section NoRegcSend.

Variable req : regc_request.

Lemma initContactAddress_no_send (env : Env) :
  silent (is_regc_send req) (initContactAddress env).
Proof.
  unfold initContactAddress, useUPnPAddressPortInVIA, usePublishedAddressPortInVIA.
  frame.
Qed.

Lemma updateContactHeader_no_send : silent (is_regc_send req) updateContactHeader.
Proof. unfold updateContactHeader. frame. Qed.

Lemma setTransport_no_send (env : Env) (t : option SipTransport) :
  silent (is_regc_send req) (setTransport env t).
Proof.
  pose proof (initContactAddress_no_send env). pose proof updateContactHeader_no_send.
  unfold setTransport. frame.
Qed.

End NoRegcSend.

Lemma doRegister2__direct_ip (env : Env) (a : SIPAccount) :
  isIP2IP a = true ->
  List.filter (is_regc_send REGISTER) (events_of (doRegister2_ env a)) = [].
Proof.
  intros Hip. unfold doRegister2_.
  rewrite (bind_events (gets id) _ a a eq_refl).
  change (state_of (gets id a)) with a. rewrite Hip. cbn [negb andb events_of gets snd app].
  match goal with
  | |- List.filter _ (events_of (?m a)) = [] =>
      enough (Hsilent : silent (is_regc_send REGISTER) m) by apply Hsilent
  end.
  pose proof (setTransport_no_send REGISTER env).
  unfold createBindingAddress. frame.
Qed.

Lemma doRegister1__direct_ip (env : Env) (a : SIPAccount) :
  isIP2IP a = true ->
  List.filter (is_regc_send REGISTER) (events_of (doRegister1_ env a)) = [].
Proof.
  intros Hip. unfold doRegister1_.
  rewrite (bind_events (gets id) _ a a eq_refl).
  change (state_of (gets id a)) with a. rewrite Hip. cbn [events_of gets snd app].
  apply doRegister2__direct_ip, Hip.
Qed.

Lemma doUnregister_direct_ip (env : Env) (released_cb : option (bool -> M unit))
    (a : SIPAccount) :
  isIP2IP a = true ->
  (forall cb b, released_cb = Some cb -> silent (is_regc_send UNREGISTER) (cb b)) ->
  List.filter (is_regc_send UNREGISTER) (events_of (doUnregister env released_cb a)) = [].
Proof.
  intros Hip Hcb. unfold doUnregister.
  rewrite (bind_events (modify (set_tlsListener_ None)) _ a tt eq_refl).
  cbn [events_of modify snd app].
  set (a1 := state_of (modify (set_tlsListener_ None) a)).
  rewrite (bind_events (gets isIP2IP) _ a1 (isIP2IP a1) eq_refl).
  change (isIP2IP a1) with (isIP2IP a). rewrite Hip.
  cbn [negb when events_of gets snd app].
  change (state_of (gets isIP2IP a1)) with a1.
  match goal with
  | |- List.filter _ (events_of (?m a1)) = [] =>
      enough (Hsilent : silent (is_regc_send UNREGISTER) m) by apply Hsilent
  end.
  pose proof (setTransport_no_send UNREGISTER env).
  unfold resetAutoRegistration. frame. reflexivity.
Qed.

Lemma sendUnregister_sends (env : Env) (a : SIPAccount) (regc : pjsip_regc)
    (tp : pjsip_transport) :
  isRegistered a = true ->
  regc_ a = Some regc ->
  transport_get a = Some tp ->
  pjsip_accepts env ->
  sendUnregister env a
  = (Done tt, set_bRegister_ false a, [EvRegcSend regc UNREGISTER (contactHeader_ a)]).
Proof.
  intros Hreg Hregc Htp (_ & _ & _ & Hun & Hset & Hsend).
  unfold sendUnregister, selector_key_type, isRegistered in *. unfold_monad. cbn.
  rewrite Hreg, Hregc, Hun, Hset, Hsend. cbn.
  change (transport_get (set_bRegister_ false a)) with (transport_get a).
  rewrite Htp. reflexivity.
Qed.

Lemma sendRegister_sends (env : Env) (a : SIPAccount) (regc : pjsip_regc)
    (tp : pjsip_transport) :
  isUsable a = true ->
  transport_get a = Some tp ->
  regc_create env = Some regc ->
  pjsip_accepts env ->
  result_of (sendRegister env a) = Done tt
  /\ In (EvRegcSend regc REGISTER (contactHeader_ a)) (events_of (sendRegister env a)).
Proof.
  intros Husable Htp Hcreate (Hvia & Hinit & Hreg & _ & Hset & Hsend).
  unfold transport_get in Htp.
  destruct (transport_ a) as [t |] eqn:Ht; [| discriminate].
  unfold sendRegister, selector_key_type, setRegistrationInfo, destroyRegistrationInfo,
    transport_get.
  unfold_monad. rewrite Husable, Hcreate, Hvia, Hinit, Hreg, Hset, Hsend.
  cbn. rewrite Ht. cbn.
  repeat (case_cond; cbn; rewrite ?Ht, ?Htp; cbn);
    split; try reflexivity; cbn; auto 10.
Qed.

Lemma setTransport_returns (env : Env) (t : option SipTransport) :
  returns (setTransport env t).
Proof.
  unfold setTransport, initContactAddress, updateContactHeader, useUPnPAddressPortInVIA,
    usePublishedAddressPortInVIA.
  frame.
Qed.

Lemma setTransport_usable (env : Env) (t : option SipTransport) :
  preserves isUsable (setTransport env t).
Proof.
  unfold setTransport, initContactAddress, updateContactHeader, useUPnPAddressPortInVIA,
    usePublishedAddressPortInVIA.
  frame.
Qed.

Lemma setTransport_installs (env : Env) (t : SipTransport) (a : SIPAccount) :
  transport_ a = None ->
  transport_ (state_of (setTransport env (Some t) a)) = Some t.
Proof.
  intros Hnone. unfold setTransport.
  rewrite (bind_state (gets transport_) _ a _ eq_refl).
  change (state_of (gets transport_ a)) with a. rewrite Hnone.
  cbn [fmap option_fmap option_map]. rewrite bool_decide_false by discriminate.
  rewrite (bind_state (ret tt) _ a tt eq_refl).
  rewrite (bind_state (modify (set_transport_ (Some t))) _ _ tt eq_refl).
  match goal with
  | |- transport_ (state_of (?m ?s)) = _ =>
      enough (Hkeep : preserves transport_ m) by (rewrite Hkeep; reflexivity)
  end.
  unfold initContactAddress, updateContactHeader, useUPnPAddressPortInVIA,
    usePublishedAddressPortInVIA.
  frame.
Qed.

Lemma doRegister2__registers (env : Env) (a : SIPAccount) (t : SipTransport)
    (tp : pjsip_transport) (regc : pjsip_regc) :
  isIP2IP a = false ->
  isUsable a = true ->
  tlsEnable_ a = false ->
  IpAddr_bool (hostIp_ a) = true ->
  IpAddr_bool (bind_address env) = true ->
  getPort (bind_address env) <> 0 ->
  getUdpTransport env = Some t ->
  st_get t = Some tp ->
  regc_create env = Some regc ->
  pjsip_accepts env ->
  exists contact, In (EvRegcSend regc REGISTER contact) (events_of (doRegister2_ env a)).
Proof.
  intros Hip Husable Htls Hhost Hbind Hport Hudp Hget Hcreate Haccepts.
  apply Z.eqb_neq in Hport.
  unfold doRegister2_, createBindingAddress, try_catch. unfold_monad.
  cbn -[setTransport sendRegister].
  rewrite Hip, Hhost, Hport, Hbind, Htls, Hudp. cbn -[setTransport sendRegister].
  match goal with
  | |- context [setTransport env (Some t) ?s] => set (a1 := s)
  end.
  destruct (setTransport_returns env (Some t) a1) as [[] Hret].
  pose proof (setTransport_installs env t a1 eq_refl) as Hinst.
  pose proof (setTransport_usable env (Some t) a1) as Hus.
  change (isUsable a1) with (isUsable a) in Hus. rewrite Husable in Hus.
  unfold result_of, state_of in Hret, Hinst, Hus.
  destruct (setTransport env (Some t) a1) as [[o a2] evs].
  cbn [fst snd] in Hret, Hinst, Hus. subst o. rewrite Hinst.
  assert (Htp : transport_get a2 = Some tp)
    by (unfold transport_get; rewrite Hinst; exact Hget).
  destruct (sendRegister_sends env a2 regc tp Hus Htp Hcreate Haccepts) as [Hdone Hin].
  unfold result_of, events_of in Hdone, Hin.
  destruct (sendRegister env a2) as [[o a3] evs'].
  cbn [fst snd] in Hdone, Hin. subst o.
  exists (contactHeader_ a2).
  destruct (presenceEnabled_ a); cbn; right; rewrite !in_app_iff; auto.
Qed.

Lemma doRegister1__registers (env : Env) (a : SIPAccount) (ip : IpAddr)
    (ips : list IpAddr) (t : SipTransport) (tp : pjsip_transport) (regc : pjsip_regc) :
  isIP2IP a = false ->
  isUsable a = true ->
  tlsEnable_ a = false ->
  host_ips env = ip :: ips ->
  IpAddr_bool ip = true ->
  IpAddr_bool (bind_address env) = true ->
  getPort (bind_address env) <> 0 ->
  getUdpTransport env = Some t ->
  st_get t = Some tp ->
  regc_create env = Some regc ->
  pjsip_accepts env ->
  exists contact, In (EvRegcSend regc REGISTER contact) (events_of (doRegister1_ env a)).
Proof.
  intros Hip Husable Htls Hips Hipb Hbind Hport Hudp Hget Hcreate Haccepts.
  destruct (doRegister2__registers env (set_hostIp_ ip a) t tp regc)
    as [contact Hin]; try assumption.
  exists contact. unfold doRegister1_.
  rewrite (bind_events (gets id) _ a a eq_refl).
  change (state_of (gets id a)) with a. rewrite Hip, Hips.
  rewrite (bind_events (emit _) _ a tt eq_refl).
  rewrite (bind_events (modify (set_hostIp_ ip)) _ _ tt eq_refl).
  rewrite !in_app_iff. right. right. right. exact Hin.
Qed.

Lemma doUnregister_unregisters (env : Env) (a : SIPAccount) (regc : pjsip_regc)
    (tp : pjsip_transport) :
  isIP2IP a = false ->
  isRegistered a = true ->
  regc_ a = Some regc ->
  transport_get a = Some tp ->
  pjsip_accepts env ->
  In (EvRegcSend regc UNREGISTER (contactHeader_ a)) (events_of (doUnregister env None a)).
Proof.
  intros Hip Hreg Hregc Htp Haccepts. unfold doUnregister.
  rewrite (bind_events (modify (set_tlsListener_ None)) _ a tt eq_refl).
  set (a1 := state_of (modify (set_tlsListener_ None) a)).
  rewrite (bind_events (gets isIP2IP) _ a1 (isIP2IP a1) eq_refl).
  change (isIP2IP a1) with (isIP2IP a). rewrite Hip.
  change (state_of (gets isIP2IP a1)) with a1. cbn [negb when].
  assert (Hsend : try_catch (sendUnregister env) (fun e => emit (EvJamiErr e)) a1
                  = (Done tt, set_bRegister_ false a1,
                     [EvRegcSend regc UNREGISTER (contactHeader_ a)])).
  { unfold try_catch.
    rewrite (sendUnregister_sends env a1 regc tp) by assumption. reflexivity. }
  rewrite (bind_events _ _ a1 tt) by (rewrite Hsend; reflexivity).
  rewrite Hsend. rewrite !in_app_iff. right. right. left. left. reflexivity.
Qed.

(** C10.  [isIP2IP] is true exactly when the host name of the account is
    empty, and this is the account that the registration life cycle
    treats as the direct-IP profile: with an empty host name neither
    [doRegister] sends a REGISTER nor [doUnregister] an unREGISTER,
    whatever the collaborators answer; with a host name, a registrar that
    resolves and a pjsip that accepts every call, the REGISTER and the
    unREGISTER are sent. *)
Theorem isIP2IP_iff_hostname_empty (env : Env) (a : SIPAccount) :
  (isIP2IP a = true <-> hostname_ a = "")
  /\ (hostname_ a = "" ->
      List.filter (is_regc_send REGISTER) (events_of (doRegister1_ env a)) = []
      /\ List.filter (is_regc_send REGISTER) (events_of (doRegister2_ env a)) = []
      /\ List.filter (is_regc_send UNREGISTER) (events_of (doUnregister env None a)) = [])
  /\ (hostname_ a <> "" ->
      (forall ip ips t tp regc,
          isUsable a = true -> tlsEnable_ a = false ->
          host_ips env = ip :: ips -> IpAddr_bool ip = true ->
          IpAddr_bool (bind_address env) = true -> getPort (bind_address env) <> 0 ->
          getUdpTransport env = Some t -> st_get t = Some tp ->
          regc_create env = Some regc -> pjsip_accepts env ->
          exists contact,
            In (EvRegcSend regc REGISTER contact) (events_of (doRegister1_ env a)))
      /\ (forall regc tp,
             isRegistered a = true -> regc_ a = Some regc ->
             transport_get a = Some tp -> pjsip_accepts env ->
             In (EvRegcSend regc UNREGISTER (contactHeader_ a))
                (events_of (doUnregister env None a)))).
Proof.
  split; [apply isIP2IP_spec |]. split.
  - intros Hempty. apply isIP2IP_spec in Hempty.
    split; [| split].
    + apply doRegister1__direct_ip, Hempty.
    + apply doRegister2__direct_ip, Hempty.
    + apply doUnregister_direct_ip; [exact Hempty | discriminate].
  - intros Hname.
    assert (Hip : isIP2IP a = false).
    { destruct (isIP2IP a) eqn:Hip; [| reflexivity].
      apply isIP2IP_spec in Hip. contradiction. }
    split.
    + intros ip ips t tp regc. intros. eapply doRegister1__registers; eassumption.
    + intros regc tp. intros. apply doUnregister_unregisters with (tp := tp); assumption.
Qed.

(** ** Strings and paths *)

Lemma string_app_cons (c : ascii) (s t : string) : String c s +:+ t = String c (s +:+ t).
Proof. reflexivity. Qed.

Lemma string_app_nil_l (t : string) : "" +:+ t = t.
Proof. reflexivity. Qed.

(** [String.append] is not unfolded by [simpl]. *)
Ltac ssimpl :=
  repeat first [rewrite string_app_cons | rewrite string_app_nil_l | progress simpl].
Ltac ssimpl_in H :=
  repeat first [rewrite string_app_cons in H | rewrite string_app_nil_l in H
               | progress simpl in H].

Lemma string_length_app (s t : string) :
  String.length (s +:+ t) = (String.length s + String.length t)%nat.
Proof. induction s as [| c s IH]; ssimpl; [reflexivity | f_equal; exact IH]. Qed.

Lemma string_app_assoc (s t u : string) : (s +:+ t) +:+ u = s +:+ (t +:+ u).
Proof. induction s as [| c s IH]; ssimpl; [reflexivity | f_equal; exact IH]. Qed.

Lemma string_app_nil_r (s : string) : s +:+ "" = s.
Proof. induction s as [| c s IH]; ssimpl; [reflexivity | f_equal; exact IH]. Qed.

Lemma is_prefix_app (p s : string) : is_prefix p (p +:+ s) = true.
Proof.
  induction p as [| c p IH]; ssimpl; [reflexivity |].
  rewrite Ascii.eqb_refl. exact IH.
Qed.

Lemma is_prefix_spec (p s : string) :
  is_prefix p s = true -> s = p +:+ substr_from (String.length p) s.
Proof.
  revert s. induction p as [| c p IH]; intros s Hp; ssimpl; [reflexivity |].
  destruct s as [| d s]; ssimpl_in Hp; [discriminate |].
  apply andb_prop in Hp as [Hc Hp]. apply Ascii.eqb_eq in Hc. subst d.
  f_equal. apply IH, Hp.
Qed.

Lemma substr_from_app (p s : string) : substr_from (String.length p) (p +:+ s) = s.
Proof.
  induction p as [| c p IH]; ssimpl; [destruct s; reflexivity | exact IH].
Qed.

Lemma contains_char_app (c : ascii) (s t : string) :
  contains_char c (s +:+ t) = contains_char c s || contains_char c t.
Proof.
  induction s as [| d s IH]; ssimpl; [reflexivity |].
  rewrite IH, orb_assoc. reflexivity.
Qed.

Lemma is_prefix_app_r (p s t : string) :
  is_prefix p s = true -> is_prefix p (s +:+ t) = true.
Proof.
  revert s. induction p as [| c p IH]; intros s Hp; ssimpl; [reflexivity |].
  destruct s as [| d s]; ssimpl_in Hp; ssimpl; [discriminate |].
  apply andb_prop in Hp as [Hc Hp]. rewrite Hc. simpl. apply IH, Hp.
Qed.

Lemma contains_string_app_l (sub s t : string) :
  contains_string sub s = true -> contains_string sub (s +:+ t) = true.
Proof.
  induction s as [| d s IH]; ssimpl; intros Hs.
  - rewrite orb_false_r in Hs. destruct sub; [| discriminate].
    destruct t; reflexivity.
  - apply orb_prop in Hs as [Hs | Hs].
    + change (String d (s +:+ t)) with (String d s +:+ t).
      rewrite (is_prefix_app_r _ _ _ Hs). reflexivity.
    + rewrite (IH Hs). apply orb_true_r.
Qed.

Lemma contains_string_app_r (sub s t : string) :
  contains_string sub t = true -> contains_string sub (s +:+ t) = true.
Proof.
  intros Ht. induction s as [| d s IH]; ssimpl; [exact Ht |].
  rewrite IH. apply orb_true_r.
Qed.

Lemma find_last_of_None (c : ascii) (s : string) :
  find_last_of c s = None <-> contains_char c s = false.
Proof.
  induction s as [| d s IH]; ssimpl; [tauto |].
  destruct (find_last_of c s) as [i |].
  - split; [discriminate |]. intros Hn. apply orb_false_elim in Hn as [_ Hn].
    apply IH in Hn. discriminate.
  - destruct (Ascii.eqb d c); ssimpl; [split; discriminate |].
    split; intros _; [apply IH |]; reflexivity.
Qed.

Lemma find_last_of_Some (c : ascii) (s : string) (i : nat) :
  find_last_of c s = Some i ->
  s = substr_to i s +:+ String c (substr_from (Datatypes.S i) s)
  /\ contains_char c (substr_from (Datatypes.S i) s) = false
  /\ (i < String.length s)%nat.
Proof.
  revert i. induction s as [| d s IH]; intros i Hi; [discriminate |].
  cbn [find_last_of] in Hi.
  change (substr_from (Datatypes.S i) (String d s)) with (substr_from i s).
  cbn [String.length].
  destruct (find_last_of c s) as [j |] eqn:Hj.
  - injection Hi as <-. destruct (IH j eq_refl) as (Hs & Hno & Hlt).
    change (substr_to (Datatypes.S j) (String d s)) with (String d (substr_to j s)).
    rewrite string_app_cons.
    repeat split; [f_equal; exact Hs | exact Hno | lia].
  - destruct (Ascii.eqb_spec d c) as [-> |]; [| discriminate].
    injection Hi as <-. cbn [substr_to substr_from]. rewrite string_app_nil_l.
    repeat split; [| lia]. apply find_last_of_None, Hj.
Qed.

Lemma find_last_of_app (c : ascii) (stem ext : string) :
  contains_char c ext = false ->
  find_last_of c (stem +:+ String c ext) = Some (String.length stem).
Proof.
  intros Hno. induction stem as [| d stem IH]; ssimpl.
  - apply find_last_of_None in Hno. rewrite Hno, Ascii.eqb_refl. reflexivity.
  - rewrite IH. reflexivity.
Qed.

Lemma substr_from_length (i : nat) (s : string) :
  String.length (substr_from i s) = (String.length s - i)%nat.
Proof.
  revert s. induction i as [| i IH]; intros s; [cbn; lia |].
  destruct s as [| d s]; [reflexivity |].
  change (substr_from (Datatypes.S i) (String d s)) with (substr_from i s).
  rewrite IH. reflexivity.
Qed.

(** X1.  [getCleanPath] undoes [getFullPath]: a relative path that was
    put under a base directory comes back as it was when the base is
    stripped again. *)
Theorem getCleanPath_getFullPath (base path : string) :
  base <> "" ->
  fileutils.isPathRelative path = true ->
  fileutils.getFullPath base path = base +:+ "/" +:+ path
  /\ fileutils.getCleanPath base (fileutils.getFullPath base path) = path.
Proof.
  intros Hbase Hrel.
  assert (Hfull : fileutils.getFullPath base path = base +:+ "/" +:+ path).
  { unfold fileutils.getFullPath. rewrite Hrel.
    destruct (String.eqb_spec base "") as [? | _]; [contradiction | reflexivity]. }
  split; [exact Hfull |]. rewrite Hfull.
  unfold fileutils.getCleanPath, fileutils.DIR_SEPARATOR_STR.
  destruct (String.eqb_spec base "") as [? | _]; [contradiction |].
  assert (Hlen : (String.length (base +:+ "/" +:+ path) <? String.length base)%nat = false)
    by (apply Nat.ltb_ge; rewrite string_length_app; lia).
  rewrite Hlen. cbn [orb]. rewrite <- string_app_assoc, is_prefix_app.
  apply substr_from_app.
Qed.

(** X2.  [getFullPath] undoes [getCleanPath]: when the base directory was
    stripped from a path and what is left is a relative path, putting it
    under the base again gives the path back.  A path outside the base is
    left alone by [getCleanPath]. *)
Theorem getFullPath_getCleanPath (base path : string) :
  fileutils.getCleanPath base path <> path ->
  fileutils.isPathRelative (fileutils.getCleanPath base path) = true ->
  path = base +:+ "/" +:+ fileutils.getCleanPath base path
  /\ fileutils.getFullPath base (fileutils.getCleanPath base path) = path.
Proof.
  unfold fileutils.getCleanPath, fileutils.DIR_SEPARATOR_STR.
  destruct (String.eqb_spec base "") as [? | Hbase]; [cbn; congruence |].
  destruct (String.length path <? String.length base)%nat; [cbn; congruence |].
  cbn [orb].
  destruct (is_prefix (base +:+ "/") path) eqn:Hp; [| congruence].
  intros _ Hrel. apply is_prefix_spec in Hp.
  assert (Hpath : path = base +:+ "/"
                         +:+ substr_from (String.length (base +:+ "/")) path).
  { rewrite <- string_app_assoc. exact Hp. }
  split; [exact Hpath |].
  unfold fileutils.getFullPath. rewrite Hrel.
  destruct (String.eqb_spec base "") as [? | _]; [contradiction |].
  cbn [negb andb]. unfold fileutils.DIR_SEPARATOR_STR. symmetry. exact Hpath.
Qed.

(** X3.  [getFileExtension] gives a non-empty extension [ext] exactly for
    the file names that end in a dot followed by [ext], where [ext] has no
    dot and fewer than 8 characters; every other file name has the empty
    extension. *)
Theorem getFileExtension_spec (filename ext : string) :
  ext <> "" ->
  fileutils.getFileExtension filename = ext
  <-> (exists stem, filename = stem +:+ "." +:+ ext)
      /\ contains_char "." ext = false
      /\ (String.length ext < 8)%nat.
Proof.
  intros Hext. unfold fileutils.getFileExtension. split.
  - destruct (find_last_of "." filename) as [sep |] eqn:Hsep.
    + destruct (find_last_of_Some _ _ _ Hsep) as (Hname & Hno & Hlt).
      destruct (Nat.eqb_spec sep (String.length filename - 1)) as [_ | _];
        cbn [negb]; [cbn; congruence |].
      destruct (Nat.leb_spec 8 (String.length (substr_from (Datatypes.S sep) filename)))
        as [_ | Hlen]; [congruence |].
      intros <-. repeat split; [| exact Hno | exact Hlen].
      exists (substr_to sep filename). exact Hname.
    + cbn. congruence.
  - intros ([stem ->] & Hno & Hlen).
    change (stem +:+ "." +:+ ext) with (stem +:+ String "." ext).
    rewrite (find_last_of_app _ stem ext Hno), string_length_app.
    cbn [String.length].
    destruct (Nat.eqb_spec (String.length stem)
                (String.length stem + Datatypes.S (String.length ext) - 1)) as [Heq | _].
    { destruct ext; [contradiction | cbn [String.length] in Heq; lia]. }
    cbn [negb].
    change (Datatypes.S (String.length stem)) with (String.length (String "."%char stem)).
    assert (Hsub : substr_from (Datatypes.S (String.length stem)) (stem +:+ String "." ext)
                   = ext).
    { clear. induction stem as [| d stem IH]; ssimpl; [destruct ext; reflexivity |].
      exact IH. }
    change (String.length (String "."%char stem)) with (Datatypes.S (String.length stem)).
    rewrite Hsub.
    destruct (Nat.leb_spec 8 (String.length ext)); [lia | reflexivity].
Qed.

(** ** Erasing a file *)

Lemma overwrites_blocks (byte pos : N) (rest : list fileutils.fd_call) (n s : nat) :
  (N.of_nat s * fileutils.ERASE_BLOCK <= byte
   < N.of_nat (s + n) * fileutils.ERASE_BLOCK)%N ->
  fileutils.overwrites pos
    (concat (map (fun i => [fileutils.Lseek (N.of_nat i * fileutils.ERASE_BLOCK)%N;
                            fileutils.Write fileutils.ERASE_BLOCK])
                 (seq s n)) ++ rest) byte = true.
Proof.
  revert s pos. induction n as [| n IH]; intros s pos Hin.
  - rewrite Nat.add_0_r in Hin. lia.
  - cbn [seq map concat app fileutils.overwrites].
    destruct (N.ltb_spec byte (N.of_nat s * fileutils.ERASE_BLOCK + fileutils.ERASE_BLOCK))
      as [Hlt | Hge].
    + destruct (N.leb_spec (N.of_nat s * fileutils.ERASE_BLOCK) byte); [reflexivity | lia].
    + rewrite andb_false_r. cbn [orb]. apply IH. lia.
Qed.

Lemma erase_size_blocks_covers (st_size : N) :
  (st_size <= fileutils.erase_size_blocks st_size * fileutils.ERASE_BLOCK
   < st_size + fileutils.ERASE_BLOCK)%N.
Proof.
  unfold fileutils.erase_size_blocks, fileutils.ERASE_BLOCK.
  pose proof (N.div_mod st_size 4096 ltac:(discriminate)) as Hdm.
  pose proof (N.mod_lt st_size 4096 ltac:(discriminate)) as Hlt.
  generalize dependent (N.modulo st_size 4096). generalize (N.div st_size 4096).
  intros q r Hdm Hlt. destruct (N.eqb_spec r 0); cbn [negb]; lia.
Qed.

(** X4.  When [eraseFile_posix] could open the file, read a size that is
    not 0 and allocate its buffer, it returns true after having written
    over every byte of the file, in blocks of 4096 bytes that end less
    than one block past the end of the file. *)
Theorem eraseFile_posix_overwrites (st_size : N) (dosync : bool) :
  (0 < st_size)%N ->
  let r := fileutils.eraseFile_posix true (Some st_size) true dosync in
  r.1 = true
  /\ (forall byte, (byte < st_size)%N -> fileutils.overwrites 0 r.2 byte = true)
  /\ (length (List.filter (fun c => match c with fileutils.Write _ => true | _ => false end)
                          r.2)
      = N.to_nat (fileutils.erase_size_blocks st_size))
  /\ (fileutils.erase_size_blocks st_size * fileutils.ERASE_BLOCK
      < st_size + fileutils.ERASE_BLOCK)%N.
Proof.
  intros Hpos r. subst r. unfold fileutils.eraseFile_posix. cbn [negb].
  destruct (N.eqb_spec st_size 0) as [? | _]; [lia |]. cbn [fst snd].
  pose proof (erase_size_blocks_covers st_size) as Hcover.
  repeat split.
  - intros byte Hbyte. apply overwrites_blocks.
    rewrite Nat.add_0_l, N2Nat.id. cbn [N.of_nat]. lia.
  - rewrite List.filter_app.
    assert (Hlen : forall s n,
               length (List.filter
                         (fun c => match c with fileutils.Write _ => true | _ => false end)
                         (concat (map (fun i => [fileutils.Lseek
                                                   (N.of_nat i * fileutils.ERASE_BLOCK)%N;
                                                 fileutils.Write fileutils.ERASE_BLOCK])
                                      (seq s n)))) = n).
    { intros s n. revert s. induction n as [| n IH]; intros s; [reflexivity |].
      cbn [seq map concat app List.filter length]. rewrite IH. reflexivity. }
    rewrite length_app, Hlen. destruct dosync; cbn; lia.
  - apply Hcover.
Qed.

(** X5.  [eraseFile_posix] closes the descriptor it opened exactly once,
    as its last call, on every path; when it returns false it has written
    nothing. *)
Theorem eraseFile_posix_closes (fstat : option N) (allocated dosync : bool) :
  let r := fileutils.eraseFile_posix true fstat allocated dosync in
  (exists calls, r.2 = calls ++ [fileutils.Close]
                 /\ List.filter fileutils.is_close calls = [])
  /\ (r.1 = false -> r.2 = [fileutils.Close])
  /\ fileutils.eraseFile_posix false fstat allocated dosync = (false, []).
Proof.
  intros r. subst r. unfold fileutils.eraseFile_posix. cbn [negb].
  assert (Hblocks : forall s n,
             List.filter fileutils.is_close
               (concat (map (fun i => [fileutils.Lseek (N.of_nat i * fileutils.ERASE_BLOCK)%N;
                                       fileutils.Write fileutils.ERASE_BLOCK])
                            (seq s n))) = []).
  { intros s n. revert s. induction n as [| n IH]; intros s; [reflexivity |].
    cbn [seq map concat app List.filter fileutils.is_close]. apply IH. }
  split; [| split; [| reflexivity]].
  - destruct fstat as [st_size |]; [| exists []; split; reflexivity].
    destruct (st_size =? 0)%N; [exists []; split; reflexivity |].
    destruct allocated; cbn [negb fst snd]; [| exists []; split; reflexivity].
    eexists. rewrite app_assoc. split; [reflexivity |].
    rewrite List.filter_app, Hblocks. destruct dosync; reflexivity.
  - destruct fstat as [st_size |]; [| reflexivity].
    destruct (st_size =? 0)%N; [reflexivity |].
    destruct allocated; cbn [negb fst snd]; [discriminate | reflexivity].
Qed.
(** ** URIs *)

(** X6.  [getToUri] completes a URI once: applied to a URI that it
    built, it adds no scheme, no host and no angle bracket, so that
    without TLS it gives that URI back; with TLS the transport parameter
    is appended once more, after the closing bracket. *)
Theorem getToUri_again (a : SIPAccount) (username : string) :
  getToUri a (getToUri a username)
  = getToUri a username
    +:+ (if is_tls_type (transportType_ a)
         then ";transport=" +:+ pjsip_transport_get_type_name (transportType_ a)
         else "").
Proof.
  set (host := fun h : string =>
                 if negb (String.eqb h "") && IpAddr_isIpv6 h
                 then toString (IpAddr_of_string h) false true else h).
  set (transport := if is_tls_type (transportType_ a)
                    then ";transport=" +:+ pjsip_transport_get_type_name (transportType_ a)
                    else "").
  assert (Hshape : forall u,
             getToUri a u
             = (if negb (contains_char "<" u) then "<" else "")
               +:+ (if contains_string "sip" u then ""
                    else if is_tls_type (transportType_ a) then "sips:" else "sip:")
               +:+ u
               +:+ (if String.eqb (host (if negb (contains_char "@" u)
                                         then hostname_ a else "")) ""
                    then "" else "@")
               +:+ host (if negb (contains_char "@" u) then hostname_ a else "")
               +:+ transport
               +:+ (if negb (contains_char ">" u) then ">" else "")) by reflexivity.
  set (r := getToUri a username).
  assert (Hsip : contains_string "sip" r = true).
  { subst r. rewrite Hshape. apply contains_string_app_r.
    destruct (contains_string "sip" username) eqn:Hu.
    - rewrite string_app_nil_l. apply contains_string_app_l, Hu.
    - apply contains_string_app_l. destruct (is_tls_type (transportType_ a)); reflexivity. }
  assert (Hlt : contains_char "<" r = true).
  { subst r. rewrite Hshape, !contains_char_app.
    destruct (contains_char "<" username); cbn [negb]; [| reflexivity].
    cbn [contains_char orb]. rewrite orb_true_r. reflexivity. }
  assert (Hgt : contains_char ">" r = true).
  { subst r. rewrite Hshape, !contains_char_app.
    destruct (contains_char ">" username); cbn [negb].
    - rewrite orb_true_l, !orb_true_r. reflexivity.
    - cbn. rewrite !orb_true_r. reflexivity. }
  assert (Hhost : host (if negb (contains_char "@" r) then hostname_ a else "") = "").
  { destruct (contains_char "@" r) eqn:Hat; cbn [negb]; [reflexivity |].
    subst r. rewrite Hshape, !contains_char_app in Hat.
    repeat (apply orb_false_elim in Hat as [? Hat]).
    repeat match goal with
           | Hc : _ || _ = false |- _ => apply orb_false_elim in Hc as [? ?]
           end.
    destruct (contains_char "@" username); [discriminate |]. cbn [negb] in *.
    destruct (String.eqb_spec (host (hostname_ a)) ""); [assumption | discriminate]. }
  rewrite (Hshape r), Hsip, Hlt, Hgt, Hhost. cbn [negb String.eqb].
  rewrite !string_app_nil_l, string_app_nil_r. reflexivity.
Qed.

(** ** Matching a request to the account *)

(** X7.  [matches] ranks a request FULL exactly when the user name is
    not empty and is that of the account and the server is the host of
    the account, by name or by an address in common, and NONE exactly
    when neither the user name nor the host matches in that way and the
    server is not the service route by name. *)
Theorem matches_rank (common : string -> string -> bool) (a : SIPAccount)
    (userName server : string) :
  let user := userName <> "" /\ userName = username_ a in
  let host := server = hostname_ a \/ common server (hostname_ a) = true in
  (matches common a userName server = FULL <-> user /\ host)
  /\ (matches common a userName server = NONE
      <-> ~ user /\ ~ host /\ server <> serviceRoute_ a).
Proof.
  unfold matches, fullMatch, userMatch, hostnameMatch, proxyMatch.
  destruct (String.eqb_spec userName ""), (String.eqb_spec userName (username_ a)),
    (String.eqb_spec server (hostname_ a)), (String.eqb_spec server (serviceRoute_ a)),
    (common server (hostname_ a)); cbn; intuition congruence.
Qed.

(** ** TLS ciphers *)

Lemma ciphers_strlen_app (name : Z -> string) (l k : list Z) :
  ciphers_strlen name (l ++ k) = ciphers_strlen name l + ciphers_strlen name k.
Proof.
  induction l as [| c l IH]; cbn [app ciphers_strlen]; [reflexivity | rewrite IH; lia].
Qed.

Lemma trimCiphers_count_spec (name : Z -> string) (ciphers : list Z) (sum : Z) :
  sum <= MAX_CIPHERS_STRLEN ->
  let kept := firstn (trimCiphers_count name sum ciphers) ciphers in
  sum + ciphers_strlen name kept <= MAX_CIPHERS_STRLEN
  /\ exists dropped,
       ciphers = kept ++ dropped
       /\ forall item rest, dropped = item :: rest ->
            sum + ciphers_strlen name (kept ++ [item]) > MAX_CIPHERS_STRLEN.
Proof.
  revert sum. induction ciphers as [| c ciphers IH]; intros sum Hsum; cbn zeta.
  - cbn. split; [lia |]. exists []. split; [reflexivity | discriminate].
  - cbn [trimCiphers_count].
    destruct (Z.gtb_spec (sum + Z.of_nat (String.length (name c))) MAX_CIPHERS_STRLEN)
      as [Hgt | Hle].
    + cbn. split; [lia |]. exists (c :: ciphers). split; [reflexivity |].
      intros item rest [= <- <-]. lia.
    + destruct (IH _ Hle) as (Hkept & dropped & Happ & Hmax).
      cbn [firstn ciphers_strlen app].
      split; [lia |]. exists dropped. split; [f_equal; exact Happ |].
      intros item rest Hd. specialize (Hmax item rest Hd). lia.
Qed.

(** X8.  [trimCiphers] keeps the longest beginning of the cipher list
    whose names have at most 1000 characters in all: what it keeps is
    within the bound, and one more cipher would exceed it. *)
Theorem trimCiphers_longest_prefix (name : Z -> string) (ciphers_ : list Z) :
  let kept := trimCiphers name ciphers_ in
  ciphers_strlen name kept <= 1000
  /\ exists dropped,
       ciphers_ = kept ++ dropped
       /\ forall item rest, dropped = item :: rest ->
            ciphers_strlen name (kept ++ [item]) > 1000.
Proof.
  destruct (trimCiphers_count_spec name ciphers_ 0 ltac:(discriminate))
    as (Hkept & dropped & Happ & Hmax).
  unfold trimCiphers. cbn zeta. split; [exact Hkept |].
  exists dropped. split; [exact Happ |]. intros item rest Hd.
  apply (Hmax item rest Hd).
Qed.

(** ** STUN server *)

Lemma find_char_None (c : ascii) (s : string) :
  contains_char c s = false -> find_char c s = None.
Proof.
  induction s as [| d s IH]; cbn; [reflexivity |]. intros Hc.
  apply orb_false_elim in Hc as [Hd Hs]. rewrite Hd, (IH Hs). reflexivity.
Qed.

Lemma find_char_app (c : ascii) (host rest : string) :
  contains_char c host = false ->
  find_char c (host +:+ String c rest) = Some (String.length host).
Proof.
  induction host as [| d host IH]; intros Hc.
  - rewrite string_app_nil_l. cbn. rewrite Ascii.eqb_refl. reflexivity.
  - cbn in Hc. apply orb_false_elim in Hc as [Hd Hs].
    rewrite string_app_cons. cbn [find_char String.length]. rewrite Hd, (IH Hs).
    reflexivity.
Qed.

Lemma substr_to_app (host rest : string) :
  substr_to (String.length host) (host +:+ rest) = host.
Proof.
  induction host as [| d host IH]; [reflexivity |].
  rewrite string_app_cons. cbn [String.length substr_to]. f_equal. exact IH.
Qed.

Lemma substr_from_app_cons (c : ascii) (host rest : string) :
  substr_from (Datatypes.S (String.length host)) (host +:+ String c rest) = rest.
Proof.
  change (Datatypes.S (String.length host)) with (String.length (String c host)).
  induction host as [| d host IH]; [destruct rest; reflexivity |].
  rewrite string_app_cons. exact IH.
Qed.

Lemma digit_value_digit_char (d : Z) : 0 <= d <= 9 -> digit_value (digit_char d) = Some d.
Proof.
  intros Hd. assert (Hcases : d = 0 \/ d = 1 \/ d = 2 \/ d = 3 \/ d = 4 \/ d = 5
                              \/ d = 6 \/ d = 7 \/ d = 8 \/ d = 9) by lia.
  repeat destruct Hcases as [-> | Hcases]; try subst d; reflexivity.
Qed.

Lemma leading_digits_digits_string (ds : list Z) (tail : string) :
  Forall (fun d => 0 <= d <= 9) ds ->
  leading_digits tail = [] ->
  leading_digits (digits_string ds +:+ tail) = ds.
Proof.
  intros Hds Htail. induction Hds as [| d ds Hd Hds IH].
  - rewrite string_app_nil_l. exact Htail.
  - cbn [digits_string fold_right]. rewrite string_app_cons. cbn [leading_digits].
    rewrite (digit_value_digit_char d Hd). f_equal. exact IH.
Qed.

(** X9.  [initStunConfiguration] splits the configured STUN server at
    its first colon.  Without a colon the whole text is the server name
    and the port is 3478.  With a colon the name is what precedes it and
    the port is the decimal number that follows, when there is one that
    fits 16 bits; when what follows does not begin with a digit, the
    port keeps the value it had, not the default. *)
Theorem initStunConfiguration_split (host : string) (stunPort_ : Z) :
  contains_char ":" host = false ->
  initStunConfiguration host stunPort_ = (host, PJ_STUN_PORT)
  /\ (forall rest,
        leading_digits rest = [] ->
        initStunConfiguration (host +:+ ":" +:+ rest) stunPort_ = (host, stunPort_))
  /\ (forall ds tail,
        ds <> [] -> Forall (fun d => 0 <= d <= 9) ds -> decimal_value ds <= 65535 ->
        leading_digits tail = [] ->
        initStunConfiguration (host +:+ ":" +:+ digits_string ds +:+ tail) stunPort_
        = (host, decimal_value ds)).
Proof.
  intros Hhost. unfold initStunConfiguration. split; [| split].
  - rewrite (find_char_None _ _ Hhost). reflexivity.
  - intros rest Hrest. change (":" +:+ rest) with (String ":" rest).
    rewrite (find_char_app _ _ _ Hhost), substr_to_app, substr_from_app_cons.
    unfold from_chars_uint16. rewrite Hrest. reflexivity.
  - intros ds tail Hne Hds Hmax Htail.
    change (":" +:+ digits_string ds +:+ tail)
      with (String ":" (digits_string ds +:+ tail)).
    rewrite (find_char_app _ _ _ Hhost), substr_to_app, substr_from_app_cons.
    unfold from_chars_uint16. rewrite (leading_digits_digits_string ds tail Hds Htail).
    destruct ds as [| d ds']; [contradiction |].
    destruct (Z.gtb_spec (decimal_value (d :: ds')) 65535); [lia | reflexivity].
Qed.
(** ** Exceptions *)

Section NeverThrows.

Lemma never_throws_ret {A} (x : A) : never_throws (ret x).
Proof. intros a e. discriminate. Qed.

Lemma never_throws_gets {A} (g : SIPAccount -> A) : never_throws (gets g).
Proof. intros a e. discriminate. Qed.

Lemma never_throws_modify (g : SIPAccount -> SIPAccount) : never_throws (modify g).
Proof. intros a e. discriminate. Qed.

Lemma never_throws_emit (ev : Event) : never_throws (emit ev).
Proof. intros a e. discriminate. Qed.

Lemma never_throws_undefined {A} : never_throws (undefined (A := A)).
Proof. intros a e. discriminate. Qed.

Lemma never_throws_bind {A C} (m : M A) (k : A -> M C) :
  never_throws m -> (forall x, never_throws (k x)) -> never_throws (bind m k).
Proof.
  intros Hm Hk a e. specialize (Hm a). unfold bind, result_of in *.
  destruct (m a) as [[[x | e' |] s1] t1]; cbn in *.
  - specialize (Hk x s1 e). unfold result_of in Hk.
    destruct (k x s1) as [[r s2] t2]. exact Hk.
  - destruct (Hm e' eq_refl).
  - discriminate.
Qed.

(** Whatever the body throws, the handler has the last word. *)
Lemma never_throws_try_catch {A} (m : M A) (h : VoipLinkException -> M A) :
  (forall e, never_throws (h e)) -> never_throws (try_catch m h).
Proof.
  intros Hh a e. unfold try_catch, result_of.
  destruct (m a) as [[[x | e' |] s1] t1]; cbn; try discriminate.
  specialize (Hh e' s1 e). unfold result_of in Hh.
  destruct (h e' s1) as [[r s2] t2]. exact Hh.
Qed.

End NeverThrows.

Ltac safe_step :=
  first
    [ assumption
    | match goal with
      | Hyp : context [never_throws] |- never_throws _ => apply Hyp
      end
    | progress unfold when, update_auto_rereg, setRegistrationState,
        SIPAccountBase_setRegistrationState, setPublishedAddress, setRegister
    | apply never_throws_try_catch; intros ?
    | apply never_throws_bind; [| intros ? ]
    | apply never_throws_ret | apply never_throws_gets | apply never_throws_modify
    | apply never_throws_emit | apply never_throws_undefined
    | match goal with
      | |- never_throws (match ?c with _ => _ end) => destruct c
      end ].

Ltac safe := repeat safe_step.

Lemma setTransport_never_throws (env : Env) (t : option SipTransport) :
  never_throws (setTransport env t).
Proof.
  unfold setTransport, initContactAddress, updateContactHeader, useUPnPAddressPortInVIA,
    usePublishedAddressPortInVIA.
  safe.
Qed.

Lemma scheduleReregistration_never_throws (env : Env) :
  never_throws (scheduleReregistration env).
Proof. unfold scheduleReregistration. safe. Qed.

Lemma doRegister2__never_throws (env : Env) : never_throws (doRegister2_ env).
Proof.
  pose proof (setTransport_never_throws env).
  unfold doRegister2_, createBindingAddress. safe.
Qed.

Lemma doRegister_never_throws (env : Env) : never_throws (doRegister env).
Proof.
  pose proof (doRegister2__never_throws env).
  unfold doRegister, doRegister1_, mapPortUPnP. safe.
Qed.

Lemma doUnregister_never_throws (env : Env) (released_cb : option (bool -> M unit)) :
  (forall cb b, released_cb = Some cb -> never_throws (cb b)) ->
  never_throws (doUnregister env released_cb).
Proof.
  intros Hcb. pose proof (setTransport_never_throws env).
  unfold doUnregister, resetAutoRegistration.
  destruct released_cb as [cb |]; [specialize (fun b => Hcb cb b eq_refl) |]; safe.
Qed.

Lemma onRegister_never_throws (env : Env) (param : pjsip_regc_cbparam) :
  never_throws (onRegister env param).
Proof.
  pose proof (scheduleReregistration_never_throws env).
  unfold onRegister, onRegister_outcome, destroyRegistrationInfo, resetAutoRegistration,
    checkNATAddress.
  safe.
Qed.

(** X10.  No [VoipLinkException] leaves the entry points of the
    registration: what [sendRegister] and [sendUnregister] throw is caught
    in [doRegister], [doUnregister] and [autoReregTimerCb], and the
    handlers, [onRegister] and the changes that register again throw
    nothing themselves. *)
Theorem registration_never_throws (env env' : Env) :
  never_throws (doRegister env)
  /\ never_throws (doUnregister env None)
  /\ never_throws (autoReregTimerCb env)
  /\ (forall param, never_throws (onRegister env param))
  /\ never_throws (connectivityChanged env env')
  /\ (forall token, never_throws (setPushNotificationToken env env' token))
  /\ never_throws (pushNotificationReceived env env')
  /\ (forall alive info status, never_throws (onTransportStateChanged env alive info status)).
Proof.
  pose proof (doRegister_never_throws env').
  pose proof (scheduleReregistration_never_throws env).
  pose proof (setTransport_never_throws env).
  assert (Hcb : forall b : bool,
             never_throws (usable <- gets isUsable ;; when usable (doRegister env')))
    by (intros _; safe).
  repeat apply conj.
  - apply doRegister_never_throws.
  - apply doUnregister_never_throws. discriminate.
  - unfold autoReregTimerCb. safe.
  - apply onRegister_never_throws.
  - unfold connectivityChanged.
    apply never_throws_bind; [apply never_throws_gets | intros usable].
    destruct (negb usable); [apply never_throws_ret |].
    apply doUnregister_never_throws. intros cb b [= <-]. apply Hcb, b.
  - intros token. unfold setPushNotificationToken.
    apply never_throws_bind; [apply never_throws_gets | intros a].
    destruct (String.eqb (deviceKey_ a) token); [apply never_throws_ret |].
    apply never_throws_bind; [apply never_throws_modify | intros _].
    destruct (enabled_ a); [| apply never_throws_ret]. cbn [when].
    apply doUnregister_never_throws. intros cb b [= <-]. assumption.
  - unfold pushNotificationReceived.
    apply never_throws_bind; [apply never_throws_gets | intros a].
    destruct (enabled_ a); [| apply never_throws_ret]. cbn [when].
    apply doUnregister_never_throws. intros cb b [= <-]. assumption.
  - intros alive info status. unfold onTransportStateChanged. safe.
Qed.

(** ** The outcome of a registration *)

Lemma onRegister_outcome_success (param : pjsip_regc_cbparam) (a : SIPAccount) :
  p_status param = PJ_SUCCESS ->
  200 <= p_code param < 300 ->
  onRegister_outcome param a
  = (resetAutoRegistration ;;
     if p_expiration param <? 1
     then destroyRegistrationInfo ;; setRegistrationState UNREGISTERED (p_code param)
     else
       (if allowIPAutoRewrite_ a then _ <- checkNATAddress param ;; ret tt else ret tt) ;;
       when (hasServiceRoute a)
            (emit (EvRegcSetRouteSet (p_regc param) (serviceRoute_ a))) ;;
       setRegistrationState REGISTERED (p_code param)) a.
Proof.
  intros Hstatus Hcode.
  assert (Hclass : PJSIP_IS_STATUS_IN_CLASS (p_code param) 200 = true)
    by (apply PJSIP_IS_STATUS_IN_CLASS_spec; [lia | reflexivity | lia]).
  unfold onRegister_outcome. unfold bind at 1. unfold gets at 1. cbn [fst snd].
  rewrite Hstatus, Z.eqb_refl, Hclass. cbn [negb].
  destruct (Z.ltb_spec (p_code param) 0); [lia |].
  destruct (Z.geb_spec (p_code param) 300); [lia |]. cbn [orb app].
  destruct (bind resetAutoRegistration _ a) as [[r s] t]. reflexivity.
Qed.

Lemma retry_code_success (code : Z) : 0 <= code < 300 -> retry_code code = false.
Proof.
  intros Hcode. destruct (retry_code code) eqn:Hretry; [| reflexivity].
  apply retry_code_spec in Hretry. lia.
Qed.

(** X11.  [onRegister] leaves the account as it is, and makes no call,
    when the callback is for another registration client than the one of
    the account, and when the status is [PJ_SUCCESS] with a provisional
    code (0 to 199). *)
Theorem onRegister_ignored (env : Env) (param : pjsip_regc_cbparam) (a : SIPAccount) :
  p_regc param <> regc_ a \/ (p_status param = PJ_SUCCESS /\ 0 <= p_code param < 200) ->
  onRegister env param a = (Done tt, a, []).
Proof.
  intros Hcase. unfold onRegister. unfold bind at 1. unfold gets at 1. cbn [fst snd].
  destruct (decide (p_regc param = regc_ a)) as [Hregc | Hother].
  - destruct Hcase as [? | [Hstatus Hcode]]; [contradiction |].
    rewrite bool_decide_true by assumption. cbn [negb].
    rewrite (retry_code_success (p_code param)) by lia.
    assert (Hclass : PJSIP_IS_STATUS_IN_CLASS (p_code param) 200 = false).
    { destruct (PJSIP_IS_STATUS_IN_CLASS (p_code param) 200) eqn:Hc; [| reflexivity].
      apply PJSIP_IS_STATUS_IN_CLASS_spec in Hc; [lia | lia | reflexivity]. }
    unfold onRegister_outcome. unfold_monad. cbn [fst snd].
    rewrite Hstatus, Z.eqb_refl, Hclass. cbn [negb].
    destruct (Z.ltb_spec (p_code param) 0); [lia |].
    destruct (Z.geb_spec (p_code param) 300); [lia |]. reflexivity.
  - rewrite bool_decide_false by assumption. reflexivity.
Qed.
Lemma bind_ret_unit (m : M unit) (a : SIPAccount) : bind m (fun _ => ret tt) a = m a.
Proof.
  unfold bind, ret. destruct (m a) as [[[[] | e |] s] t]; rewrite ?app_nil_r; reflexivity.
Qed.

Lemma onRegister_success_run (env : Env) (param : pjsip_regc_cbparam) (a : SIPAccount) :
  p_regc param = regc_ a ->
  p_status param = PJ_SUCCESS ->
  200 <= p_code param < 300 ->
  onRegister env param a
  = (resetAutoRegistration ;;
     if p_expiration param <? 1
     then destroyRegistrationInfo ;; setRegistrationState UNREGISTERED (p_code param)
     else
       (if allowIPAutoRewrite_ a then _ <- checkNATAddress param ;; ret tt else ret tt) ;;
       when (hasServiceRoute a)
            (emit (EvRegcSetRouteSet (p_regc param) (serviceRoute_ a))) ;;
       setRegistrationState REGISTERED (p_code param)) a.
Proof.
  intros Hregc Hstatus Hcode. rewrite onRegister_run by assumption.
  rewrite (retry_code_success (p_code param)) by lia. cbn [when].
  rewrite bind_ret_unit. apply onRegister_outcome_success; assumption.
Qed.

(** X12.  A response of the class 2xx to the registration of the
    account, with an expiration of at least 1, registers the account: the
    state is REGISTERED with the code of the response, the registration
    client is kept, the retry record is reset (inactive, no attempt
    counted), and no retry is scheduled. *)
Theorem onRegister_registered (env : Env) (param : pjsip_regc_cbparam) (a : SIPAccount) :
  p_regc param = regc_ a ->
  p_status param = PJ_SUCCESS ->
  200 <= p_code param < 300 ->
  1 <= p_expiration param ->
  let r := onRegister env param a in
  result_of r = Done tt
  /\ registrationState_ (state_of r) = REGISTERED
  /\ registrationStateDetailed_ (state_of r) = p_code param
  /\ regc_ (state_of r) = regc_ a
  /\ auto_rereg_ (state_of r) = auto_rereg_reset a
  /\ List.filter is_schedule_timer (events_of r) = []
  /\ List.filter is_regc_destroy (events_of r) = [].
Proof.
  intros Hregc Hstatus Hcode Hexp r. subst r.
  rewrite onRegister_success_run by assumption.
  destruct (Z.ltb_spec (p_expiration param) 1); [lia |].
  unfold resetAutoRegistration, checkNATAddress, auto_rereg_reset. unfold_monad.
  cbn -[printContactHeader pj_stricmp_eq].
  run_cases; repeat split; assumption.
Qed.

(** X13.  A response of the class 2xx with an expiration under 1
    answers an unregistration: the state is UNREGISTERED, the registration
    client of the account is destroyed, once, and forgotten, and the retry
    record is reset. *)
Theorem onRegister_unregistered (env : Env) (param : pjsip_regc_cbparam) (a : SIPAccount)
    (regc : pjsip_regc) :
  regc_ a = Some regc ->
  p_regc param = Some regc ->
  p_status param = PJ_SUCCESS ->
  200 <= p_code param < 300 ->
  p_expiration param < 1 ->
  let r := onRegister env param a in
  result_of r = Done tt
  /\ registrationState_ (state_of r) = UNREGISTERED
  /\ registrationStateDetailed_ (state_of r) = p_code param
  /\ regc_ (state_of r) = None
  /\ auto_rereg_ (state_of r) = auto_rereg_reset a
  /\ events_of r = [EvRegcDestroy regc].
Proof.
  intros Ha Hregc Hstatus Hcode Hexp r. subst r.
  rewrite onRegister_success_run by congruence.
  destruct (Z.ltb_spec (p_expiration param) 1); [| lia].
  unfold resetAutoRegistration, destroyRegistrationInfo, auto_rereg_reset. unfold_monad.
  cbn. rewrite Ha. cbn. repeat split.
Qed.

(** X14.  A successful response does not cancel a retry timer that is
    armed: [resetAutoRegistration] leaves the timer id set and frees the
    user data of the entry, so that the timer callback, which reads the
    user data without a check, reads a null pointer when that timer
    expires. *)
Theorem retry_timer_outlives_success (env env' : Env) (param : pjsip_regc_cbparam)
    (a : SIPAccount) :
  timer_id (auto_rereg_ a) = true ->
  p_regc param = regc_ a ->
  p_status param = PJ_SUCCESS ->
  200 <= p_code param < 300 ->
  let r := onRegister env param a in
  List.filter is_cancel_timer (events_of r) = []
  /\ timer_id (auto_rereg_ (state_of r)) = true
  /\ timer_user_data (auto_rereg_ (state_of r)) = false
  /\ result_of (auto_rereg_timer_cb env' (state_of r)) = Undefined.
Proof.
  intros Htimer Hregc Hstatus Hcode r.
  assert (Hstate : auto_rereg_ (state_of r) = auto_rereg_reset a
                   /\ List.filter is_cancel_timer (events_of r) = []).
  { subst r. rewrite onRegister_success_run by assumption.
    unfold resetAutoRegistration, destroyRegistrationInfo, checkNATAddress,
      auto_rereg_reset.
    unfold_monad. cbn -[printContactHeader pj_stricmp_eq].
    run_cases; repeat split. }
  destruct Hstate as [Hrecord Hsilent].
  split; [exact Hsilent |].
  unfold auto_rereg_timer_cb. unfold bind, gets. cbn [fst snd].
  rewrite Hrecord. unfold auto_rereg_reset. cbn [timer_id timer_user_data].
  repeat split. exact Htimer.
Qed.
(** ** Retries *)

Lemma sendRegister_no_regc (env : Env) (a : SIPAccount) :
  isUsable a = true ->
  regc_create env = None ->
  sendRegister env a
  = (Thrown "UserAgent: Unable to create regc structure.",
     set_registrationState_ TRYING
       (set_registrationStateDetailed_ 0 (set_bRegister_ true a)), []).
Proof.
  intros Husable Hcreate. unfold sendRegister. unfold_monad.
  rewrite Husable, Hcreate. reflexivity.
Qed.

Lemma scheduleReregistration_run (env : Env) (a : SIPAccount) :
  isUsable a = true ->
  scheduleReregistration env a
  = (Done tt,
     set_auto_rereg_
       (mk_AutoRereg true (schedule_timer_ok env) true (attempt_cnt (auto_rereg_ a))) a,
     (if timer_id (auto_rereg_ a) then [EvCancelTimer] else [])
     ++ [EvScheduleTimer
           (reregistrationDelay (retryInterval (attempt_cnt (auto_rereg_ a))) env)]).
Proof.
  intros Husable. unfold scheduleReregistration. unfold_monad.
  rewrite Husable. cbn.
  remember (auto_rereg_ a) as ar eqn:Har. destruct ar as [act tid ud cnt]. cbn.
  destruct tid, ud, (schedule_timer_ok env); cbn; rewrite <- ?Har; reflexivity.
Qed.

(** X15.  When the retry timer expires on an active record and the
    registration cannot be sent, here because pjsip gives no registration
    client, [autoReregTimerCb] counts the attempt and arms the timer
    again, 300 s later within 10 s; the account is left registering
    (TRYING, with the register flag set), not in an error state. *)
Theorem autoReregTimerCb_failed_attempt (env : Env) (a : SIPAccount) :
  active (auto_rereg_ a) = true ->
  isUsable a = true ->
  regc_create env = None ->
  0 <= attempt_cnt (auto_rereg_ a) < 2 ^ 32 - 1 ->
  draws_from delay10ZeroDist_ (rand_delay10Zero env) ->
  let r := autoReregTimerCb env a in
  result_of r = Done tt
  /\ auto_rereg_ (state_of r)
     = mk_AutoRereg true (schedule_timer_ok env) true (attempt_cnt (auto_rereg_ a) + 1)
  /\ registrationState_ (state_of r) = TRYING
  /\ bRegister_ (state_of r) = true
  /\ exists delay,
       List.filter is_schedule_timer (events_of r) = [EvScheduleTimer delay]
       /\ 290000 <= PJ_TIME_VAL_MSEC delay <= 310000.
Proof.
  intros Hactive Husable Hcreate Hcnt Hdraw r. subst r.
  unfold draws_from, delay10ZeroDist_ in Hdraw. cbn [dist_a dist_b] in Hdraw.
  set (a1 := set_auto_rereg_
               (set_attempt_cnt (attempt_cnt (auto_rereg_ a) + 1) (auto_rereg_ a)) a).
  assert (Hrun : autoReregTimerCb env a
                 = try_catch (sendRegister env)
                     (fun e => emit (EvJamiErr e) ;; scheduleReregistration env) a1).
  { unfold autoReregTimerCb.
    rewrite (bind_returns (gets auto_rereg_) _ a (auto_rereg_ a) eq_refl).
    change (state_of (gets auto_rereg_ a)) with a. rewrite Hactive. cbn [negb].
    rewrite Z.mod_small by lia.
    rewrite (bind_returns (update_auto_rereg _) _ a tt eq_refl).
    change (state_of (update_auto_rereg
                        (set_attempt_cnt (attempt_cnt (auto_rereg_ a) + 1)) a)) with a1.
    cbn [events_of gets update_auto_rereg modify snd app].
    unfold result_of, state_of, events_of.
    destruct (try_catch _ _ a1) as [[o s] t]. reflexivity. }
  rewrite Hrun.
  unfold try_catch. rewrite (sendRegister_no_regc env a1 Husable Hcreate).
  set (a2 := set_registrationState_ TRYING
               (set_registrationStateDetailed_ 0 (set_bRegister_ true a1))).
  cbv beta. unfold bind, emit. cbn [fst snd].
  rewrite (scheduleReregistration_run env a2 Husable).
  unfold result_of, state_of, events_of. cbn [fst snd app].
  repeat split.
  exists (reregistrationDelay 300 env).
  assert (Hint : retryInterval (attempt_cnt (auto_rereg_ a2)) = 300).
  { unfold retryInterval. cbn.
    destruct (Z.eqb_spec (attempt_cnt (auto_rereg_ a) + 1) 0); [lia | reflexivity]. }
  rewrite Hint. split.
  - cbn. destruct (timer_id (auto_rereg_ a)); reflexivity.
  - rewrite reregistrationDelay_msec. destruct (decide (300 >= 10)); lia.
Qed.

(** ** Unregistering *)

Ltac decide_hyps :=
  repeat match goal with
         | Hc : bool_decide _ = true |- _ => apply bool_decide_eq_true in Hc
         | Hc : bool_decide _ = false |- _ => apply bool_decide_eq_false in Hc
         end.

(** X16.  [doUnregister] releases the transport and the TLS listener
    and resets the retry record, without cancelling a timer; an account
    with a registrar is no longer flagged as registered, yet keeps its
    registration client until the response comes.  The registration state
    becomes UNREGISTERED, with the detail 0, exactly for an account with
    a registrar that was not flagged as registered; the state and the
    detail of any other account are left as they were. *)
Theorem doUnregister_releases (env : Env) (a : SIPAccount) :
  (isRegistered a = true -> transport_get a <> None) ->
  let r := doUnregister env None a in
  result_of r = Done tt
  /\ transport_ (state_of r) = None
  /\ tlsListener_ (state_of r) = None
  /\ auto_rereg_ (state_of r) = auto_rereg_reset a
  /\ regc_ (state_of r) = regc_ a
  /\ (isIP2IP a = false -> bRegister_ (state_of r) = false)
  /\ (isIP2IP a = false -> isRegistered a = false ->
      registrationState_ (state_of r) = UNREGISTERED)
  /\ List.filter is_cancel_timer (events_of r) = []
  /\ registrationState_ (state_of r)
     = (if negb (isIP2IP a) && negb (isRegistered a) then UNREGISTERED
        else registrationState_ a)
  /\ registrationStateDetailed_ (state_of r)
     = (if negb (isIP2IP a) && negb (isRegistered a) then 0
        else registrationStateDetailed_ a)
  /\ (isIP2IP a = true -> bRegister_ (state_of r) = bRegister_ a).
Proof.
  intros Htp r. subst r.
  unfold doUnregister, sendUnregister, selector_key_type, setTransport,
    resetAutoRegistration, try_catch, auto_rereg_reset, isRegistered, transport_get,
    isIP2IP in *.
  unfold_monad. cbn.
  destruct (String.eqb (hostname_ a) "") eqn:Hip; cbn;
    destruct (bRegister_ a) eqn:Hreg; cbn;
    destruct (transport_ a) as [t |] eqn:Ht; cbn;
    try specialize (Htp eq_refl); try contradiction;
    try (destruct (st_get t) as [tp |] eqn:Hget; [| contradiction]);
    repeat (case_cond; cbn; rewrite ?Ht, ?Hget; cbn);
    repeat split; intros; try discriminate; try reflexivity; try assumption;
    decide_hyps; rewrite ?Ht in *; cbn in *; congruence.
Qed.

Lemma doUnregister_without_registration (env : Env) (b : SIPAccount) :
  isIP2IP b = false ->
  isRegistered b = true ->
  regc_ b = None ->
  let r := doUnregister env None b in
  result_of r = Done tt
  /\ In (EvJamiErr "Registration structure is NULL") (events_of r)
  /\ List.filter (is_regc_send UNREGISTER) (events_of r) = []
  /\ registrationState_ (state_of r) = registrationState_ b.
Proof.
  intros Hip Hreg Hregc r. subst r.
  unfold doUnregister, sendUnregister, selector_key_type, setTransport,
    resetAutoRegistration, try_catch, isRegistered, isIP2IP in *.
  unfold_monad. cbn. repeat (progress (rewrite ?Hip, ?Hreg, ?Hregc; cbn)).
  repeat (case_cond; cbn); repeat split; auto.
Qed.

(** X17.  A registration that fails before it is sent, here because
    pjsip gives no registration client, leaves the account in the state
    ERROR_GENERIC with the register flag set and no registration client.
    [doUnregister] on that account takes the path of a registered
    account: it sends nothing, reports that the registration structure is
    null, and leaves the state at ERROR_GENERIC instead of UNREGISTERED. *)
Theorem unregister_after_failed_register (env env' : Env) (a : SIPAccount)
    (t : SipTransport) :
  isIP2IP a = false ->
  isUsable a = true ->
  tlsEnable_ a = false ->
  regc_ a = None ->
  IpAddr_bool (hostIp_ a) = true ->
  IpAddr_bool (bind_address env) = true ->
  getPort (bind_address env) <> 0 ->
  getUdpTransport env = Some t ->
  regc_create env = None ->
  let a' := state_of (doRegister2_ env a) in
  let r := doUnregister env' None a' in
  registrationState_ a' = ERROR_GENERIC
  /\ isRegistered a' = true
  /\ regc_ a' = None
  /\ result_of r = Done tt
  /\ In (EvJamiErr "Registration structure is NULL") (events_of r)
  /\ List.filter (is_regc_send UNREGISTER) (events_of r) = []
  /\ registrationState_ (state_of r) = ERROR_GENERIC.
Proof.
  intros Hip Husable Htls Hregc Hhost Hbind Hport Hudp Hcreate a'.
  apply Z.eqb_neq in Hport.
  assert (Ha' : registrationState_ a' = ERROR_GENERIC /\ isRegistered a' = true
                /\ regc_ a' = None /\ isIP2IP a' = false).
  { subst a'. unfold doRegister2_, createBindingAddress, try_catch. unfold_monad.
    cbn -[setTransport sendRegister].
    rewrite Hip, Hhost, Hport, Hbind, Htls, Hudp. cbn -[setTransport sendRegister].
    match goal with
    | |- context [setTransport env (Some t) ?s] => set (a1 := s)
    end.
    destruct (setTransport_returns env (Some t) a1) as [[] Hret].
    pose proof (setTransport_installs env t a1 eq_refl) as Hinst.
    pose proof (setTransport_usable env (Some t) a1) as Hus.
    assert (Hkeep : preserves (fun s => (regc_ s, isIP2IP s)) (setTransport env (Some t))).
    { unfold setTransport, initContactAddress, updateContactHeader,
        useUPnPAddressPortInVIA, usePublishedAddressPortInVIA.
      frame. }
    specialize (Hkeep a1). cbv beta in Hkeep.
    change (isUsable a1) with (isUsable a) in Hus. rewrite Husable in Hus.
    change (regc_ a1) with (regc_ a) in Hkeep. change (isIP2IP a1) with (isIP2IP a) in Hkeep.
    rewrite Hregc, Hip in Hkeep.
    unfold result_of, state_of in Hret, Hinst, Hus, Hkeep.
    destruct (setTransport env (Some t) a1) as [[o a2] evs].
    cbn [fst snd] in Hret, Hinst, Hus, Hkeep. subst o. rewrite Hinst.
    rewrite (sendRegister_no_regc env a2 Hus Hcreate). cbn.
    injection Hkeep as Hr Hi. repeat split; assumption. }
  destruct Ha' as (Hstate & Hreg & Hnone & Hip').
  destruct (doUnregister_without_registration env' a' Hip' Hreg Hnone)
    as (Hdone & Hin & Hsilent & Hkept).
  cbn zeta. rewrite Hkept. repeat split; assumption.
Qed.
(** ** The contact *)

Lemma printContactHeader_not_empty (username displayName address : string) (port : Z)
    (secure : bool) (deviceKey : string) :
  String.eqb (printContactHeader username displayName address port secure deviceKey) ""
  = false.
Proof.
  assert (Hlt : contains_char "<"
                  (printContactHeader username displayName address port secure deviceKey)
                = true).
  { unfold printContactHeader. cbv zeta. rewrite contains_char_app.
    rewrite (string_app_cons "<"). cbn [contains_char Ascii.eqb Bool.eqb orb].
    apply orb_true_r. }
  destruct (printContactHeader _ _ _ _ _ _); [discriminate | reflexivity].
Qed.

(** The address as [checkNATAddress] writes it in the header. *)
Lemma checkNATAddress_result (param : pjsip_regc_cbparam) (a : SIPAccount) :
  result_of (checkNATAddress param a)
  = Done (negb (observed_equals_contact a (p_rdata param))
          && negb (private_seen_from_public a (p_rdata param))
          && negb (IpAddr_eqb (current_contact a (p_rdata param))
                              (observed_sockaddr (p_rdata param))
                   && isPrivate (observed_sockaddr (p_rdata param)))).
Proof.
  unfold observed_equals_contact, private_seen_from_public, observed_parses,
    current_contact, observed_sockaddr, checkNATAddress.
  unfold_monad. cbn -[printContactHeader pj_stricmp_eq].
  rewrite !printContactHeader_not_empty.
  run_cases; reflexivity.
Qed.

Lemma checkNATAddress_contactAddress (param : pjsip_regc_cbparam) :
  preserves contactAddress_ (checkNATAddress param).
Proof. unfold checkNATAddress. frame. Qed.

(** X18.  [checkNATAddress] rewrites the contact exactly when the
    observed address differs from the contact, is not a private address
    seen from a public contact and server, and is not a private address
    equal to the contact as a socket address.  When the observed address
    parses, the last exception never applies: it asks for the equality
    that the first test excluded.  The header is built from the observed
    address and port and is never empty, so the error path is never
    taken; the contact address itself is left as it was. *)
Theorem checkNATAddress_rewrites (param : pjsip_regc_cbparam) (a : SIPAccount) :
  let rdata := p_rdata param in
  let rewritten :=
    negb (observed_equals_contact a rdata) && negb (private_seen_from_public a rdata) in
  let port_only :=
    IpAddr_eqb (current_contact a rdata) (observed_sockaddr rdata)
    && isPrivate (observed_sockaddr rdata) in
  let header :=
    printContactHeader (username_ a) (displayName_ a)
      (if IpAddr_isIpv6 (observed_via_addr rdata)
       then toString (IpAddr_of_string (observed_via_addr rdata)) false true
       else observed_via_addr rdata)
      (observed_rport rdata) (tp_secure (rd_transport rdata)) (deviceKey_ a) in
  let r := checkNATAddress param a in
  result_of r = Done (rewritten && negb port_only)
  /\ (observed_parses rdata = true -> rewritten && negb port_only = rewritten)
  /\ contactHeader_ (state_of r)
     = (if rewritten && negb port_only then header else contactHeader_ a)
  /\ List.filter is_update_contact (events_of r)
     = (if rewritten && negb port_only
        then match regc_ a with
             | Some regc => [EvRegcUpdateContact regc header]
             | None => []
             end
        else [])
  /\ List.filter is_jami_err (events_of r) = []
  /\ contactAddress_ (state_of r) = contactAddress_ a.
Proof.
  cbv zeta. split; [apply checkNATAddress_result |].
  split.
  { unfold observed_equals_contact. intros ->.
    destruct (IpAddr_eqb _ _); cbn; rewrite ?andb_true_r; reflexivity. }
  unfold observed_equals_contact, private_seen_from_public, observed_parses,
    current_contact, observed_sockaddr, checkNATAddress.
  unfold_monad. cbn -[printContactHeader pj_stricmp_eq].
  rewrite !printContactHeader_not_empty.
  run_cases; repeat split.
Qed.

(** X19.  [checkNATAddress] compares the observation with the contact
    address and rewrites the contact header only: the contact address
    keeps its value, so that the same observation in a later response
    gives the same answer, and a contact that was rewritten is rewritten
    again at every refresh. *)
Theorem checkNATAddress_again (param : pjsip_regc_cbparam) (a : SIPAccount) :
  result_of (checkNATAddress param a) = Done true ->
  let a' := state_of (checkNATAddress param a) in
  contactAddress_ a' = contactAddress_ a
  /\ result_of (checkNATAddress param a') = Done true
  /\ contactHeader_ (state_of (checkNATAddress param a')) = contactHeader_ a'.
Proof.
  intros Hfirst a'.
  assert (Haddr : contactAddress_ a' = contactAddress_ a)
    by apply checkNATAddress_contactAddress.
  assert (Hsame : result_of (checkNATAddress param a') = Done true).
  { rewrite checkNATAddress_result in *.
    unfold observed_equals_contact, private_seen_from_public, current_contact in *.
    rewrite Haddr. exact Hfirst. }
  split; [exact Haddr |]. split; [exact Hsame |].
  assert (Hheader : forall b,
             result_of (checkNATAddress param b) = Done true ->
             contactHeader_ (state_of (checkNATAddress param b))
             = printContactHeader (username_ b) (displayName_ b)
                 (if IpAddr_isIpv6 (observed_via_addr (p_rdata param))
                  then toString (IpAddr_of_string (observed_via_addr (p_rdata param)))
                                false true
                  else observed_via_addr (p_rdata param))
                 (observed_rport (p_rdata param))
                 (tp_secure (rd_transport (p_rdata param))) (deviceKey_ b)).
  { intros b. unfold checkNATAddress. unfold_monad.
    cbn -[printContactHeader pj_stricmp_eq].
    run_cases; intros; try discriminate; reflexivity. }
  rewrite (Hheader a' Hsame). fold a'. subst a'. rewrite (Hheader a Hfirst).
  assert (Hkeep : preserves (fun s => (username_ s, displayName_ s, deviceKey_ s))
                            (checkNATAddress param))
    by (unfold checkNATAddress; frame).
  specialize (Hkeep a). cbv beta in Hkeep. injection Hkeep as -> -> ->. reflexivity.
Qed.

(** X20.  [setTransport] with a transport other than the current one
    installs it and asks for the contact again.  When the transport holds
    a pjsip transport, the contact address is computed and the header
    written from it: the header is the printed form of the new contact
    address when that address is valid, and the header of before when it
    is not, and nothing is reported in either case.  When the transport
    holds no pjsip transport, "Transport not created yet" is reported
    once and the contact address and the header are left as they were. *)
Theorem setTransport_contact (env : Env) (t : SipTransport) (a : SIPAccount) :
  st_ptr <$> Some t <> st_ptr <$> transport_ a ->
  let r := setTransport env (Some t) a in
  result_of r = Done tt
  /\ transport_ (state_of r) = Some t
  /\ match st_get t with
     | Some tp =>
         contactHeader_ (state_of r)
         = (if IpAddr_bool (contactAddress_ (state_of r))
            then printContactHeader (username_ a) (displayName_ a)
                   (toString (contactAddress_ (state_of r)) false true)
                   (getPort (contactAddress_ (state_of r))) (tp_secure tp) (deviceKey_ a)
            else contactHeader_ a)
         /\ List.filter is_jami_err (events_of r) = []
     | None =>
         contactHeader_ (state_of r) = contactHeader_ a
         /\ contactAddress_ (state_of r) = contactAddress_ a
         /\ List.filter is_jami_err (events_of r)
            = [EvJamiErr "Transport not created yet"]
     end.
Proof.
  intros Hother r. subst r.
  unfold setTransport, initContactAddress, updateContactHeader, useUPnPAddressPortInVIA,
    usePublishedAddressPortInVIA, transport_get.
  unfold_monad. cbn -[printContactHeader].
  rewrite bool_decide_false by exact Hother. cbn -[printContactHeader].
  destruct (st_get t) as [tp |] eqn:Hget.
  - repeat (case_cond; cbn -[printContactHeader]; rewrite ?Hget; cbn -[printContactHeader]);
      repeat match goal with
             | Hc : IpAddr_bool _ = _ |- _ => rewrite Hc
             end;
      repeat split; try reflexivity; cbn in *; congruence.
  - repeat (case_cond; cbn -[printContactHeader]; rewrite ?Hget; cbn -[printContactHeader]);
      repeat split; try reflexivity; cbn in *; congruence.
Qed.

(** X21.  When the transport of the account goes down,
    [onTransportStateChanged] puts the account in the state ERROR_GENERIC
    with the detail 503 and drops the transport; the status kept is that
    of the state info, 503 without one.  It schedules no retry and leaves
    the register flag and the registration client as they were.  The
    client is notified exactly when the status kept has changed. *)
Theorem onTransportStateChanged_down (env : Env) (info : option pj_status_t)
    (transportStatus_ : pj_status_t) (a : SIPAccount) :
  let r := onTransportStateChanged env false info transportStatus_ a in
  let status := default PJSIP_SC_SERVICE_UNAVAILABLE info in
  result_of r = Done (status, negb (transportStatus_ =? status))
  /\ registrationState_ (state_of r) = ERROR_GENERIC
  /\ registrationStateDetailed_ (state_of r) = 503
  /\ transport_ (state_of r) = None
  /\ bRegister_ (state_of r) = bRegister_ a
  /\ regc_ (state_of r) = regc_ a
  /\ auto_rereg_ (state_of r) = auto_rereg_ a
  /\ List.filter is_schedule_timer (events_of r) = [].
Proof.
  cbv zeta. unfold onTransportStateChanged, setTransport.
  unfold_monad. cbn.
  destruct info as [status |]; cbn;
    repeat (case_cond; cbn); repeat split; try reflexivity;
    decide_hyps; cbn in *;
    repeat match goal with
           | Hc : None = st_ptr <$> ?x |- _ => destruct x; try discriminate
           end; try congruence.
Qed.
(** ** Credentials *)

(** X22.  [getCredentials] gives back what [setCredentials] stored:
    for each map its realm, user name and password, the password in clear
    whether or not its digest is kept; a list of maps that hold these
    three keys only comes back unchanged. *)
Theorem getCredentials_setCredentials (env : Env) (creds : list (gmap string string))
    (a : SIPAccount) :
  creds <> [] ->
  let a' := state_of (setCredentials env creds a) in
  getCredentials a'
  = map (fun c => credentialMap (default "" (c !! CONFIG_ACCOUNT_REALM))
                                (default "" (c !! CONFIG_ACCOUNT_USERNAME))
                                (default "" (c !! CONFIG_ACCOUNT_PASSWORD))) creds
  /\ (Forall (fun c => exists r u p, c = credentialMap r u p) creds ->
      getCredentials a' = creds).
Proof.
  intros Hne a'.
  assert (Hget : getCredentials a'
                 = map (fun c => credentialMap (default "" (c !! CONFIG_ACCOUNT_REALM))
                                   (default "" (c !! CONFIG_ACCOUNT_USERNAME))
                                   (default "" (c !! CONFIG_ACCOUNT_PASSWORD))) creds).
  { subst a'. unfold getCredentials.
    destruct (setCredentials_state env creds a Hne) as [-> _].
    rewrite map_map. apply map_ext. intros c.
    unfold storedCredential. destruct (md5HashingEnabled env); reflexivity. }
  split; [exact Hget |]. intros Hshape. rewrite Hget.
  clear Hget Hne a'. induction Hshape as [| c rest (r & u & p & ->) _ IH]; [reflexivity |].
  cbn [map]. rewrite IH. cbv beta.
  replace (credentialMap r u p !! CONFIG_ACCOUNT_REALM) with (Some r)
    by (unfold credentialMap; rewrite lookup_insert_eq; reflexivity).
  replace (credentialMap r u p !! CONFIG_ACCOUNT_USERNAME) with (Some u)
    by (unfold credentialMap;
        rewrite lookup_insert_ne, lookup_insert_eq by discriminate; reflexivity).
  replace (credentialMap r u p !! CONFIG_ACCOUNT_PASSWORD) with (Some p)
    by (unfold credentialMap;
        rewrite !lookup_insert_ne, lookup_insert_eq by discriminate; reflexivity).
  reflexivity.
Qed.

(** ** Messages *)

Lemma deliver_shape (rs : list (Z * AuthEnv)) (c : ctx) (tdata : pjsip_tx_data) :
  exists calls report,
    deliver rs c tdata = calls ++ report
    /\ List.filter is_message_sent calls = []
    /\ (report = [] \/ exists ok, report = [EvMessageSent (ctx_to c) (ctx_id c) ok]).
Proof.
  revert tdata. induction rs as [| [code env] rest IH]; intros tdata.
  - exists [], []. repeat split. left. reflexivity.
  - cbn [deliver]. unfold onComplete. cbn [tsx_status_code tsx_last_tx].
    destruct (ctx_acc c); cbn [negb].
    2: { exists [], []. repeat split. left. reflexivity. }
    destruct ((code =? PJSIP_SC_UNAUTHORIZED)
              || (code =? PJSIP_SC_PROXY_AUTHENTICATION_REQUIRED)).
    + destruct (auth_reinit_ok env).
      * destruct (send_request_ok env); cbn [fst snd].
        -- match goal with
           | |- context [deliver rest c ?td] => destruct (IH td) as (calls & report & -> & Hs & Hr)
           end.
           eexists (_ :: calls), report. cbn [app List.filter is_message_sent].
           repeat split; assumption.
        -- eexists [_], [_]. cbn. repeat split. right. eexists. reflexivity.
      * cbn [fst snd]. eexists [_], [_]. cbn. repeat split. right. eexists. reflexivity.
    + cbn [fst snd]. exists [], [EvMessageSent (ctx_to c) (ctx_id c)
                                  ((code =? PJSIP_SC_OK) || (code =? PJSIP_SC_ACCEPTED))].
      repeat split. right. eexists. reflexivity.
Qed.

(** X23.  Whatever responses come for a request, [onComplete] reports
    the message at most once, for the recipient and the id of the token,
    and does nothing after the report: what precedes the report holds no
    report. *)
Theorem deliver_reports_once (rs : list (Z * AuthEnv)) (c : ctx) (tdata : pjsip_tx_data) :
  (exists calls report,
      deliver rs c tdata = calls ++ report
      /\ List.filter is_message_sent calls = []
      /\ (report = [] \/ exists ok, report = [EvMessageSent (ctx_to c) (ctx_id c) ok]))
  /\ (length (List.filter is_message_sent (deliver rs c tdata)) <= 1)%nat
  /\ (ctx_acc c = false -> deliver rs c tdata = []).
Proof.
  destruct (deliver_shape rs c tdata) as (calls & report & Hd & Hs & Hr).
  split; [exists calls, report; auto |]. split.
  - rewrite Hd, List.filter_app, Hs. destruct Hr as [-> | [ok ->]]; cbn; lia.
  - intros Hdead. destruct rs as [| [code env] rest]; [reflexivity |].
    cbn [deliver]. unfold onComplete. rewrite Hdead. reflexivity.
Qed.

Lemma sendMessage_run (env : MsgEnv) (to : string) (payloads : gmap string string)
    (id : Z) (a : SIPAccount) (c : pjsip_cred_info) (rest : list pjsip_cred_info) :
  cred_ a = c :: rest ->
  let sent := negb (String.eqb to "") && negb (bool_decide (payloads = ∅))
              && message_accepted env in
  let r := sendMessage env to payloads id a in
  result_of r
  = Done (if sent
          then match create_request env with
               | Some tdata => Some (mk_ctx true to id, tdata)
               | None => None
               end
          else None)
  /\ List.filter is_message_sent (events_of r)
     = (if sent then [] else [EvMessageSent to id false])
  /\ (sent = true -> exists tdata, create_request env = Some tdata
                                   /\ In (EvSendRequest tdata) (events_of r))
  /\ credentials_ (state_of r) = credentials_ a
  /\ (cred_ (state_of r) = cred_ a
      \/ cred_ (state_of r)
         = mk_cred_info (hostname_ a) (ci_scheme c) (ci_username c) (ci_data_type c)
                        (ci_data c) :: rest).
Proof.
  intros Hcred. cbv zeta. unfold sendMessage, setFirstRealm, message_accepted.
  destruct (String.eqb to ""); cbn [negb andb orb];
    [unfold_monad; cbn; repeat split; try discriminate; auto |].
  destruct (bool_decide (payloads = ∅)); cbn [negb andb orb];
    [unfold_monad; cbn; repeat split; try discriminate; auto |].
  destruct (create_request env) as [tdata |].
  2: { rewrite bool_decide_false by (intros Hc; apply Hc; reflexivity).
       unfold_monad; cbn; repeat split; try discriminate; auto. }
  rewrite bool_decide_true by discriminate.
  unfold_monad. cbn. rewrite Hcred. cbn.
  destruct (auth_clt_init_ok env), (auth_clt_set_credentials_ok env),
    (tx_data_set_transport_ok env), (endpt_send_request_ok env); cbn;
    repeat split; try discriminate; eauto.
Qed.


(** X25.  A message is reported at most once, whatever pjsip answers
    when it is sent and whatever responses come afterwards, and every
    report is for the recipient and the id that were given. *)
Theorem message_reported_at_most_once (env : MsgEnv) (rs : list (Z * AuthEnv))
    (to : string) (payloads : gmap string string) (id : Z) (a : SIPAccount) :
  cred_ a <> [] ->
  let reports := List.filter is_message_sent (message_events env rs to payloads id a) in
  (length reports <= 1)%nat
  /\ forall e, In e reports -> exists ok, e = EvMessageSent to id ok.
Proof.
  intros Hcred. destruct (cred_ a) as [| c rest] eqn:Hc; [contradiction |].
  destruct (sendMessage_run env to payloads id a c rest Hc) as (Hres & Hev & _).
  cbv zeta in *. unfold message_events. rewrite List.filter_app, Hres, Hev.
  destruct (negb (String.eqb to "") && negb (bool_decide (payloads = ∅))
            && message_accepted env).
  - cbn [app]. destruct (create_request env) as [tdata |]; [| cbn; split; [lia | tauto]].
    destruct (deliver_shape rs (mk_ctx true to id) tdata) as (calls & report & -> & Hs & Hr).
    rewrite List.filter_app, Hs. cbn [app ctx_to ctx_id] in *.
    destruct Hr as [-> | [ok ->]]; cbn; (split; [lia |]).
    + tauto.
    + intros e [<- | []]. eauto.
  - cbn. split; [lia |]. intros e [<- | []]. eauto.
Qed.

(** X26.  [sendMessage] writes the host name of the account over the
    realm of the first authentication record, through the pointer that
    [getCredInfo] gives, as soon as the request is created: after it the
    record that pjsip uses no longer carries the realm that
    [setCredentials] stored and that [getCredentials] still reports. *)
Theorem sendMessage_rewrites_realm (env : Env) (msg : MsgEnv)
    (creds : list (gmap string string)) (to : string) (payloads : gmap string string)
    (id : Z) (tdata : pjsip_tx_data) (a : SIPAccount) :
  creds <> [] ->
  to <> "" ->
  payloads <> ∅ ->
  create_request msg = Some tdata ->
  let a1 := state_of (setCredentials env creds a) in
  let a2 := state_of (sendMessage msg to payloads id a1) in
  cred_ a1 = map cred_info_of (credentials_ a1)
  /\ getCredentials a2 = getCredentials a1
  /\ exists c rest,
       cred_ a1 = c :: rest
       /\ cred_ a2 = mk_cred_info (hostname_ a) (ci_scheme c) (ci_username c)
                                  (ci_data_type c) (ci_data c) :: rest.
Proof.
  intros Hne Hto Hpayloads Hcreate a1 a2.
  destruct (setCredentials_state env creds a Hne) as [Hentries Hrecords].
  fold a1 in Hentries, Hrecords.
  assert (Hhost : hostname_ a1 = hostname_ a).
  { subst a1. destruct creds as [| cred more]; [contradiction |].
    unfold setCredentials.
    assert (Hkeep : forall md5 l, preserves hostname_ (addCredentials md5 l)).
    { intros md5 l. induction l as [| x l IH]; cbn [addCredentials]; [frame |].
      unfold addCredential. frame. }
    pose proof (Hkeep (md5HashingEnabled env) (cred :: more)).
    match goal with
    | |- hostname_ (state_of (?m a)) = _ =>
        enough (Hp : preserves hostname_ m) by apply Hp
    end.
    frame. }
  split; [rewrite Hentries, Hrecords, map_map; reflexivity |].
  destruct (cred_ a1) as [| c rest] eqn:Hc.
  { rewrite Hrecords in Hc. destruct creds; [contradiction | discriminate]. }
  assert (Hrun : credentials_ a2 = credentials_ a1
                 /\ cred_ a2 = mk_cred_info (hostname_ a1) (ci_scheme c) (ci_username c)
                                            (ci_data_type c) (ci_data c) :: rest).
  { subst a2. unfold sendMessage, setFirstRealm.
    destruct (String.eqb_spec to "") as [? | _]; [contradiction |].
    rewrite bool_decide_false by assumption. rewrite Hcreate.
    unfold_monad. cbn. rewrite Hc. cbn.
    destruct (auth_clt_init_ok msg), (auth_clt_set_credentials_ok msg),
      (tx_data_set_transport_ok msg), (endpt_send_request_ok msg); cbn;
      split; reflexivity. }
  destruct Hrun as [Hkeep Hrealm]. split.
  - unfold getCredentials. rewrite Hkeep. reflexivity.
  - exists c, rest. rewrite <- Hhost. split; [reflexivity | exact Hrealm].
Qed.
(** ** Registering again *)

Lemma bind_assoc {A B C} (m : M A) (k : A -> M B) (h : B -> M C) (a : SIPAccount) :
  bind (bind m k) h a = bind m (fun x => bind (k x) h) a.
Proof.
  unfold bind. destruct (m a) as [[[x | e |] s1] t1]; try reflexivity.
  destruct (k x s1) as [[[y | e |] s2] t2]; try reflexivity.
  destruct (h y s2) as [[r s3] t3]. rewrite app_assoc. reflexivity.
Qed.

Lemma bind_ext {A B} (m : M A) (f g : A -> M B) (a : SIPAccount) :
  (forall x s, f x s = g x s) -> bind m f a = bind m g a.
Proof.
  intros Hfg. unfold bind. destruct (m a) as [[[x | e |] s1] t1]; try reflexivity.
  rewrite Hfg. reflexivity.
Qed.

Lemma bind_ret_l {A B} (x : A) (k : A -> M B) (a : SIPAccount) : bind (ret x) k a = k x a.
Proof. unfold bind, ret. destruct (k x a) as [[r s] t]. reflexivity. Qed.

(** The callback runs after what [doUnregister] does without one. *)
Lemma doUnregister_then (env : Env) (cb : bool -> M unit) (a : SIPAccount) :
  doUnregister env (Some cb) a
  = bind (doUnregister env None) (fun _ => ip2ip <- gets isIP2IP ;; cb (negb ip2ip)) a.
Proof.
  unfold doUnregister.
  repeat (rewrite bind_assoc; apply bind_ext; intros ? ?).
  rewrite bind_ret_l. reflexivity.
Qed.

Lemma doUnregister_keeps_configuration (env : Env) :
  preserves (fun s => (isUsable s, isIP2IP s, tlsEnable_ s, upnpCtrl_ s))
            (doUnregister env None).
Proof.
  unfold doUnregister, sendUnregister, selector_key_type, setTransport,
    resetAutoRegistration, initContactAddress, updateContactHeader,
    useUPnPAddressPortInVIA, usePublishedAddressPortInVIA.
  frame.
Qed.

(** X27.  When the connectivity changes, a usable account that is
    registered unregisters and registers again: [connectivityChanged]
    sends the unREGISTER of the current registration and then, from the
    callback of [doUnregister], the REGISTER of a new one, when the
    registrar resolves and pjsip accepts every call. *)
Theorem connectivityChanged_registers_again (env env' : Env) (a : SIPAccount)
    (regc regc' : pjsip_regc) (tp tp' : pjsip_transport) (t : SipTransport)
    (ip : IpAddr) (ips : list IpAddr) :
  isUsable a = true ->
  isIP2IP a = false ->
  tlsEnable_ a = false ->
  upnpCtrl_ a = false ->
  isRegistered a = true ->
  regc_ a = Some regc ->
  transport_get a = Some tp ->
  pjsip_accepts env ->
  host_ips env' = ip :: ips ->
  IpAddr_bool ip = true ->
  IpAddr_bool (bind_address env') = true ->
  getPort (bind_address env') <> 0 ->
  getUdpTransport env' = Some t ->
  st_get t = Some tp' ->
  regc_create env' = Some regc' ->
  pjsip_accepts env' ->
  exists before between after contact,
    events_of (connectivityChanged env env' a)
    = before ++ EvRegcSend regc UNREGISTER (contactHeader_ a)
      :: between ++ EvRegcSend regc' REGISTER contact :: after.
Proof.
  intros Husable Hip Htls Hupnp Hreg Hregc Htp Haccepts Hips Hipb Hbind Hport Hudp Hget
    Hcreate Haccepts'.
  assert (Hun : In (EvRegcSend regc UNREGISTER (contactHeader_ a))
                   (events_of (doUnregister env None a)))
    by (apply doUnregister_unregisters with (tp := tp); assumption).
  assert (Hdone : result_of (doUnregister env None a) = Done tt).
  { assert (Hpre : isRegistered a = true -> transport_get a <> None)
      by (intros _; rewrite Htp; discriminate).
    clear - Hpre.
    unfold doUnregister, sendUnregister, selector_key_type, setTransport,
      resetAutoRegistration, try_catch, isRegistered, transport_get, isIP2IP in *.
    unfold_monad. cbn.
    destruct (String.eqb (hostname_ a) "") eqn:Hip; cbn;
      destruct (bRegister_ a) eqn:Hreg; cbn;
      destruct (transport_ a) as [t |] eqn:Ht; cbn;
      try specialize (Hpre eq_refl); try contradiction;
      try (destruct (st_get t) as [tp |] eqn:Hget; [| contradiction]);
      repeat (case_cond; cbn; rewrite ?Ht, ?Hget; cbn); reflexivity. }
  pose proof (doUnregister_keeps_configuration env a) as Hkeep. cbv beta in Hkeep.
  rewrite Husable, Hip, Htls, Hupnp in Hkeep.
  set (a1 := state_of (doUnregister env None a)) in *.
  injection Hkeep as Hus1 Hip1 Htls1 Hupnp1.
  destruct (doRegister1__registers env' a1 ip ips t tp' regc' Hip1 Hus1 Htls1 Hips Hipb
              Hbind Hport Hudp Hget Hcreate Haccepts') as [contact Hin].
  assert (Hrun : events_of (connectivityChanged env env' a)
                 = events_of (doUnregister env None a) ++ events_of (doRegister1_ env' a1)).
  { unfold connectivityChanged.
    rewrite (bind_events (gets isUsable) _ a (isUsable a) eq_refl).
    change (state_of (gets isUsable a)) with a. rewrite Husable.
    cbn [negb events_of gets snd app].
    change ((doUnregister env
               (Some (fun _ : bool => usable <- gets isUsable ;; when usable (doRegister env')))
               a).2)
      with (events_of (doUnregister env
               (Some (fun _ : bool => usable <- gets isUsable ;; when usable (doRegister env')))
               a)).
    rewrite doUnregister_then.
    rewrite (bind_events _ _ a tt Hdone). fold a1. f_equal.
    rewrite (bind_events (gets isIP2IP) _ a1 (isIP2IP a1) eq_refl).
    change (state_of (gets isIP2IP a1)) with a1.
    rewrite (bind_events (gets isUsable) _ a1 (isUsable a1) eq_refl).
    change (state_of (gets isUsable a1)) with a1. rewrite Hus1.
    cbn [events_of gets snd app when].
    unfold doRegister.
    change ((bind (gets isUsable) _ a1).2)
      with (events_of (bind (gets isUsable)
              (fun usable =>
                 if negb usable then ret tt
                 else ctrl <- gets upnpCtrl_ ;;
                      if ctrl
                      then setRegistrationState TRYING 0 ;;
                           ok <- mapPortUPnP env' ;;
                           if negb ok then doRegister1_ env' else ret tt
                      else doRegister1_ env') a1)).
    rewrite (bind_events (gets isUsable) _ a1 (isUsable a1) eq_refl).
    change (state_of (gets isUsable a1)) with a1. rewrite Hus1. cbn [negb].
    rewrite (bind_events (gets upnpCtrl_) _ a1 (upnpCtrl_ a1) eq_refl).
    change (state_of (gets upnpCtrl_ a1)) with a1. rewrite Hupnp1. reflexivity. }
  apply in_split in Hun as (before & between & Hun).
  apply in_split in Hin as (between' & after & Hin).
  exists before, (between ++ between'), after, contact.
  rewrite Hrun, Hun, Hin. rewrite <- !app_assoc. cbn [app]. rewrite <- ?app_assoc.
  reflexivity.
Qed.
(** ** Sending the registration *)

(** X28.  [sendRegister] on a usable account with a transport, when
    pjsip accepts every call, sends one REGISTER with the contact header
    and the authentication records of the account, and only then takes
    the new registration client as that of the account, destroying the
    one it had; the account is registering (TRYING). *)
Theorem sendRegister_registers (env : Env) (a : SIPAccount) (regc : pjsip_regc)
    (tp : pjsip_transport) :
  isUsable a = true ->
  transport_get a = Some tp ->
  regc_create env = Some regc ->
  pjsip_accepts env ->
  let r := sendRegister env a in
  result_of r = Done tt
  /\ regc_ (state_of r) = Some regc
  /\ bRegister_ (state_of r) = true
  /\ registrationState_ (state_of r) = TRYING
  /\ List.filter (is_regc_send REGISTER) (events_of r)
     = [EvRegcSend regc REGISTER (contactHeader_ a)]
  /\ In (EvRegcSetCredentials regc (cred_ a)) (events_of r)
  /\ List.filter is_regc_destroy (events_of r)
     = match regc_ a with
       | Some old => [EvRegcDestroy old]
       | None => []
       end.
Proof.
  intros Husable Htp Hcreate (Hvia & Hinit & Hreg & _ & Hset & Hsend) r. subst r.
  unfold transport_get in Htp.
  destruct (transport_ a) as [t |] eqn:Ht; [| discriminate].
  unfold sendRegister, selector_key_type, setRegistrationInfo, destroyRegistrationInfo,
    transport_get.
  unfold_monad. rewrite Husable, Hcreate, Hvia, Hinit, Hreg, Hset, Hsend.
  cbn. rewrite Ht. cbn.
  repeat (case_cond; cbn; rewrite ?Ht, ?Htp; cbn);
    repeat split; try reflexivity; cbn; auto 10; decide_hyps;
    try congruence; exfalso; auto.
Qed.

(** X29.  When [sendRegister] throws after pjsip gave a registration
    client, that client is neither kept nor destroyed: the account keeps
    the client it had, and stays flagged as registering (TRYING, register
    flag set). *)
Theorem sendRegister_failure (env : Env) (a : SIPAccount) (regc : pjsip_regc)
    (e : VoipLinkException) :
  isUsable a = true ->
  regc_create env = Some regc ->
  result_of (sendRegister env a) = Thrown e ->
  let r := sendRegister env a in
  In (EvRegcCreate regc) (events_of r)
  /\ List.filter is_regc_destroy (events_of r) = []
  /\ regc_ (state_of r) = regc_ a
  /\ bRegister_ (state_of r) = true
  /\ registrationState_ (state_of r) = TRYING.
Proof.
  intros Husable Hcreate. cbv zeta.
  unfold sendRegister, selector_key_type, setRegistrationInfo, destroyRegistrationInfo,
    transport_get.
  unfold_monad. rewrite Husable, Hcreate. cbn.
  repeat (case_cond; cbn);
    intros Hthrown; try discriminate; repeat split; cbn; auto 10.
Qed.

(** ** The push token *)

Lemma sendRegister_deviceKey (env : Env) : preserves deviceKey_ (sendRegister env).
Proof.
  unfold sendRegister, selector_key_type, setRegistrationInfo, destroyRegistrationInfo.
  frame.
Qed.

Lemma setTransport_deviceKey (env : Env) (t : option SipTransport) :
  preserves deviceKey_ (setTransport env t).
Proof.
  unfold setTransport, initContactAddress, updateContactHeader, useUPnPAddressPortInVIA,
    usePublishedAddressPortInVIA.
  frame.
Qed.

Lemma doRegister_deviceKey (env : Env) : preserves deviceKey_ (doRegister env).
Proof.
  pose proof (sendRegister_deviceKey env). pose proof (setTransport_deviceKey env).
  unfold doRegister, doRegister1_, doRegister2_, mapPortUPnP, createBindingAddress.
  frame.
Qed.

Lemma doUnregister_deviceKey (env : Env) (cb : bool -> M unit) :
  (forall b, preserves deviceKey_ (cb b)) ->
  preserves deviceKey_ (doUnregister env (Some cb)).
Proof.
  intros Hcb. pose proof (setTransport_deviceKey env).
  unfold doUnregister, sendUnregister, selector_key_type, resetAutoRegistration.
  frame.
Qed.

(** X30.  [setPushNotificationToken] leaves the account with the token
    it was given as device key, whatever happens while the account
    registers again; with the token that the account has already it does
    nothing, and on a disabled account it makes no call. *)
Theorem setPushNotificationToken_stores (env env' : Env) (token : string)
    (a : SIPAccount) :
  let r := setPushNotificationToken env env' token a in
  deviceKey_ (state_of r) = token
  /\ (deviceKey_ a = token -> r = (Done tt, a, []))
  /\ (enabled_ a = false -> events_of r = []).
Proof.
  assert (Hrun : setPushNotificationToken env env' token a
                 = if String.eqb (deviceKey_ a) token then (Done tt, a, [])
                   else when (enabled_ a)
                             (doUnregister env (Some (fun _ => doRegister env')))
                             (set_deviceKey_ token a)).
  { unfold setPushNotificationToken. unfold bind at 1, gets at 1. cbn [fst snd].
    cbv beta. unfold id. destruct (String.eqb (deviceKey_ a) token); [reflexivity |].
    unfold bind at 1, modify at 1. cbn [fst snd].
    destruct (when (enabled_ a) _ (set_deviceKey_ token a)) as [[o s] t]. reflexivity. }
  cbv zeta. rewrite Hrun. clear Hrun.
  destruct (String.eqb_spec (deviceKey_ a) token) as [Hsame | Hnew].
  - repeat split; auto.
  - assert (Hkey : preserves deviceKey_
                     (when (enabled_ a)
                           (doUnregister env (Some (fun _ => doRegister env'))))).
    { destruct (enabled_ a); cbn [when]; [| apply preserves_ret].
      apply doUnregister_deviceKey. intros _. apply doRegister_deviceKey. }
    split; [apply Hkey |]. split; [contradiction |].
    intros ->. reflexivity.
Qed.

End Properties.

(** * The properties on the concrete account *)

#[local] Existing Instance IPv4.ops.
#[local] Existing Instance Sample.platform.

Lemma scheduleReregistration_delay_within_jitter_witness :
  isUsable Sample.account = true
  /\ draws_from delay10ZeroDist_ (rand_delay10Zero Sample.env)
  /\ draws_from delay10PosDist_ (rand_delay10Pos Sample.env)
  /\ exists delay,
       List.filter is_schedule_timer
         (events_of (scheduleReregistration Sample.env Sample.account))
       = [EvScheduleTimer delay]
       /\ 50000 <= PJ_TIME_VAL_MSEC delay <= 70000.
Proof.
  assert (Husable : isUsable Sample.account = true) by reflexivity.
  assert (Hzero : draws_from delay10ZeroDist_ (rand_delay10Zero Sample.env))
    by (unfold draws_from; cbn; lia).
  assert (Hpos : draws_from delay10PosDist_ (rand_delay10Pos Sample.env))
    by (unfold draws_from; cbn; lia).
  split; [exact Husable |]. split; [exact Hzero |]. split; [exact Hpos |].
  destruct (scheduleReregistration_delay_within_jitter
              Sample.env Sample.account Husable Hzero Hpos)
    as (_ & (delay & Hevents & Hmsec & _) & _).
  exists delay. split; [exact Hevents | exact Hmsec].
Defined.

Example first_retry_after_62_seconds :
  events_of (scheduleReregistration Sample.env Sample.account)
  = [EvScheduleTimer (mk_time_val 62 500)].
Proof. vm_compute. reflexivity. Qed.

Lemma onRegister_schedules_retry_iff_witness :
  let param := Sample.response PJ_SUCCESS 503 (Sample.via "203.0.113.5" 5060)
                               "198.51.100.7" in
  isUsable Sample.account = true
  /\ p_regc param = regc_ Sample.account
  /\ schedules_retry (events_of (onRegister Sample.env param Sample.account)).
Proof.
  cbv zeta. split; [reflexivity |]. split; [reflexivity |].
  apply (onRegister_schedules_retry_iff Sample.env
           (Sample.response PJ_SUCCESS 503 (Sample.via "203.0.113.5" 5060) "198.51.100.7")
           Sample.account eq_refl eq_refl).
  reflexivity.
Defined.

Example forbidden_is_not_retried :
  List.filter is_schedule_timer
    (events_of (onRegister Sample.env
                  (Sample.response PJ_SUCCESS 403 (Sample.via "203.0.113.5" 5060)
                                   "198.51.100.7")
                  Sample.account))
  = [].
Proof. vm_compute. reflexivity. Qed.

Lemma onRegister_failure_state_witness :
  let param := Sample.response PJ_SUCCESS 403 (Sample.via "203.0.113.5" 5060)
                               "198.51.100.7" in
  p_regc param = regc_ Sample.account
  /\ 300 <= p_code param
  /\ regc_ (state_of (onRegister Sample.env param Sample.account)) = None
  /\ registrationState_ (state_of (onRegister Sample.env param Sample.account))
     = ERROR_AUTH.
Proof.
  cbv zeta. split; [reflexivity |]. split; [cbn; lia |].
  destruct (onRegister_failure_state Sample.env
              (Sample.response PJ_SUCCESS 403 (Sample.via "203.0.113.5" 5060)
                               "198.51.100.7")
              Sample.account eq_refl)
    as (Hnone & _ & _ & Hstate).
  - right. right. cbn. lia.
  - split; [exact Hnone | exact Hstate].
Defined.

(** A registration that pjsip reports as failed with the code 403 leaves
    the state [ERROR_GENERIC], not the [ERROR_AUTH] of the code. *)
Lemma failed_status_ignores_code_403 :
  let param := Sample.response Sample.PJSIP_EFAILEDCREDENTIAL 403
                               (Sample.via "203.0.113.5" 5060) "198.51.100.7" in
  p_regc param = regc_ Sample.account
  /\ p_status param <> PJ_SUCCESS
  /\ registrationState_ (state_of (onRegister Sample.env param Sample.account))
     = ERROR_GENERIC
  /\ registrationState_ (state_of (onRegister Sample.env param Sample.account))
     <> registration_error_state (p_code param).
Proof.
  cbv zeta. split; [reflexivity |]. split; [discriminate |].
  split; [vm_compute; reflexivity | vm_compute; discriminate].
Qed.

Lemma doRegister_unresolved_host_witness :
  isIP2IP Sample.account = false
  /\ host_ips Sample.env_unresolved = []
  /\ registrationState_ (state_of (doRegister1_ Sample.env_unresolved Sample.account))
     = ERROR_GENERIC
  /\ registrationStateDetailed_
       (state_of (doRegister1_ Sample.env_unresolved Sample.account)) = 404.
Proof.
  split; [reflexivity |]. split; [reflexivity |].
  destruct (doRegister_unresolved_host
              Sample.env_unresolved Sample.account eq_refl eq_refl)
    as ((_ & Hstate & Hdetail & _) & _).
  split; [exact Hstate | exact Hdetail].
Defined.

(** A registrar that does not resolve leaves the state [ERROR_GENERIC],
    not [ERROR_HOST]. *)
Lemma unresolved_host_leaves_error_generic :
  isIP2IP Sample.account = false
  /\ isUsable Sample.account = true
  /\ host_ips Sample.env_unresolved = []
  /\ registrationState_
       (state_of (doRegister Sample.env_unresolved Sample.account))
     = ERROR_GENERIC
  /\ registrationState_
       (state_of (doRegister Sample.env_unresolved Sample.account))
     <> ERROR_HOST.
Proof.
  split; [reflexivity |]. split; [reflexivity |]. split; [reflexivity |].
  split; [vm_compute; reflexivity | vm_compute; discriminate].
Qed.

(** Contact 203.0.113.5:5060, received 203.0.113.5, rport 5060. *)
Lemma checkNATAddress_unchanged_when_equal_witness :
  let param := Sample.response PJ_SUCCESS 200 (Sample.via "203.0.113.5" 5060)
                               "198.51.100.7" in
  observed_via_addr (p_rdata param) = "203.0.113.5"
  /\ observed_rport (p_rdata param) = 5060
  /\ observed_equals_contact Sample.account (p_rdata param) = true
  /\ result_of (checkNATAddress param Sample.account) = Done false
  /\ contactHeader_ (state_of (checkNATAddress param Sample.account))
     = "<sip:alice@203.0.113.5:5060>".
Proof.
  cbv zeta. split; [reflexivity |]. split; [reflexivity |].
  split; [vm_compute; reflexivity |].
  destruct (checkNATAddress_unchanged_when_equal
              (Sample.response PJ_SUCCESS 200 (Sample.via "203.0.113.5" 5060)
                               "198.51.100.7")
              Sample.account)
    as (Hresult & Hheader & _).
  - vm_compute. reflexivity.
  - split; [exact Hresult | exact Hheader].
Defined.

(** Contact 203.0.113.5:5060, source 198.51.100.7, received 10.0.0.4. *)
Lemma checkNATAddress_unchanged_when_private_seen_from_public_witness :
  let param := Sample.response PJ_SUCCESS 200 (Sample.via "10.0.0.4" 5060)
                               "198.51.100.7" in
  isPrivate (current_contact Sample.account (p_rdata param)) = false
  /\ isPrivate (IpAddr_of_string (rd_src_name (p_rdata param))) = false
  /\ isPrivate (observed_sockaddr (p_rdata param)) = true
  /\ observed_equals_contact Sample.account (p_rdata param) = false
  /\ result_of (checkNATAddress param Sample.account) = Done false
  /\ contactHeader_ (state_of (checkNATAddress param Sample.account))
     = "<sip:alice@203.0.113.5:5060>".
Proof.
  cbv zeta. do 4 (split; [vm_compute; reflexivity |]).
  destruct (checkNATAddress_unchanged_when_private_seen_from_public
              (Sample.response PJ_SUCCESS 200 (Sample.via "10.0.0.4" 5060)
                               "198.51.100.7")
              Sample.account)
    as (Hresult & Hheader & _).
  - vm_compute. reflexivity.
  - vm_compute. reflexivity.
  - vm_compute. reflexivity.
  - split; [exact Hresult | exact Hheader].
Defined.

(** Contact 203.0.113.5:5060, received 203.0.113.9, rport 5062: the
    contact is rewritten. *)
Example changed_address_rewrites_contact :
  let r := checkNATAddress
             (Sample.response PJ_SUCCESS 200 (Sample.via "203.0.113.9" 5062)
                              "198.51.100.7")
             Sample.account in
  result_of r = Done true
  /\ contactHeader_ (state_of r) = "<sip:alice@203.0.113.9:5062>"
  /\ List.filter is_update_contact (events_of r)
     = [EvRegcUpdateContact 7%nat "<sip:alice@203.0.113.9:5062>"].
Proof. vm_compute. repeat split; reflexivity. Qed.

Lemma onComplete_challenge_resends_witness :
  ctx_acc Sample.message = true
  /\ List.filter is_resend
       (onComplete Sample.accepting Sample.message
                   (mk_tsx_event 401 Sample.request)).1
     = [EvSendRequest (mk_tx_data 101 1)].
Proof.
  split; [reflexivity |].
  destruct (onComplete_challenge_resends Sample.accepting Sample.message 401
              Sample.request eq_refl (or_introl eq_refl))
    as (Hresend & _).
  exact (proj1 (Hresend eq_refl)).
Defined.

(** Two challenges in a row that the authentication session accepts, the
    407 of a proxy and the 401 of the server behind it: the request is
    sent again twice, with CSeq 101 and 102, and no delivery failure is
    reported. *)
Lemma second_challenge_resends_again :
  let evs := deliver [(407, Sample.accepting); (401, Sample.accepting)]
                     Sample.message Sample.request in
  evs = [EvSendRequest (mk_tx_data 101 1); EvSendRequest (mk_tx_data 102 2)]
  /\ length (List.filter is_resend evs) = 2%nat
  /\ List.filter is_delivery_failure evs = [].
Proof. vm_compute. repeat split; reflexivity. Qed.

(** A second challenge that the authentication session refuses: one
    resend, then the delivery failure. *)
Example second_challenge_refused_fails :
  deliver [(401, Sample.accepting); (401, mk_AuthEnv false true)]
          Sample.message Sample.request
  = [EvSendRequest (mk_tx_data 101 1);
     EvJamiErr "Unable to add Authorization Header into msg";
     EvMessageSent "bob" 42 false].
Proof. vm_compute. reflexivity. Qed.

Example empty_list_keeps_sample_credentials :
  credentials_ (state_of (setCredentials Sample.env [] Sample.account))
  = [mk_Credentials "sip.example.org" "alice" "secret" ""].
Proof. reflexivity. Qed.



Example md5_of_empty :
  hex_of_digest (MD5.digest (bytes_of_string "")) = "d41d8cd98f00b204e9800998ecf8427e".
Proof. vm_compute. reflexivity. Qed.

Example md5_of_abc :
  hex_of_digest (MD5.digest (bytes_of_string "abc")) = "900150983cd24fb0d6963f7d28e17f72".
Proof. vm_compute. reflexivity. Qed.

Example md5_of_two_blocks :
  hex_of_digest
    (MD5.digest (bytes_of_string
       "aaaaaaaaaaaaaaaaaaaaaaaaaaaaaaaaaaaaaaaaaaaaaaaaaaaaaaaaaaaaaaaaaaaaaa"))
  = "0f5c6c4e740bfcc08c3c26ccb2673d46".
Proof. vm_compute. reflexivity. Qed.

Example sample_contact_header :
  contactHeader_ (state_of (updateContactHeader Sample.account))
  = contactHeader_ Sample.account.
Proof. vm_compute. reflexivity. Qed.

(** The account registers: the contact is the local address of the
    transport, and one REGISTER is sent with it. *)
Example sample_account_registers :
  let r := doRegister Sample.env Sample.account in
  result_of r = Done tt
  /\ registrationState_ (state_of r) = TRYING
  /\ regc_ (state_of r) = Some 8%nat
  /\ List.filter (is_regc_send REGISTER) (events_of r)
     = [EvRegcSend 8%nat REGISTER "<sip:alice@192.168.1.20:5060>"].
Proof. vm_compute. repeat split; reflexivity. Qed.

Example sample_account_unregisters :
  let r := doUnregister Sample.env None Sample.account in
  result_of r = Done tt
  /\ transport_ (state_of r) = None
  /\ List.filter (is_regc_send UNREGISTER) (events_of r)
     = [EvRegcSend 7%nat UNREGISTER "<sip:alice@203.0.113.5:5060>"].
Proof. vm_compute. repeat split; reflexivity. Qed.

(** * The further properties on concrete inputs *)

Lemma getCleanPath_getFullPath_witness :
  "/home/alice" <> ""
  /\ fileutils.isPathRelative "ringtones/default.opus" = true
  /\ fileutils.getFullPath "/home/alice" "ringtones/default.opus"
     = "/home/alice/ringtones/default.opus"
  /\ fileutils.getCleanPath "/home/alice"
       (fileutils.getFullPath "/home/alice" "ringtones/default.opus")
     = "ringtones/default.opus".
Proof.
  assert (Hbase : "/home/alice" <> "") by discriminate.
  assert (Hrel : fileutils.isPathRelative "ringtones/default.opus" = true) by reflexivity.
  split; [exact Hbase |]. split; [exact Hrel |].
  exact (getCleanPath_getFullPath "/home/alice" "ringtones/default.opus" Hbase Hrel).
Defined.

Lemma getFullPath_getCleanPath_witness :
  fileutils.getCleanPath "/home/alice" "/home/alice/ringtones/default.opus"
  = "ringtones/default.opus"
  /\ fileutils.getFullPath "/home/alice"
       (fileutils.getCleanPath "/home/alice" "/home/alice/ringtones/default.opus")
     = "/home/alice/ringtones/default.opus".
Proof.
  split; [reflexivity |].
  refine (proj2 (getFullPath_getCleanPath "/home/alice"
                   "/home/alice/ringtones/default.opus" _ _)).
  - vm_compute. discriminate.
  - reflexivity.
Defined.

Lemma getFileExtension_spec_witness :
  "JPG" <> ""
  /\ fileutils.getFileExtension "holiday.photo.JPG" = "JPG"
  /\ fileutils.getFileExtension "archive.tar.backup2024" = "".
Proof.
  assert (Hext : "JPG" <> "") by discriminate.
  split; [exact Hext |]. split; [| reflexivity].
  apply (getFileExtension_spec "holiday.photo.JPG" "JPG" Hext).
  split; [exists "holiday.photo"; reflexivity |]. split; [reflexivity | cbn; lia].
Defined.

Lemma eraseFile_posix_overwrites_witness :
  (0 < 10000)%N
  /\ fileutils.overwrites 0 (fileutils.eraseFile_posix true (Some 10000%N) true true).2
                          9999 = true
  /\ length (fileutils.eraseFile_posix true (Some 10000%N) true true).2 = 8%nat.
Proof.
  assert (Hsize : (0 < 10000)%N) by reflexivity.
  split; [exact Hsize |]. split; [| reflexivity].
  destruct (eraseFile_posix_overwrites 10000%N true Hsize) as (_ & Hall & _).
  apply Hall. reflexivity.
Defined.

Lemma initStunConfiguration_split_witness :
  contains_char ":" "stun.example.org" = false
  /\ initStunConfiguration "stun.example.org" 0 = ("stun.example.org", 3478)
  /\ initStunConfiguration "stun.example.org:3479" 0 = ("stun.example.org", 3479)
  /\ initStunConfiguration "stun.example.org:" 3479 = ("stun.example.org", 3479).
Proof.
  assert (Hhost : contains_char ":" "stun.example.org" = false) by reflexivity.
  destruct (initStunConfiguration_split "stun.example.org" 0 Hhost)
    as (Hnone & _ & Hport).
  destruct (initStunConfiguration_split "stun.example.org" 3479 Hhost)
    as (_ & Hkept & _).
  split; [exact Hhost |]. split; [exact Hnone |]. split.
  - apply (Hport [3; 4; 7; 9] "").
    + discriminate.
    + repeat constructor; lia.
    + vm_compute. discriminate.
    + reflexivity.
  - apply (Hkept ""). reflexivity.
Defined.

Lemma onRegister_ignored_witness :
  let param := Sample.response PJ_SUCCESS 100 (Sample.via "203.0.113.5" 5060)
                               "198.51.100.7" in
  p_status param = PJ_SUCCESS
  /\ 0 <= p_code param < 200
  /\ onRegister Sample.env param Sample.account = (Done tt, Sample.account, []).
Proof.
  cbv zeta. split; [reflexivity |]. split; [cbn; lia |].
  apply onRegister_ignored. right. split; [reflexivity | cbn; lia].
Defined.

Lemma onRegister_registered_witness :
  let param := Sample.response PJ_SUCCESS 200 (Sample.via "203.0.113.5" 5060)
                               "198.51.100.7" in
  p_regc param = regc_ Sample.account
  /\ 1 <= p_expiration param
  /\ registrationState_ (state_of (onRegister Sample.env param Sample.account))
     = REGISTERED
  /\ regc_ (state_of (onRegister Sample.env param Sample.account)) = Some 7%nat.
Proof.
  cbv zeta. split; [reflexivity |]. split; [cbn; lia |].
  destruct (onRegister_registered Sample.env
              (Sample.response PJ_SUCCESS 200 (Sample.via "203.0.113.5" 5060)
                               "198.51.100.7")
              Sample.account eq_refl eq_refl)
    as (_ & Hstate & _ & Hregc & _).
  - cbn. lia.
  - cbn. lia.
  - split; [exact Hstate | exact Hregc].
Defined.

Lemma onRegister_unregistered_witness :
  p_expiration Sample.unregistered < 1
  /\ registrationState_ (state_of (onRegister Sample.env Sample.unregistered
                                              Sample.account)) = UNREGISTERED
  /\ events_of (onRegister Sample.env Sample.unregistered Sample.account)
     = [EvRegcDestroy 7%nat].
Proof.
  split; [cbn; lia |].
  destruct (onRegister_unregistered Sample.env Sample.unregistered Sample.account 7%nat
              eq_refl eq_refl eq_refl)
    as (_ & Hstate & _ & _ & _ & Hevents).
  - cbn. lia.
  - cbn. lia.
  - split; [exact Hstate | exact Hevents].
Defined.

Lemma retry_timer_outlives_success_witness :
  let param := Sample.response PJ_SUCCESS 200 (Sample.via "203.0.113.5" 5060)
                               "198.51.100.7" in
  timer_id (auto_rereg_ Sample.retrying) = true
  /\ auto_rereg_ (state_of (onRegister Sample.env param Sample.retrying))
     = mk_AutoRereg false true false 0
  /\ result_of (auto_rereg_timer_cb Sample.env
                  (state_of (onRegister Sample.env param Sample.retrying)))
     = Undefined.
Proof.
  cbv zeta. split; [reflexivity |]. split; [vm_compute; reflexivity |].
  destruct (retry_timer_outlives_success Sample.env Sample.env
              (Sample.response PJ_SUCCESS 200 (Sample.via "203.0.113.5" 5060)
                               "198.51.100.7")
              Sample.retrying eq_refl eq_refl eq_refl)
    as (_ & _ & _ & Hundefined).
  - cbn. lia.
  - exact Hundefined.
Defined.

Lemma autoReregTimerCb_failed_attempt_witness :
  let env := Sample.collaborators None true in
  active (auto_rereg_ Sample.retrying) = true
  /\ regc_create env = None
  /\ auto_rereg_ (state_of (autoReregTimerCb env Sample.retrying))
     = mk_AutoRereg true true true 2
  /\ List.filter is_schedule_timer (events_of (autoReregTimerCb env Sample.retrying))
     = [EvScheduleTimer (mk_time_val 302 500)].
Proof.
  cbv zeta. split; [reflexivity |]. split; [reflexivity |].
  destruct (autoReregTimerCb_failed_attempt (Sample.collaborators None true)
              Sample.retrying eq_refl eq_refl eq_refl)
    as (_ & Hrecord & _ & _ & delay & Hevents & _).
  - cbn. lia.
  - unfold draws_from. cbn. lia.
  - split; [exact Hrecord |]. vm_compute. reflexivity.
Defined.

Lemma doUnregister_releases_witness :
  transport_get Sample.account = Some Sample.udp
  /\ transport_ (state_of (doUnregister Sample.env None Sample.account)) = None
  /\ bRegister_ (state_of (doUnregister Sample.env None Sample.account)) = false
  /\ regc_ (state_of (doUnregister Sample.env None Sample.account)) = Some 7%nat
  /\ registrationState_ (state_of (doUnregister Sample.env None Sample.account)) = TRYING.
Proof.
  split; [reflexivity |].
  destruct (doUnregister_releases Sample.env Sample.account)
    as (_ & Htransport & _ & _ & Hregc & Hflag & _ & _ & Hstate & _).
  - intros _. vm_compute. discriminate.
  - split; [exact Htransport |]. split; [exact (Hflag eq_refl) |].
    split; [exact Hregc | exact Hstate].
Defined.

(** The sample account when its registration was never sent: it becomes
    UNREGISTERED at once, with the detail 0. *)
Example unregister_of_unregistered_account :
  let r := doUnregister Sample.env None (set_bRegister_ false Sample.account) in
  registrationState_ (state_of r) = UNREGISTERED
  /\ registrationStateDetailed_ (state_of r) = 0
  /\ List.filter (is_regc_send UNREGISTER) (events_of r) = [].
Proof. vm_compute. repeat split; reflexivity. Qed.

Lemma unregister_after_failed_register_witness :
  let env := Sample.collaborators None true in
  let a := set_regc_ None Sample.account in
  let a' := state_of (doRegister2_ env a) in
  regc_create env = None
  /\ registrationState_ a' = ERROR_GENERIC
  /\ isRegistered a' = true
  /\ In (EvJamiErr "Registration structure is NULL")
        (events_of (doUnregister Sample.env None a'))
  /\ registrationState_ (state_of (doUnregister Sample.env None a')) = ERROR_GENERIC.
Proof.
  cbv zeta. split; [reflexivity |].
  destruct (unregister_after_failed_register (Sample.collaborators None true) Sample.env
              (set_regc_ None Sample.account) (mk_SipTransport 2 (Some Sample.udp))
              eq_refl eq_refl eq_refl eq_refl)
    as (Hstate & Hflag & _ & _ & Hin & _ & Hafter).
  - reflexivity.
  - reflexivity.
  - vm_compute. discriminate.
  - reflexivity.
  - reflexivity.
  - split; [exact Hstate |]. split; [exact Hflag |]. split; [exact Hin | exact Hafter].
Defined.

Lemma checkNATAddress_again_witness :
  let param := Sample.response PJ_SUCCESS 200 (Sample.via "203.0.113.9" 5062)
                               "198.51.100.7" in
  let a' := state_of (checkNATAddress param Sample.account) in
  result_of (checkNATAddress param Sample.account) = Done true
  /\ contactHeader_ a' = "<sip:alice@203.0.113.9:5062>"
  /\ contactAddress_ a' = Sample.addr "203.0.113.5" 5060
  /\ result_of (checkNATAddress param a') = Done true.
Proof.
  cbv zeta.
  assert (Hfirst : result_of (checkNATAddress
                     (Sample.response PJ_SUCCESS 200 (Sample.via "203.0.113.9" 5062)
                                      "198.51.100.7")
                     Sample.account) = Done true) by (vm_compute; reflexivity).
  split; [exact Hfirst |]. split; [vm_compute; reflexivity |].
  destruct (checkNATAddress_again _ _ Hfirst) as (Haddress & Hagain & _).
  split; [exact Haddress | exact Hagain].
Defined.

Lemma setTransport_contact_witness :
  let t := mk_SipTransport 2 (Some Sample.udp) in
  st_ptr <$> Some t <> st_ptr <$> transport_ Sample.account
  /\ transport_ (state_of (setTransport Sample.env (Some t) Sample.account)) = Some t
  /\ contactHeader_ (state_of (setTransport Sample.env (Some t) Sample.account))
     = "<sip:alice@192.168.1.20:5060>"
  /\ List.filter is_jami_err (events_of (setTransport Sample.env (Some t) Sample.account))
     = [].
Proof.
  cbv zeta.
  assert (Hother : st_ptr <$> Some (mk_SipTransport 2 (Some Sample.udp))
                   <> st_ptr <$> transport_ Sample.account)
    by (vm_compute; discriminate).
  split; [exact Hother |].
  destruct (setTransport_contact Sample.env (mk_SipTransport 2 (Some Sample.udp))
              Sample.account Hother)
    as (_ & Htransport & _ & Hsilent).
  split; [exact Htransport |]. split; [vm_compute; reflexivity | exact Hsilent].
Defined.

(** A transport that holds no pjsip transport is installed, and the
    contact is left alone. *)
Example transport_not_created_yet :
  let r := setTransport Sample.env (Some (mk_SipTransport 2 None)) Sample.account in
  transport_ (state_of r) = Some (mk_SipTransport 2 None)
  /\ contactHeader_ (state_of r) = "<sip:alice@203.0.113.5:5060>"
  /\ List.filter is_jami_err (events_of r) = [EvJamiErr "Transport not created yet"].
Proof. vm_compute. repeat split; reflexivity. Qed.

Lemma getCredentials_setCredentials_witness :
  [Sample.credential] <> []
  /\ Sample.credential = credentialMap "sip.example.org" "alice" "secret"
  /\ password_h <$> credentials_ (state_of (setCredentials Sample.env [Sample.credential]
                                                           Sample.account))
     = ["3b82f731f40412b971a06b016e3ef337"]
  /\ getCredentials (state_of (setCredentials Sample.env [Sample.credential]
                                              Sample.account))
     = [Sample.credential].
Proof.
  assert (Hne : [Sample.credential] <> []) by discriminate.
  split; [exact Hne |]. split; [reflexivity |]. split; [vm_compute; reflexivity |].
  apply (proj2 (getCredentials_setCredentials Sample.env [Sample.credential]
                  Sample.account Hne)).
  constructor; [| constructor]. exists "sip.example.org", "alice", "secret". reflexivity.
Defined.


Lemma message_reported_at_most_once_witness :
  let rs := [(401, Sample.accepting); (200, Sample.accepting); (200, Sample.accepting)] in
  let reports :=
    List.filter is_message_sent
      (message_events Sample.messaging rs "bob" Sample.payloads 42 Sample.account) in
  cred_ Sample.account <> []
  /\ reports = [EvMessageSent "bob" 42 true]
  /\ (length reports <= 1)%nat.
Proof.
  cbv zeta.
  assert (Hcred : cred_ Sample.account <> []) by discriminate.
  split; [exact Hcred |]. split; [vm_compute; reflexivity |].
  exact (proj1 (message_reported_at_most_once Sample.messaging
                  [(401, Sample.accepting); (200, Sample.accepting);
                   (200, Sample.accepting)]
                  "bob" Sample.payloads 42 Sample.account Hcred)).
Defined.

Lemma sendMessage_rewrites_realm_witness :
  let creds := [credentialMap "*" "alice" "secret"] in
  let a1 := state_of (setCredentials Sample.env creds Sample.account) in
  let a2 := state_of (sendMessage Sample.messaging "bob" Sample.payloads 42 a1) in
  creds <> []
  /\ Sample.payloads <> ∅
  /\ ci_realm <$> cred_ a1 = ["*"]
  /\ ci_realm <$> cred_ a2 = ["sip.example.org"]
  /\ getCredentials a2 = getCredentials a1.
Proof.
  cbv zeta.
  assert (Hne : [credentialMap "*" "alice" "secret"] <> []) by discriminate.
  assert (Hto : "bob" <> "") by discriminate.
  assert (Hpayloads : Sample.payloads <> ∅).
  { intros Hempty. apply (f_equal (fun m => m !! "text/plain")) in Hempty.
    vm_compute in Hempty. discriminate. }
  split; [exact Hne |]. split; [exact Hpayloads |].
  split; [vm_compute; reflexivity |]. split; [vm_compute; reflexivity |].
  exact (proj1 (proj2 (sendMessage_rewrites_realm Sample.env Sample.messaging
                         [credentialMap "*" "alice" "secret"] "bob" Sample.payloads 42
                         Sample.request Sample.account Hne Hto Hpayloads eq_refl))).
Defined.

Lemma connectivityChanged_registers_again_witness :
  let env' := Sample.collaborators (Some 8%nat) true in
  pjsip_accepts Sample.env
  /\ pjsip_accepts env'
  /\ List.filter (fun e => is_regc_send UNREGISTER e || is_regc_send REGISTER e)
       (events_of (connectivityChanged Sample.env env' Sample.account))
     = [EvRegcSend 7%nat UNREGISTER "<sip:alice@203.0.113.5:5060>";
        EvRegcSend 8%nat REGISTER "<sip:alice@192.168.1.20:5060>"]
  /\ exists before between after contact,
       events_of (connectivityChanged Sample.env env' Sample.account)
       = before ++ EvRegcSend 7%nat UNREGISTER "<sip:alice@203.0.113.5:5060>"
         :: between ++ EvRegcSend 8%nat REGISTER contact :: after.
Proof.
  cbv zeta.
  assert (Haccepts : pjsip_accepts Sample.env) by (repeat split).
  assert (Haccepts' : pjsip_accepts (Sample.collaborators (Some 8%nat) true))
    by (repeat split).
  split; [exact Haccepts |]. split; [exact Haccepts' |].
  split; [vm_compute; reflexivity |].
  refine (connectivityChanged_registers_again Sample.env
            (Sample.collaborators (Some 8%nat) true) Sample.account 7%nat 8%nat
            Sample.udp Sample.udp (mk_SipTransport 2 (Some Sample.udp))
            (Sample.addr "198.51.100.7" 0) [] eq_refl eq_refl eq_refl eq_refl eq_refl
            eq_refl eq_refl Haccepts eq_refl eq_refl eq_refl _ eq_refl eq_refl eq_refl
            Haccepts').
  vm_compute. discriminate.
Defined.

Lemma sendRegister_registers_witness :
  pjsip_accepts Sample.env
  /\ regc_ (state_of (sendRegister Sample.env Sample.account)) = Some 8%nat
  /\ List.filter (is_regc_send REGISTER) (events_of (sendRegister Sample.env Sample.account))
     = [EvRegcSend 8%nat REGISTER "<sip:alice@203.0.113.5:5060>"]
  /\ List.filter is_regc_destroy (events_of (sendRegister Sample.env Sample.account))
     = [EvRegcDestroy 7%nat].
Proof.
  assert (Haccepts : pjsip_accepts Sample.env) by (repeat split).
  split; [exact Haccepts |].
  destruct (sendRegister_registers Sample.env Sample.account 8%nat Sample.udp
              eq_refl eq_refl eq_refl Haccepts)
    as (_ & Hregc & _ & _ & Hsent & _ & Hdestroyed).
  split; [exact Hregc |]. split; [exact Hsent | exact Hdestroyed].
Defined.

Lemma sendRegister_failure_witness :
  let env := Sample.collaborators (Some 8%nat) false in
  result_of (sendRegister env Sample.account)
  = Thrown "Unable to initialize account registration structure"
  /\ In (EvRegcCreate 8%nat) (events_of (sendRegister env Sample.account))
  /\ List.filter is_regc_destroy (events_of (sendRegister env Sample.account)) = []
  /\ regc_ (state_of (sendRegister env Sample.account)) = Some 7%nat.
Proof.
  cbv zeta.
  assert (Hthrown : result_of (sendRegister (Sample.collaborators (Some 8%nat) false)
                                            Sample.account)
                    = Thrown "Unable to initialize account registration structure")
    by (vm_compute; reflexivity).
  split; [exact Hthrown |].
  destruct (sendRegister_failure (Sample.collaborators (Some 8%nat) false) Sample.account
              8%nat _ eq_refl eq_refl Hthrown)
    as (Hcreated & Hkept & Hregc & _).
  split; [exact Hcreated |]. split; [exact Hkept | exact Hregc].
Defined.

(** A recipient is completed once; over TLS a URI that is complete
    already gets the transport parameter again. *)
Example sample_to_uri :
  getServerUri Sample.account = "<sip:sip.example.org>"
  /\ getToUri Sample.account "bob" = "<sip:bob@sip.example.org>"
  /\ getToUri Sample.account "<sip:bob@sip.example.org>" = "<sip:bob@sip.example.org>"
  /\ getToUri (set_transportType_ PJSIP_TRANSPORT_TLS Sample.account)
              "<sips:bob@sip.example.org;transport=TLS>"
     = "<sips:bob@sip.example.org;transport=TLS>;transport=TLS".
Proof. vm_compute. repeat split; reflexivity. Qed.

(** With a resolver that finds no address in common: the user and the
    host of the account, the host alone, and neither. *)
Example sample_matches :
  matches (fun _ _ => false) Sample.account "alice" "sip.example.org" = FULL
  /\ matches (fun _ _ => false) Sample.account "" "sip.example.org" = PARTIAL
  /\ matches (fun _ _ => false) Sample.account "bob" "proxy.example.org" = NONE.
Proof. vm_compute. repeat split; reflexivity. Qed.

(** Three ciphers whose names have 400 characters each: the third one
    would pass the bound. *)
Example long_cipher_names_are_trimmed :
  trimCiphers (fun _ => string_of_list_ascii (repeat "A"%char 400)) [1; 2; 3] = [1; 2].
Proof. vm_compute. reflexivity. Qed.

(** A file of 10000 bytes is erased in three blocks. *)
Example erase_10000_bytes :
  fileutils.eraseFile_posix true (Some 10000%N) true true
  = (true,
     [fileutils.Lseek 0; fileutils.Write 4096; fileutils.Lseek 4096; fileutils.Write 4096;
      fileutils.Lseek 8192; fileutils.Write 4096; fileutils.Fsync; fileutils.Close]).
Proof. vm_compute. reflexivity. Qed.

(** The transport of the sample account goes down without a state
    info. *)
Example sample_transport_down :
  let r := onTransportStateChanged Sample.env false None 200 Sample.account in
  result_of r = Done (503, true)
  /\ registrationState_ (state_of r) = ERROR_GENERIC
  /\ events_of r = [EvRegcReleaseTransport 7%nat; EvRemoveStateListener 1%nat].
Proof. vm_compute. repeat split; reflexivity. Qed.

(** A new push token: the account registers again, with the token in
    its contact. *)
Example sample_push_token :
  let r := setPushNotificationToken Sample.env (Sample.collaborators (Some 8%nat) true)
                                    "token" Sample.account in
  result_of r = Done tt
  /\ deviceKey_ (state_of r) = "token"
  /\ List.filter (is_regc_send REGISTER) (events_of r)
     = [EvRegcSend 8%nat REGISTER "<sip:alice@192.168.1.20:5060;pn-param=;pn-prid=token>"].
Proof. vm_compute. repeat split; reflexivity. Qed.
